(** * n8nctl: a shallow embedding of the command dispatcher and of the
  workflow helpers, with the properties of its specification.

  The development follows the later, modular version of the tool:
  packages [config], [utils], [workflows], [entities] and [cmd].  Go
  strings are byte strings and are embedded as [string]; Go maps are
  [gmap]s; the process state (file system, standard input, everything
  the process did to the outside) is threaded through a small
  state-and-exit monad. *)

From Stdlib Require Import ZArith NArith Ascii Lia.
From stdpp Require Import base option list gmap strings pretty.

Local Open Scope Z_scope.
Local Open Scope stdpp_scope.

(* ================================================================== *)
(** * Part of the Go standard library that the tool calls *)
(* ================================================================== *)

(** ** Package [strings], on byte strings *)

Module Strings.

Definition byte (c : ascii) : N := N_of_ascii c.

(** [strings.HasPrefix] *)
Fixpoint HasPrefix (s prefix : string) {struct prefix} : bool :=
  match prefix with
  | EmptyString => true
  | String p prefix' =>
      match s with
      | EmptyString => false
      | String c s' => if Ascii.eqb c p then HasPrefix s' prefix' else false
      end
  end.

(** [strings.CutPrefix], the slice [s[len(prefix):]] once [HasPrefix]
    holds. *)
Fixpoint CutPrefix (s prefix : string) {struct prefix} : option string :=
  match prefix with
  | EmptyString => Some s
  | String p prefix' =>
      match s with
      | EmptyString => None
      | String c s' => if Ascii.eqb c p then CutPrefix s' prefix' else None
      end
  end.

(** [strings.HasSuffix] *)
Definition HasSuffix (s suffix : string) : bool :=
  HasPrefix (String.rev s) (String.rev suffix).

Definition CutSuffix (s suffix : string) : option string :=
  String.rev <$> CutPrefix (String.rev s) (String.rev suffix).

(** [strings.Contains] *)
Fixpoint Contains (s substr : string) : bool :=
  HasPrefix s substr ||
  match s with
  | EmptyString => false
  | String _ s' => Contains s' substr
  end.

(** White space as [unicode.IsSpace] sees it, on the UTF-8 encoding:
    the six ASCII characters, U+0085 and U+00A0 (two bytes), U+1680,
    U+2000..U+200A, U+2028, U+2029, U+202F, U+205F and U+3000 (three
    bytes). *)
Definition is_space1 (c : ascii) : bool :=
  let n := byte c in ((9 <=? n) && (n <=? 13) || (n =? 32))%N.

Definition is_space2 (c1 c2 : ascii) : bool :=
  ((byte c1 =? 194) && ((byte c2 =? 133) || (byte c2 =? 160)))%N.

Definition is_space3 (c1 c2 c3 : ascii) : bool :=
  let '(a, b, c) := (byte c1, byte c2, byte c3) in
  ( (a =? 225) && (b =? 154) && (c =? 128)
  || (a =? 226) && (b =? 128) &&
       ((128 <=? c) && (c <=? 138) || (c =? 168) || (c =? 169) || (c =? 175))
  || (a =? 226) && (b =? 129) && (c =? 159)
  || (a =? 227) && (b =? 128) && (c =? 128))%N.

(** [strings.TrimLeftFunc(s, unicode.IsSpace)]: runes are decoded from
    the front; a byte sequence that is no white-space rune stops the
    scan. *)
Fixpoint TrimLeftSpace (s : string) : string :=
  match s with
  | String c1 s1 =>
      if is_space1 c1 then TrimLeftSpace s1 else
      match s1 with
      | String c2 s2 =>
          if is_space2 c1 c2 then TrimLeftSpace s2 else
          match s2 with
          | String c3 s3 =>
              if is_space3 c1 c2 c3 then TrimLeftSpace s3 else s
          | EmptyString => s
          end
      | EmptyString => s
      end
  | EmptyString => s
  end.

(** The same scan on the reversed string: [utf8.DecodeLastRuneInString]
    walks back to the rune's first byte, so a white-space rune at the
    end is one of the byte patterns above read backwards. *)
Fixpoint TrimLeftSpace_rev (r : string) : string :=
  match r with
  | String c1 r1 =>
      if is_space1 c1 then TrimLeftSpace_rev r1 else
      match r1 with
      | String c2 r2 =>
          if is_space2 c2 c1 then TrimLeftSpace_rev r2 else
          match r2 with
          | String c3 r3 =>
              if is_space3 c3 c2 c1 then TrimLeftSpace_rev r3 else r
          | EmptyString => r
          end
      | EmptyString => r
      end
  | EmptyString => r
  end.

Definition TrimRightSpace (s : string) : string :=
  String.rev (TrimLeftSpace_rev (String.rev s)).

(** [strings.TrimSpace] *)
Definition TrimSpace (s : string) : string :=
  TrimRightSpace (TrimLeftSpace s).

(** Membership of a byte in a cutset of ASCII characters. *)
Fixpoint in_cutset (c : ascii) (cutset : string) : bool :=
  match cutset with
  | EmptyString => false
  | String d cutset' => Ascii.eqb c d || in_cutset c cutset'
  end.

(** [strings.TrimLeft], [strings.TrimRight] and [strings.Trim]; every
    cutset the tool passes is one ASCII character, for which Go trims
    byte by byte. *)
Fixpoint TrimLeft (s cutset : string) : string :=
  match s with
  | String c s' => if in_cutset c cutset then TrimLeft s' cutset else s
  | EmptyString => s
  end.

Definition TrimRight (s cutset : string) : string :=
  String.rev (TrimLeft (String.rev s) cutset).

Definition Trim (s cutset : string) : string :=
  TrimRight (TrimLeft s cutset) cutset.

(** [strings.ToLower] on the ASCII letters.  Go maps the letters
    outside ASCII through the Unicode case tables as well; those tables
    are not part of this development, and bytes from 128 on are kept. *)
Definition lower_byte (c : ascii) : ascii :=
  let n := byte c in
  if ((65 <=? n) && (n <=? 90))%N then ascii_of_N (n + 32) else c.

Fixpoint ToLower (s : string) : string :=
  match s with
  | EmptyString => EmptyString
  | String c s' => String (lower_byte c) (ToLower s')
  end.

(** [strings.Split(s, sep)] for a separator of one byte: always at
    least one piece. *)
Fixpoint Split (s : string) (sep : ascii) : list string :=
  match s with
  | EmptyString => [EmptyString]
  | String c s' =>
      if Ascii.eqb c sep then EmptyString :: Split s' sep
      else match Split s' sep with
           | piece :: pieces => String c piece :: pieces
           | [] => [String c EmptyString]
           end
  end.

(** [strings.SplitN(s, sep, 2)] for a separator of one byte: the text
    before and after the first separator, or [s] alone. *)
Fixpoint Cut (s : string) (sep : ascii) : option (string * string) :=
  match s with
  | EmptyString => None
  | String c s' =>
      if Ascii.eqb c sep then Some (EmptyString, s')
      else match Cut s' sep with
           | Some (before, after) => Some (String c before, after)
           | None => None
           end
  end.

Definition SplitN2 (s : string) (sep : ascii) : list string :=
  match Cut s sep with
  | Some (before, after) => [before; after]
  | None => [s]
  end.

(** [strings.Join] *)
Fixpoint Join (elems : list string) (sep : string) : string :=
  match elems with
  | [] => EmptyString
  | [e] => e
  | e :: elems' => e +:+ sep +:+ Join elems' sep
  end.

End Strings.

(** Characters that cannot be written inside a string literal here. *)
Definition nl : string := String "010"%char EmptyString.
Definition dq : string := String "034"%char EmptyString.

(** ** Package [path/filepath], for slash-separated paths *)

Module Filepath.

(** One step of [Clean] over the path elements; [stack] holds the
    elements kept so far, the last one first. *)
Definition clean_step (rooted : bool) (stack : list string) (elem : string)
  : list string :=
  if decide (elem = "" ∨ elem = ".") then stack
  else if decide (elem = "..") then
    match stack with
    | top :: below =>
        if decide (top = "..") then elem :: stack else below
    | [] => if rooted then [] else [elem]
    end
  else elem :: stack.

(** [filepath.Clean] *)
Definition Clean (path : string) : string :=
  if decide (path = "") then "."
  else
    let rooted := Strings.HasPrefix path "/" in
    let stack := fold_left (clean_step rooted) (Strings.Split path "/"%char) [] in
    let body := Strings.Join (rev stack) "/" in
    if rooted then "/" +:+ body
    else if decide (body = "") then "." else body.

(** [filepath.Join]: the elements from the first one that is not empty
    on, joined by slashes and cleaned. *)
Fixpoint Join (elem : list string) : string :=
  match elem with
  | [] => ""
  | e :: elem' =>
      if decide (e = "") then Join elem' else Clean (Strings.Join elem "/")
  end.

(** The bytes of [r] from its first slash on, [r] being a path read
    backwards. *)
Fixpoint from_slash (r : string) : string :=
  match r with
  | EmptyString => EmptyString
  | String c r' => if Ascii.eqb c "/"%char then r else from_slash r'
  end.

(** [filepath.Dir]: everything up to the last slash, cleaned. *)
Definition Dir (path : string) : string :=
  Clean (String.rev (from_slash (String.rev path))).

End Filepath.

(** ** Package [bufio] *)

Module Bufio.

(** [Reader.ReadString(delim)] on the input that is left: the text up to
    and with the delimiter, the input after it, and whether the end of
    the input came first ([io.EOF]). *)
Fixpoint ReadString (input : string) (delim : ascii)
  : string * string * bool :=
  match input with
  | EmptyString => (EmptyString, EmptyString, true)
  | String c input' =>
      if Ascii.eqb c delim then (String c EmptyString, input', false)
      else let '(line, rest, eof) := ReadString input' delim in
           (String c line, rest, eof)
  end.

(** [dropCR] of [bufio.ScanLines]. *)
Definition dropCR (line : string) : string :=
  match Strings.CutSuffix line (String "013"%char EmptyString) with
  | Some line' => line'
  | None => line
  end.

(** The pieces between newlines; the piece after the last newline is a
    line only when it is not empty. *)
Fixpoint raw_lines (data : string) : list string :=
  match data with
  | EmptyString => []
  | String c data' =>
      if Ascii.eqb c "010"%char then EmptyString :: raw_lines data'
      else match raw_lines data' with
           | line :: lines => String c line :: lines
           | [] => [String c EmptyString]
           end
  end.

(** [bufio.MaxScanTokenSize]: the size of the buffer of a [Scanner]. *)
Definition MaxScanTokenSize : N := 65536.

(** A line becomes a token when it fits into the buffer together with
    its newline, or, for a last line without newline, with one byte to
    spare, which is where the scanner learns of the end of the input. *)
Definition fits (line : string) : bool :=
  (N.of_nat (String.length line) <? MaxScanTokenSize)%N.

(** The tokens of some lines and whether the scanner stopped at a line
    that does not fit ([bufio.ErrTooLong]): the lines before that line
    are the tokens. *)
Fixpoint scan_lines (lines : list string) : list string * bool :=
  match lines with
  | [] => ([], false)
  | line :: lines' =>
      if fits line then
        let '(tokens, too_long) := scan_lines lines' in (dropCR line :: tokens, too_long)
      else ([], true)
  end.

(** The tokens that [Scanner.Scan] yields on [data] with the default
    split function ([bufio.ScanLines]), and whether [Scanner.Err] is
    [bufio.ErrTooLong] afterwards. *)
Definition ScanLines (data : string) : list string * bool :=
  scan_lines (raw_lines data).

End Bufio.

(** ** Package [regexp], for the one pattern the tool compiles: the
  bytes [${{], a run of [\s], a captured name (one of [A-Za-z_], then a
  run of [A-Za-z0-9_]), a run of [\s], and the bytes [}}].  A brace
  that opens no counted repetition is a literal of the pattern. *)

Module Regexp.

(** The class [\s] of the pattern syntax: tab, newline, form feed,
    carriage return and space. *)
Definition is_s (c : ascii) : bool :=
  let n := Strings.byte c in
  ((n =? 9) || (n =? 10) || (n =? 12) || (n =? 13) || (n =? 32))%N.

(** [[A-Za-z_]] *)
Definition is_ident_start (c : ascii) : bool :=
  let n := Strings.byte c in
  ((65 <=? n) && (n <=? 90) || (97 <=? n) && (n <=? 122) || (n =? 95))%N.

(** [[A-Za-z0-9_]] *)
Definition is_ident_char (c : ascii) : bool :=
  is_ident_start c || ((48 <=? Strings.byte c) && (Strings.byte c <=? 57))%N.

(** The longest prefix of [s] whose bytes all satisfy [p], and what
    follows it: a starred character class, which is greedy. *)
Fixpoint span (p : ascii → bool) (s : string) : string * string :=
  match s with
  | EmptyString => (EmptyString, EmptyString)
  | String c s' =>
      if p c then let '(run, rest) := span p s' in (String c run, rest)
      else (EmptyString, s)
  end.

(** One capture group: the text of the whole match and of group 1. *)
Record submatch := { whole : string; group1 : string }.

(** A match of the pattern at the very start of [s], and the text after
    it.  The three classes of the pattern and the bytes [$], [{] and [}]
    are pairwise disjoint, so that the greedy choice at each star is the
    only one that can lead to a match. *)
Definition match_here (s : string) : option (submatch * string) :=
  s1 ← Strings.CutPrefix s "${{";
  let '(ws1, s2) := span is_s s1 in
  let '(name, s3) := span is_ident_char s2 in
  match name with
  | EmptyString => None
  | String c _ =>
      if is_ident_start c then
        let '(ws2, s4) := span is_s s3 in
        s5 ← Strings.CutPrefix s4 "}}";
        Some ({| whole := "${{" +:+ ws1 +:+ name +:+ ws2 +:+ "}}";
                 group1 := name |}, s5)
      else None
  end.

(** [Regexp.FindStringSubmatch]: the leftmost match in [s]. *)
Fixpoint FindStringSubmatch (s : string) : option submatch :=
  match match_here s with
  | Some (m, _) => Some m
  | None =>
      match s with
      | EmptyString => None
      | String _ s' => FindStringSubmatch s'
      end
  end.

(** [Regexp.ReplaceAllStringFunc]: the matches are taken from left to
    right and do not overlap; [skip] counts the bytes of the current
    match that are still to be passed over. *)
Fixpoint replace_from (skip : nat) (src : string) (repl : string → string)
  : string :=
  match src with
  | EmptyString => EmptyString
  | String c src' =>
      match skip with
      | S skip' => replace_from skip' src' repl
      | O =>
          match match_here src with
          | Some (m, _) =>
              repl (whole m)
                +:+ replace_from (Nat.pred (String.length (whole m))) src' repl
          | None => String c (replace_from 0 src' repl)
          end
      end
  end.

Definition ReplaceAllStringFunc (src : string) (repl : string → string)
  : string :=
  replace_from 0 src repl.

End Regexp.

(* ================================================================== *)
(** * The process and its surroundings *)
(* ================================================================== *)

(** ** Errors *)

Inductive errno := ENOENT | EEXIST | EISDIR | ENOTDIR.

Definition errno_text (e : errno) : string :=
match e with
| ENOENT => "no such file or directory"
| EEXIST => "file exists"
| EISDIR => "is a directory"
| ENOTDIR => "not a directory"
end.

(** Go's [error] values: an [*fs.PathError] of package [os], an error
  made from a text ([errors.New], [fmt.Errorf] without [%w], or an error
  of a library outside this development), and [fmt.Errorf] with a final
  [%w], whose text is the formatted prefix followed by the text of the
  wrapped error. *)
Inductive error :=
| PathError (op path : string) (e : errno)
| ErrorString (text : string)
| WrapError (prefix : string) (cause : error).

(** The method [Error()]. *)
Fixpoint Error (err : error) : string :=
match err with
| PathError op path e => op +:+ " " +:+ path +:+ ": " +:+ errno_text e
| ErrorString text => text
| WrapError prefix cause => prefix +:+ Error cause
end.

(** [os.IsNotExist]: it looks into a [PathError] and does not unwrap the
  errors of [fmt.Errorf]. *)
Definition IsNotExist (err : option error) : bool :=
match err with
| Some (PathError _ _ ENOENT) => true
| _ => false
end.

(** A Go result [(T, error)] of which the caller uses one side. *)
Inductive result (A : Type) :=
| Ok (a : A)
| Err (err : error).
Arguments Ok {A} a.
Arguments Err {A} err.

(** ** Data that crosses the process boundary *)

(** [config.Config] *)
Record Config := { APIToken : string; BaseURL : string }.

(** What [n8nAPIRequest] puts into its [*http.Request]; [ReqBody] is
  [None] for the nil reader. *)
Record Request := {
Method : string;
URL : string;
ReqBody : option string;
Header : list (string * string)
}.

(** What it reads from the [*http.Response]: the status code, the status
  line, and the outcome of [io.ReadAll] on the body. *)
Record Response := {
StatusCode : Z;
Status : string;
Body : result string
}.

(** How a child process ended: with an exit code, or not started at
  all. *)
Inductive run_result :=
| Exited (code : Z)
| NotStarted (err : error).

(** Everything outside the repository that the tool relies on and that
  this development leaves open: the JSON library, URL validation, the
  server, and the programs [yq], [diff] and [colordiff]. *)
Record Platform := {
(** [json.Encoder.Encode] with two-space indent *)
json_Encode : Config → string;
(** [json.Decoder.Decode] into a [Config] *)
json_Decode : string → result Config;
(** [json.Indent] with two-space indent *)
json_Indent : string → result string;
(** the error of [http.NewRequest] on a method and a URL, if any *)
NewRequest_error : string → string → option error;
(** [http.Client.Do] *)
client_Do : Request → result Response;
(** the standard output of [yq .] on a YAML text, or its failure *)
yq_Output : string → result string;
(** [os.CreateTemp] in the directory for temporary files, on a pattern:
  the name of the new file, or the error *)
CreateTemp_result : string → result string;
(** the error of [File.Write] on a temporary file and some data, if any *)
Write_error : string → string → option error;
(** [exec.LookPath] finds the program *)
LookPath : string → bool;
(** [name -u old new] on two files with the given contents *)
diff_Run : string → string → string → run_result
}.

(** ** What the process does to the outside, in the order it does it *)

Inductive event :=
| EvStdout (text : string)
| EvStderr (text : string)
| EvHTTP (req : Request)
| EvExec (name : string) (args : list string) (input : string)
| EvDiff (name old new : string)
| EvMkdir (path : string)
| EvWriteFile (path data : string)
| EvCreateTemp (pattern : string)
| EvWriteTemp (name data : string)
| EvRemove (name : string).

(** ** The state of the process: regular files with their contents,
  directories, [$HOME], what is left on standard input, and the events
  so far.  The working directory and the root always exist; permissions
  and links are not modelled. *)
Record World := {
files : gmap string string;
dirs : gset string;
HOME : string;
stdin : string;
trace : list event
}.

Definition log (e : event) (w : World) : World :=
{| files := files w; dirs := dirs w; HOME := HOME w; stdin := stdin w;
   trace := trace w ++ [e] |}.

Definition set_stdin (input : string) (w : World) : World :=
{| files := files w; dirs := dirs w; HOME := HOME w; stdin := input;
   trace := trace w |}.

Definition set_files (fs : gmap string string) (w : World) : World :=
{| files := fs; dirs := dirs w; HOME := HOME w; stdin := stdin w;
   trace := trace w |}.

Definition set_dirs (ds : gset string) (w : World) : World :=
{| files := files w; dirs := ds; HOME := HOME w; stdin := stdin w;
   trace := trace w |}.

(** ** The monad: a computation returns, or ends the process with
  [os.Exit], or panics. *)

Inductive outcome (A : Type) :=
| Ret (a : A)
| Exit (code : Z)
| Panic (text : string).
Arguments Ret {A} a.
Arguments Exit {A} code.
Arguments Panic {A} text.

Definition M (A : Type) : Type := World → outcome A * World.

Definition ret {A} (a : A) : M A := λ w, (Ret a, w).

Definition bind {A B} (m : M A) (k : A → M B) : M B :=
λ w, match m w with
     | (Ret a, w') => k a w'
     | (Exit code, w') => (Exit code, w')
     | (Panic text, w') => (Panic text, w')
     end.

Declare Scope go_scope.
Delimit Scope go_scope with go.
Notation "x <- m ;; k" := (bind m (λ x, k))
(at level 20, m at level 99, k at level 200, only parsing) : go_scope.
Notation "' pat <- m ;; k" := (bind m (λ x, match x with pat => k end))
(at level 20, pat pattern, m at level 99, k at level 200, only parsing)
: go_scope.
Notation "m ;; k" := (bind m (λ _, k))
(at level 100, k at level 200, only parsing, right associativity) : go_scope.
Local Open Scope go_scope.

(** A [defer] statement: the deferred call runs when the rest of the
  function returns or panics, and not when the process exits. *)
Definition defer {A} (deferred : M unit) (rest : M A) : M A :=
λ w, match rest w with
     | (Ret a, w') => (Ret a, snd (deferred w'))
     | (Exit code, w') => (Exit code, w')
     | (Panic text, w') => (Panic text, snd (deferred w'))
     end.

(** [os.Exit] *)
Definition os_Exit {A} (code : Z) : M A := λ w, (Exit code, w).

(** A run-time panic. *)
Definition panic {A} (text : string) : M A := λ w, (Panic text, w).

(** [fmt.Print] and friends, after formatting. *)
Definition fmt_Print (text : string) : M unit := λ w, (Ret tt, log (EvStdout text) w).
Definition fmt_Println (text : string) : M unit := fmt_Print (text +:+ nl).
Definition fmt_Eprint (text : string) : M unit := λ w, (Ret tt, log (EvStderr text) w).

(** [s[i]] on a slice of strings. *)
Definition index (s : list string) (i : nat) : M string :=
match s !! i with
| Some x => ret x
| None => panic "index out of range"
end.

(** ** Package [os] *)

Definition is_dir (w : World) (path : string) : bool :=
bool_decide (path = "." ∨ path = "/" ∨ path ∈ dirs w).

Definition exists_ (w : World) (path : string) : bool :=
bool_decide (is_Some (files w !! path)) || is_dir w path.

(** Why a name cannot be reached or made in its directory, if so. *)
Definition parent_errno (w : World) (path : string) : option errno :=
let dir := Filepath.Dir path in
if is_dir w dir then None
else if bool_decide (is_Some (files w !! dir)) then Some ENOTDIR
else Some ENOENT.

Definition missing_errno (w : World) (path : string) : errno :=
default ENOENT (parent_errno w path).

(** [os.ReadFile] *)
Definition ReadFile (path : string) : M (result string) :=
λ w, match files w !! path with
     | Some data => (Ret (Ok data), w)
     | None =>
         if is_dir w path then (Ret (Err (PathError "read" path EISDIR)), w)
         else (Ret (Err (PathError "open" path (missing_errno w path))), w)
     end.

(** [os.Stat], of which the tool only uses the error. *)
Definition Stat (path : string) : M (option error) :=
λ w, if exists_ w path then (Ret None, w)
     else (Ret (Some (PathError "stat" path (missing_errno w path))), w).

(** [os.Mkdir] *)
Definition Mkdir (path : string) : M (option error) :=
λ w, let w1 := log (EvMkdir path) w in
     if exists_ w path then (Ret (Some (PathError "mkdir" path EEXIST)), w1)
     else match parent_errno w path with
          | Some e => (Ret (Some (PathError "mkdir" path e)), w1)
          | None => (Ret None, set_dirs ({[path]} ∪ dirs w) w1)
          end.

(** [os.WriteFile]; also [os.Create] followed by one write. *)
Definition WriteFile (path data : string) : M (option error) :=
λ w, let w1 := log (EvWriteFile path data) w in
     if is_dir w path then (Ret (Some (PathError "open" path EISDIR)), w1)
     else match parent_errno w path with
          | Some e => (Ret (Some (PathError "open" path e)), w1)
          | None => (Ret None, set_files (<[path := data]> (files w)) w1)
          end.

(** [os.UserHomeDir] *)
Definition UserHomeDir : M (result string) :=
λ w, if decide (HOME w = "") then (Ret (Err (ErrorString "$HOME is not defined")), w)
     else (Ret (Ok (HOME w)), w).

(** [bufio.NewReader(os.Stdin).ReadString('\n')]: the line and whether
  the input ended before a newline.  Each use in the tool reads from one
  reader only, so that no input is lost in a reader's buffer. *)
Definition stdin_ReadString : M (string * bool) :=
λ w, let '(line, rest, eof) := Bufio.ReadString (stdin w) "010"%char in
     (Ret (line, eof), set_stdin rest w).

(** [os.Open], of which the callers use the error before they read. *)
Definition Open (path : string) : M (option error) :=
λ w, if exists_ w path then (Ret None, w)
     else (Ret (Some (PathError "open" path (missing_errno w path))), w).

(* ================================================================== *)
(** * Package [config] *)
(* ================================================================== *)

Module config.
Section with_platform.
Context (sys : Platform).

Definition configPath : M (result string) :=
  home <- UserHomeDir ;;
  match home with
  | Err err => ret (Err err)
  | Ok home =>
      let configDir := Filepath.Join [home; ".n8nctl"] in
      st <- Stat configDir ;;
      if IsNotExist st then
        mk <- Mkdir configDir ;;
        match mk with
        | Some err => ret (Err err)
        | None => ret (Ok (Filepath.Join [configDir; "config.json"]))
        end
      else ret (Ok (Filepath.Join [configDir; "config.json"]))
  end.

Definition LoadConfig : M (result Config) :=
  path <- configPath ;;
  match path with
  | Err err => ret (Err err)
  | Ok path =>
      f <- Open path ;;
      match f with
      | Some err => ret (Err err)
      | None =>
          data <- ReadFile path ;;
          match data with
          | Err err => ret (Err err)
          | Ok data => ret (json_Decode sys data)
          end
      end
  end.

Definition SaveConfig (cfg : Config) : M (option error) :=
  path <- configPath ;;
  match path with
  | Err err => ret (Some err)
  | Ok path => WriteFile path (json_Encode sys cfg)
  end.

End with_platform.
End config.

(* ================================================================== *)
(** * Package [utils] *)
(* ================================================================== *)

Module utils.
Section with_platform.
Context (sys : Platform).

(** The loop of [ReadStdin]: one [ReadString] per turn, until the end
    of the input.  A turn takes at least one byte from the input or
    ends the loop, so that [fuel] turns are enough when [fuel] exceeds
    the length of the input. *)
Fixpoint ReadStdin_loop (fuel : nat) (sb : string) : M string :=
  match fuel with
  | O => panic "ReadStdin: no turn left"
  | S fuel' =>
      '(line, eof) <- stdin_ReadString ;;
      let sb := sb +:+ line in
      if eof : bool then ret sb else ReadStdin_loop fuel' sb
  end.

Definition ReadStdin : M string :=
  λ w, (sb <- ReadStdin_loop (S (String.length (stdin w))) "" ;;
        ret (Strings.TrimSpace sb)) w.

Definition PrintJSONResponse (data : string) : M unit :=
  match json_Indent sys data with
  | Err _ => fmt_Println data
  | Ok prettyJSON => fmt_Println prettyJSON
  end.

(** [os.CreateTemp] with the default directory, which lies outside the
    directories of the state; [File.Write] on such a file; [os.Remove]
    of it. *)
Definition CreateTemp (pattern : string) : M (result string) :=
  λ w, (Ret (CreateTemp_result sys pattern), log (EvCreateTemp pattern) w).

Definition temp_Write (name data : string) : M (option error) :=
  λ w, (Ret (Write_error sys name data), log (EvWriteTemp name data) w).

Definition Remove (name : string) : M unit :=
  λ w, (Ret tt, log (EvRemove name) w).

Definition RunDiff (oldJSON newJSON : string) : M (option error) :=
  oldTmpFile <- CreateTemp "oldworkflow-*.json" ;;
  match oldTmpFile with
  | Err err =>
      ret (Some (WrapError "failed to create temp file for old JSON: " err))
  | Ok oldTmpFile =>
      defer (Remove oldTmpFile) (
        wr <- temp_Write oldTmpFile oldJSON ;;
        match wr with
        | Some err =>
            ret (Some (WrapError "failed to write old JSON to temp file: " err))
        | None =>
            newTmpFile <- CreateTemp "newworkflow-*.json" ;;
            match newTmpFile with
            | Err err =>
                ret (Some (WrapError "failed to create temp file for new JSON: " err))
            | Ok newTmpFile =>
                defer (Remove newTmpFile) (
                  wr <- temp_Write newTmpFile newJSON ;;
                  match wr with
                  | Some err =>
                      ret (Some (WrapError "failed to write new JSON to temp file: " err))
                  | None =>
                      let diffCmdName :=
                        if LookPath sys "colordiff" then "colordiff" else "diff" in
                      (λ w, (Ret tt, log (EvDiff diffCmdName oldJSON newJSON) w)) ;;
                      match diff_Run sys diffCmdName oldJSON newJSON with
                      | NotStarted err =>
                          ret (Some (WrapError "diff command failed: " err))
                      | Exited code =>
                          if decide (code = 0) then
                            fmt_Println "No differences detected." ;; ret None
                          else if decide (code = 1) then ret None
                          else ret (Some (WrapError "diff command failed: "
                                           (ErrorString ("exit status " +:+ pretty code))))
                      end
                  end)
            end
        end)
  end.

(** One line of the environment file. *)
Definition LoadDotEnv_line (env : gmap string string) (text : string)
  : gmap string string :=
  let line := Strings.TrimSpace text in
  if decide (line = "") then env
  else if Strings.HasPrefix line "#" then env
  else match Strings.SplitN2 line "="%char with
       | [k; v] =>
           let key := Strings.TrimSpace k in
           let val := Strings.Trim (Strings.TrimSpace v) dq in
           <[key := val]> env
       | _ => env
       end.

(** [LoadDotEnv]; the map is [None] for Go's nil map.  When the scanner
    stops at a line that is too long, the map of the lines before it is
    returned with the error of the scanner. *)
Definition LoadDotEnv (filename : string)
  : M (option (gmap string string) * option error) :=
  file <- Open filename ;;
  match file with
  | Some err => ret (None, Some err)
  | None =>
      data <- ReadFile filename ;;
      match data with
      | Err err => ret (Some ∅, Some err)
      | Ok data =>
          let '(lines, too_long) := Bufio.ScanLines data in
          ret (Some (fold_left LoadDotEnv_line lines ∅),
               if too_long : bool
               then Some (ErrorString "bufio.Scanner: token too long")
               else None)
      end
  end.

End with_platform.
End utils.

(* ================================================================== *)
(** * Package [workflows] *)
(* ================================================================== *)

Module workflows.

(** The starter file of [GenerateStarterWorkflowYAML]. *)
Definition yamlContent : string :=
  "
name: Sample Workflow
nodes:
  - id: " +:+ dq +:+ "1" +:+ dq +:+ "
    name: Start
    type: n8n-nodes-base.manualTrigger
    typeVersion: 1
    position: [250, 300]
  - id: " +:+ dq +:+ "2" +:+ dq +:+ "
    name: HTTP Request
    type: n8n-nodes-base.httpRequest
    typeVersion: 1
    position: [450, 300]
    credentials:
      httpBasicAuth:
        id: " +:+ dq +:+ "credential-id" +:+ dq +:+ "
        name: " +:+ dq +:+ "My HTTP Basic Auth" +:+ dq +:+ "
    parameters:
      url: " +:+ dq +:+ "https://jsonplaceholder.typicode.com/posts/1" +:+ dq +:+ "
connections:
  Start:
    main:
      - - node: HTTP Request
          type: main
          index: 0
settings: {}
".

(** [s[lo:hi]] *)
Definition slice (s : string) (lo hi : nat) : string :=
  String.substring lo (hi - lo) s.

(** [injectEnvVariables] replaces [${{VAR_NAME}}] with values from the
    [env] map. *)
Definition injectEnvVariables (yaml : string) (env : gmap string string)
  : string :=
  Regexp.ReplaceAllStringFunc yaml (λ match_,
    match Regexp.FindStringSubmatch match_ with
    | None => match_
    | Some matches =>
        match env !! Regexp.group1 matches with
        | Some val => val
        | None => match_
        end
    end).

Section with_platform.
Context (sys : Platform).

Definition GenerateStarterWorkflowYAML : M (option error) :=
  let fileName := "workflow.yaml" in
  st <- Stat fileName ;;
  match st with
  | None => ret (Some (ErrorString (fileName +:+ " already exists")))
  | Some _ => WriteFile fileName yamlContent
  end.

(** The loop of [injectJSCode] over the lines of the YAML text. *)
Fixpoint injectJSCode_lines (yamlPath : string) (lines outputLines : list string)
  : M (result (list string)) :=
  match lines with
  | [] => ret (Ok outputLines)
  | line :: lines' =>
      let trimmed := Strings.TrimSpace line in
      if Strings.HasPrefix trimmed "jsCode: file(" && Strings.HasSuffix trimmed ")"
      then
        let fileName :=
          slice trimmed (String.length "jsCode: file(") (String.length trimmed - 1) in
        let jsPath := Filepath.Join [Filepath.Dir yamlPath; fileName] in
        jsBytes <- ReadFile jsPath ;;
        match jsBytes with
        | Err err =>
            ret (Err (WrapError ("failed to read " +:+ jsPath +:+ ": ") err))
        | Ok jsCode =>
            let indentation :=
              slice line 0
                (String.length line - String.length (Strings.TrimLeft line " ")) in
            let outputLines := outputLines ++ [indentation +:+ "jsCode: |"] in
            let jsIndent := indentation +:+ "  " in
            let outputLines :=
              outputLines ++ (String.app jsIndent <$> Strings.Split jsCode "010"%char) in
            injectJSCode_lines yamlPath lines' outputLines
        end
      else injectJSCode_lines yamlPath lines' (outputLines ++ [line])
  end.

(** [injectJSCode] replaces lines like [jsCode: file(index.js)] in the
    YAML with the contents of the file, as a YAML block scalar. *)
Definition injectJSCode (yamlPath : string) : M (result string) :=
  yamlBytes <- ReadFile yamlPath ;;
  match yamlBytes with
  | Err err => ret (Err (WrapError "failed to read YAML: " err))
  | Ok yamlBytes =>
      let lines := Strings.Split yamlBytes "010"%char in
      outputLines <- injectJSCode_lines yamlPath lines [] ;;
      match outputLines with
      | Err err => ret (Err err)
      | Ok outputLines => ret (Ok (Strings.Join outputLines nl))
      end
  end.

(** The child process [yq . -] on the given standard input. *)
Definition yq_stdin (input : string) : M (result string) :=
  λ w, (Ret (yq_Output sys input), log (EvExec "yq" ["."; "-"] input) w).

(** The child process [yq . file], which reads the file itself. *)
Definition yq_file (path : string) : M (result string) :=
  (λ w, (Ret tt, log (EvExec "yq" ["."; path] "") w)) ;;
  data <- ReadFile path ;;
  match data with
  | Err _ => ret (Err (ErrorString "exit status 1"))
  | Ok data => ret (yq_Output sys data)
  end.

Definition PreviewWorkflowJSONWithPrompt : M (bool * option error) :=
  yamlBytes <- ReadFile "workflow.yaml" ;;
  match yamlBytes with
  | Err _ => ret (false, Some (ErrorString "workflow.yaml not found"))
  | Ok yamlStr =>
      (* Only inject JS code if the marker exists *)
      injected <-
        (if Strings.Contains yamlStr "jsCode: file(index.js)" then
           injectJSCode "workflow.yaml"
         else ret (Ok yamlStr)) ;;
      match injected with
      | Err err =>
          ret (false, Some (WrapError "failed to inject index.js code: " err))
      | Ok yamlStr =>
          '(envMap, err) <- utils.LoadDotEnv ".env" ;;
          match (if IsNotExist err then None else err) with
          | Some err => ret (false, Some (WrapError "failed to load .env file: " err))
          | None =>
            let yamlStr :=
              match envMap with
              | Some env => injectEnvVariables yamlStr env
              | None => yamlStr
              end in
            newJSON <- yq_stdin yamlStr ;;
            match newJSON with
            | Err err => ret (false, Some (WrapError "yq failed: " err))
            | Ok newJSON =>
                oldJSONBytes <- ReadFile ".out/workflow.json" ;;
                fmt_Println "Workflow JSON preview:" ;;
                fmt_Println newJSON ;;
                diffed <-
                  match oldJSONBytes with
                  | Ok oldJSONBytes =>
                      fmt_Println (nl +:+ "Showing diff between existing and new workflow JSON:") ;;
                      utils.RunDiff sys oldJSONBytes newJSON
                  | Err _ =>
                      fmt_Println (nl +:+ "No existing .out/workflow.json found, skipping diff.") ;;
                      ret None
                  end ;;
                match diffed with
                | Some err => ret (false, Some err)
                | None =>
                    fmt_Print (nl +:+ "Write this JSON to .out/workflow.json? (y/N): ") ;;
                    '(answer, _) <- stdin_ReadString ;;
                    let answer := Strings.TrimSpace (Strings.ToLower answer) in
                    if bool_decide (answer = "y" ∨ answer = "yes") then
                      st <- Stat ".out" ;;
                      mk <- (if IsNotExist st then Mkdir ".out" else ret None) ;;
                      match mk with
                      | Some err =>
                          ret (false, Some (WrapError "failed to create .out directory: " err))
                      | None =>
                          wr <- WriteFile ".out/workflow.json" newJSON ;;
                          match wr with
                          | Some err =>
                              ret (false, Some (WrapError "failed to write .out/workflow.json: " err))
                          | None =>
                              fmt_Println (nl +:+ "Saved to .out/workflow.json") ;;
                              ret (true, None)
                          end
                      end
                    else
                      fmt_Println "Aborted, no changes written." ;;
                      ret (false, None)
                end
            end
          end
      end
  end.

Definition DiffWorkflowJSON : M (option error) :=
  st <- Stat "workflow.yaml" ;;
  if IsNotExist st then ret (Some (ErrorString "workflow.yaml not found"))
  else
    st <- Stat ".out/workflow.json" ;;
    if IsNotExist st then
      ret (Some (ErrorString
        ".out/workflow.json does not exist, please run preview and save the JSON first"))
    else
      newJSON <- yq_file "workflow.yaml" ;;
      match newJSON with
      | Err err => ret (Some (WrapError "yq failed: " err))
      | Ok newJSON =>
          oldJSONBytes <- ReadFile ".out/workflow.json" ;;
          match oldJSONBytes with
          | Err err => ret (Some (WrapError "failed to read .out/workflow.json: " err))
          | Ok oldJSONBytes => utils.RunDiff sys oldJSONBytes newJSON
          end
      end.

End with_platform.
End workflows.

(** ** Package [flag], for a flag set of string flags with
    [flag.ExitOnError] *)

Module Flag.

(** The text after the first [=] that is not the first byte of [name],
    and the name before it. *)
Definition cut_value (name : string) : string * option string :=
  match name with
  | EmptyString => (name, None)
  | String c name' =>
      match Strings.Cut name' "="%char with
      | Some (before, after) => (String c before, Some after)
      | None => (name, None)
      end
  end.

(** How [FlagSet.Parse] ends. *)
Inductive parsed :=
| Parsed (values : gmap string string)
| Help
| Failed (text : string).

(** [FlagSet.Parse]: one turn of the loop is [parseOne].  [values] holds
    the flags set so far; [formal] are the names the flag set defines. *)
Fixpoint Parse (formal : list string) (values : gmap string string)
    (args : list string) : parsed :=
  match args with
  | [] => Parsed values
  | s :: args' =>
      if bool_decide (String.length s < 2)%nat || negb (Strings.HasPrefix s "-")
      then Parsed values
      else if decide (s = "--") then Parsed values
      else
        let name :=
          match Strings.CutPrefix s "--" with
          | Some name => name
          | None => default s (Strings.CutPrefix s "-")
          end in
        if decide (name = "") then Failed ("bad flag syntax: " +:+ s)
        else if Strings.HasPrefix name "-" || Strings.HasPrefix name "=" then
          Failed ("bad flag syntax: " +:+ s)
        else
          let '(name, value) := cut_value name in
          if bool_decide (name ∈ formal) then
            match value with
            | Some value => Parse formal (<[name := value]> values) args'
            | None =>
                match args' with
                | value :: args'' => Parse formal (<[name := value]> values) args''
                | [] => Failed ("flag needs an argument: -" +:+ name)
                end
            end
          else if decide (name = "help" ∨ name = "h") then Help
          else Failed ("flag provided but not defined: -" +:+ name)
  end.

(** One entry of [PrintDefaults] for a string flag whose default is the
    empty string. *)
Definition usage_entry (name usage : string) : string :=
  "  -" +:+ name +:+ " string" +:+ nl +:+ "    " +:+ String "009"%char usage +:+ nl.

End Flag.

(* ================================================================== *)
(** * Package [entities] *)
(* ================================================================== *)

(** A [for ... range] loop over a slice, for its effects. *)
Fixpoint for_each {A} (l : list A) (f : A → M unit) : M unit :=
  match l with
  | [] => ret tt
  | x :: l' => f x ;; for_each l' f
  end.

(** The verb [%-10s]: the text, then spaces up to ten columns. *)
Definition pad10 (s : string) : string :=
  s +:+ String.string_of_list_ascii (replicate (10 - String.length s) " "%char).

Module entities.

Record Action := {
  Description : string;
  NeedsID : bool;
  Schema : string (* Optional JSON schema or example payload *)
}.

Definition workflows_create_schema : string :=
  "{
  " +:+ dq +:+ "name" +:+ dq +:+ ": " +:+ dq +:+ "My Workflow" +:+ dq +:+ ",
  " +:+ dq +:+ "nodes" +:+ dq +:+ ": [
    {
      " +:+ dq +:+ "id" +:+ dq +:+ ": " +:+ dq +:+ "1" +:+ dq +:+ ",
      " +:+ dq +:+ "name" +:+ dq +:+ ": " +:+ dq +:+ "Start" +:+ dq +:+ ",
      " +:+ dq +:+ "type" +:+ dq +:+ ": " +:+ dq +:+ "n8n-nodes-base.manualTrigger" +:+ dq +:+ ",
      " +:+ dq +:+ "typeVersion" +:+ dq +:+ ": 1,
      " +:+ dq +:+ "position" +:+ dq +:+ ": [250, 300]
    }
  ],
  " +:+ dq +:+ "connections" +:+ dq +:+ ": {},
  " +:+ dq +:+ "active" +:+ dq +:+ ": false
}".

Definition credentials_create_schema : string :=
  "{
  " +:+ dq +:+ "name" +:+ dq +:+ ": " +:+ dq +:+ "Joe's GitHub Credentials" +:+ dq +:+ ",
  " +:+ dq +:+ "type" +:+ dq +:+ ": " +:+ dq +:+ "httpHeaderAuth" +:+ dq +:+ ",
  " +:+ dq +:+ "data" +:+ dq +:+ ": {
    " +:+ dq +:+ "name" +:+ dq +:+ ": " +:+ dq +:+ "Authorization" +:+ dq +:+ ",
    " +:+ dq +:+ "value" +:+ dq +:+ ": " +:+ dq +:+ "Bearer ghp_xxxxyyyyyyyyyy" +:+ dq +:+ "
  },
  " +:+ dq +:+ "nodesAccess" +:+ dq +:+ ": [
    {
      " +:+ dq +:+ "nodeType" +:+ dq +:+ ": " +:+ dq +:+ "n8n-nodes-base.httpRequest" +:+ dq +:+ "
    }
  ]
}".

(** The static registry: entity name, then action name. *)
Definition Entities : gmap string (gmap string Action) :=
  list_to_map [
      ("users", list_to_map [
        ("list", {| Description := "List all users"; NeedsID := false; Schema := "" |});
        ("create", {| Description := "Create a new user"; NeedsID := false; Schema := "" |});
        ("get", {| Description := "Get a user by ID"; NeedsID := true; Schema := "" |});
        ("update", {| Description := "Update a user by ID"; NeedsID := true; Schema := "" |});
        ("delete", {| Description := "Delete a user by ID"; NeedsID := true; Schema := "" |}) ]);
      ("audit", list_to_map [
        ("create", {| Description := "Create an audit log"; NeedsID := false; Schema := "" |}) ]);
      ("executions", list_to_map [
        ("list", {| Description := "List executions"; NeedsID := false; Schema := "" |});
        ("get", {| Description := "Get an execution by ID"; NeedsID := true; Schema := "" |});
        ("delete", {| Description := "Delete an execution by ID"; NeedsID := true; Schema := "" |}) ]);
      ("workflows", list_to_map [
        ("list", {| Description := "List workflow instances"; NeedsID := false; Schema := "" |});
        ("get", {| Description := "Get a workflow instance by ID"; NeedsID := true; Schema := "" |});
        ("create", {| Description := "Create a workflow instance"; NeedsID := false; Schema := workflows_create_schema |});
        ("update", {| Description := "Update a workflow instance by ID"; NeedsID := true; Schema := "" |});
        ("delete", {| Description := "Delete a workflow instance by ID"; NeedsID := true; Schema := "" |});
        ("activate", {| Description := "Activate a workflow instance by ID"; NeedsID := true; Schema := "" |});
        ("deactivate", {| Description := "Deactivate a workflow instance by ID"; NeedsID := true; Schema := "" |});
        ("preview", {| Description := "Preview a workflow template (with confirmation to save and show diff)"; NeedsID := false; Schema := "" |});
        ("diff", {| Description := "Show diff between existing and new workflow templates"; NeedsID := false; Schema := "" |});
        ("deploy", {| Description := "Deploy a workflow instance"; NeedsID := false; Schema := "(No schema — uses .out/workflow.json from preview)" |});
        ("rollback", {| Description := "Rollback a workflow instance"; NeedsID := false; Schema := "" |}) ]);
      ("credentials", list_to_map [
        ("list", {| Description := "List credentials"; NeedsID := false; Schema := "" |});
        ("create", {| Description := "Create a credential"; NeedsID := false; Schema := credentials_create_schema |});
        ("get", {| Description := "Get a credential by ID"; NeedsID := true; Schema := "" |});
        ("update", {| Description := "Update a credential by ID"; NeedsID := true; Schema := "" |});
        ("delete", {| Description := "Delete a credential by ID"; NeedsID := true; Schema := "" |}) ]);
      ("tags", list_to_map [
        ("list", {| Description := "List tags"; NeedsID := false; Schema := "" |});
        ("create", {| Description := "Create a tag"; NeedsID := false; Schema := "" |});
        ("get", {| Description := "Get a tag by ID"; NeedsID := true; Schema := "" |});
        ("update", {| Description := "Update a tag by ID"; NeedsID := true; Schema := "" |});
        ("delete", {| Description := "Delete a tag by ID"; NeedsID := true; Schema := "" |}) ]);
      ("source-control", list_to_map [
        ("list", {| Description := "List source control configs"; NeedsID := false; Schema := "" |});
        ("get", {| Description := "Get a source control config by ID"; NeedsID := true; Schema := "" |});
        ("update", {| Description := "Update a source control config by ID"; NeedsID := true; Schema := "" |}) ]);
      ("variables", list_to_map [
        ("list", {| Description := "List variables"; NeedsID := false; Schema := "" |});
        ("create", {| Description := "Create a variable"; NeedsID := false; Schema := "" |});
        ("get", {| Description := "Get a variable by ID"; NeedsID := true; Schema := "" |});
        ("update", {| Description := "Update a variable by ID"; NeedsID := true; Schema := "" |});
        ("delete", {| Description := "Delete a variable by ID"; NeedsID := true; Schema := "" |}) ]);
      ("projects", list_to_map [
        ("list", {| Description := "List projects"; NeedsID := false; Schema := "" |});
        ("create", {| Description := "Create a project"; NeedsID := false; Schema := "" |});
        ("get", {| Description := "Get a project by ID"; NeedsID := true; Schema := "" |});
        ("update", {| Description := "Update a project by ID"; NeedsID := true; Schema := "" |});
        ("delete", {| Description := "Delete a project by ID"; NeedsID := true; Schema := "" |}) ]) ].

Definition PrintHelp_head : string :=
  "
N8NCtl ⚡ A lightweight CLI for managing n8n workflows declaratively with YAML. 

Usage:
	n8nctl <entity> <action> [parameters] [flags]

Entities:".

Definition PrintHelp_tail : string :=
  "
Special commands:
	login:	Login and store your API token and base URL

Config:
	Config is stored in ~/.n8nctl/config.json

Environment:
	.env file can be used for environment variable injection. (use workflows preview to verify values)

Flags:
	--schema  Show JSON schema for an entity's action when used with --help or an action command

Dependencies:
	- yq: sudo apt install yq or brew install yq
	- colordiff: sudo apt install colordiff or brew install colordiff

Use " +:+ dq +:+ "n8nctl <entity> --help" +:+ dq +:+ " for available actions and usage details.
Use " +:+ dq +:+ "n8nctl <entity> <action> --schema" +:+ dq +:+ " to see the JSON schema for that action.".

(** [PrintHelp]; Go leaves the order in which a map is ranged over open,
    the order of [map_to_list] stands for it. *)
Definition PrintHelp : M unit :=
  fmt_Println PrintHelp_head ;;
  for_each (map_to_list Entities)
    (λ kv, fmt_Print (String "009"%char (fst kv) +:+ nl)) ;;
  fmt_Println PrintHelp_tail.

Definition PrintEntityHelp (entity : string) (actions : gmap string Action)
    (showSchema : bool) : M unit :=
  fmt_Print ("Available actions for " +:+ entity +:+ ":" +:+ nl) ;;
  for_each (map_to_list actions) (λ kv,
    let '(actionName, action) := kv in
    fmt_Print ("  " +:+ pad10 actionName +:+ " " +:+ Description action +:+ nl) ;;
    if showSchema && bool_decide (Schema action ≠ "") then
      fmt_Println "    Example schema:" ;;
      for_each (Strings.Split (Schema action) "010"%char)
        (λ line, fmt_Print ("      " +:+ line +:+ nl))
    else ret tt) ;;
  fmt_Print (nl +:+ "Usage:" +:+ nl +:+ "  n8nctl " +:+ entity
             +:+ " <action> [id] [flags]" +:+ nl) ;;
  fmt_Println (nl +:+ "Flags:") ;;
  fmt_Println "  --schema  Show JSON schema for the action (use with --help or an action)".

(** How the [switch] of [handleGenericEntityAction] is left: by a
    [return], or with the method, URL and body of a request to send. *)
Inductive switched :=
| Returned (err : option error)
| ToSend (method url body : string).

Section with_platform.
Context (sys : Platform).

Definition n8nAPIRequest (method url body apiKey : string) : M (result string) :=
  let reqBody := if decide (body = "") then None else Some body in
  match NewRequest_error sys method url with
  | Some err => ret (Err err)
  | None =>
      let req := {| Method := method; URL := url; ReqBody := reqBody;
                    Header := [("X-N8N-API-KEY", apiKey);
                               ("Content-Type", "application/json")] |} in
      (λ w, (Ret tt, log (EvHTTP req) w)) ;;
      match client_Do sys req with
      | Err err => ret (Err err)
      | Ok resp =>
          match Body resp with
          | Err err => ret (Err err)
          | Ok data =>
              if bool_decide (StatusCode resp < 200 ∨ StatusCode resp >= 300) then
                ret (Err (ErrorString
                  ("API error: " +:+ Status resp +:+ nl +:+ data)))
              else ret (Ok data)
          end
      end
  end.

(** The [switch action] statement of [handleGenericEntityAction]. *)
Definition handleGenericEntityAction_switch
    (entity action : string) (params : list string) (cfg : Config)
  : M switched :=
  let basePath := Strings.ToLower (BaseURL cfg) +:+ "/api/v1/" +:+ entity in
  if decide (action = "list") then
    ret (ToSend "GET" basePath "")
  else if decide (action = "get") then
    id <- index params 0 ;;
    ret (ToSend "GET" (basePath +:+ "/" +:+ id) "")
  else if decide (action = "create") then
    if decide (entity = "workflows") then
      err <- workflows.GenerateStarterWorkflowYAML ;;
      ret (Returned err)
    else
      body <-
        (match params with
         | p0 :: p1 :: _ =>
             if decide (p0 = "--data") then ret p1
             else fmt_Println "Enter JSON data for creation:" ;; utils.ReadStdin
         | _ => fmt_Println "Enter JSON data for creation:" ;; utils.ReadStdin
         end) ;;
      ret (ToSend "POST" basePath body)
  else if decide (action = "update") then
    match params with
    | [] => ret (Returned (Some (ErrorString "missing ID for update")))
    | id :: _ =>
        let url := basePath +:+ "/" +:+ id in
        body <-
          (match params with
           | _ :: p1 :: p2 :: _ =>
               if decide (p1 = "--data") then ret p2
               else fmt_Println "Enter JSON data for update:" ;; utils.ReadStdin
           | _ => fmt_Println "Enter JSON data for update:" ;; utils.ReadStdin
           end) ;;
        ret (ToSend "PATCH" url body)
    end
  else if decide (action = "delete") then
    id <- index params 0 ;;
    ret (ToSend "DELETE" (basePath +:+ "/" +:+ id) "")
  else if decide (action = "preview") then
    if decide (entity = "workflows") then
      '(confirmed, err) <- workflows.PreviewWorkflowJSONWithPrompt sys ;;
      match err with
      | Some err => ret (Returned (Some err))
      | None =>
          (if confirmed : bool then ret tt
           else fmt_Println "Preview aborted by user.") ;;
          ret (Returned None)
      end
    else ret (Returned (Some (ErrorString ("preview not supported for " +:+ entity))))
  else if decide (action = "diff") then
    if decide (entity = "workflows") then
      err <- workflows.DiffWorkflowJSON sys ;;
      ret (Returned err)
    else ret (Returned (Some (ErrorString ("diff not supported for " +:+ entity))))
  else if decide (action = "deploy") then
    if decide (entity = "workflows") then
      '(confirmed, err) <- workflows.PreviewWorkflowJSONWithPrompt sys ;;
      match err with
      | Some err => ret (Returned (Some err))
      | None =>
          if confirmed : bool then
            let jsonPath := ".out/workflow.json" in
            jsonBytes <- ReadFile jsonPath ;;
            match jsonBytes with
            | Err err =>
                ret (Returned (Some (WrapError ("could not read " +:+ jsonPath +:+ ": ") err)))
            | Ok jsonBytes => ret (ToSend "POST" basePath jsonBytes)
            end
          else
            fmt_Println "Deploy aborted by user." ;;
            ret (Returned None)
      end
    else ret (Returned (Some (ErrorString ("deploy not supported for " +:+ entity))))
  else if decide (action = "activate" ∨ action = "deactivate") then
    id <- index params 0 ;;
    ret (ToSend "POST" (basePath +:+ "/" +:+ id +:+ "/" +:+ action) "")
  else
    ret (Returned (Some (ErrorString
      ("action " +:+ action +:+ " not implemented for entity " +:+ entity)))).

Definition handleGenericEntityAction
    (entity action : string) (params : list string) (cfg : Config)
  : M (option error) :=
  sw <- handleGenericEntityAction_switch entity action params cfg ;;
  match sw with
  | Returned err => ret err
  | ToSend method url body =>
      resp <- n8nAPIRequest method url body (APIToken cfg) ;;
      match resp with
      | Err err => ret (Some err)
      | Ok resp =>
          if decide (action = "delete") then
            fmt_Print (entity +:+ " " +:+ action +:+ " successful" +:+ nl) ;;
            ret None
          else
            utils.PrintJSONResponse sys resp ;;
            ret None
      end
  end.

Definition HandleEntityCommand (entity : string) (args : list string)
    (actions : gmap string Action) (cfg : Config) : M unit :=
  match args with
  | [] =>
      fmt_Print (entity +:+ " requires an action. Use --help for available actions." +:+ nl) ;;
      os_Exit 1
  | action :: params =>
      (* Detect --help and optional --schema flag (anywhere in args) *)
      let showSchema := existsb (λ arg, bool_decide (arg = "--schema")) args in
      if decide (action = "--help" ∨ action = "-h") then
        PrintEntityHelp entity actions showSchema
      else if showSchema then
        match actions !! action with
        | None =>
            fmt_Print ("Unknown action for " +:+ entity +:+ ": " +:+ action +:+ nl) ;;
            os_Exit 1
        | Some a =>
            if decide (Schema a = "") then
              fmt_Print ("No schema available for action " +:+ action
                         +:+ " on entity " +:+ entity +:+ nl)
            else
              fmt_Print ("Schema for " +:+ entity +:+ " " +:+ action +:+ ":" +:+ nl) ;;
              fmt_Println (Schema a)
        end
      else
        match actions !! action with
        | None =>
            fmt_Print ("Unknown action for " +:+ entity +:+ ": " +:+ action +:+ nl) ;;
            os_Exit 1
        | Some a =>
            if NeedsID a && bool_decide (length args < 2)%nat then
              fmt_Print ("Action '" +:+ action +:+ "' requires an ID parameter" +:+ nl) ;;
              os_Exit 1
            else
              err <- handleGenericEntityAction entity action params cfg ;;
              match err with
              | Some err =>
                  fmt_Print ("Error: " +:+ Error err +:+ nl) ;;
                  os_Exit 1
              | None => ret tt
              end
        end
  end.

(** The first part of [HandleLogin]: the flags, then a prompt for each
    value the flags left empty.  It returns the base URL and the token as
    they stand before the check. *)
Definition HandleLogin_inputs (args : list string) : M (string * string) :=
  let usage :=
    fmt_Eprint ("Usage of login:" +:+ nl) ;;
    fmt_Eprint (Flag.usage_entry "base-url" "API base URL") ;;
    fmt_Eprint (Flag.usage_entry "token"
                  "API access token (see <base-url>/settings/api)") in
  match Flag.Parse ["base-url"; "token"] ∅ args with
  | Flag.Failed text => fmt_Eprint (text +:+ nl) ;; usage ;; os_Exit 2
  | Flag.Help => usage ;; os_Exit 0
  | Flag.Parsed values =>
      let baseURL := default "" (values !! "base-url") in
      let token := default "" (values !! "token") in
      baseURL <-
        (if decide (baseURL = "") then
           fmt_Print "Enter API base URL: " ;;
           '(input, _) <- stdin_ReadString ;;
           ret (Strings.TrimSpace input)
         else ret baseURL) ;;
      token <-
        (if decide (token = "") then
           fmt_Print ("Enter API token (visit " +:+ baseURL
                      +:+ "/settings/api to generate one): ") ;;
           '(input, _) <- stdin_ReadString ;;
           ret (Strings.TrimSpace input)
         else ret token) ;;
      ret (baseURL, token)
  end.

(** The second part of [HandleLogin]: the check of the two values and
    the write of the config file. *)
Definition HandleLogin_save (baseURL token : string) : M unit :=
  if decide (token = "" ∨ baseURL = "") then
    fmt_Println "Error: both token and base-url are required" ;;
    os_Exit 1
  else
    let cfg := {| APIToken := token; BaseURL := Strings.TrimRight baseURL "/" |} in
    err <- config.SaveConfig sys cfg ;;
    match err with
    | Some err =>
        fmt_Print ("Failed to save config: " +:+ Error err +:+ nl) ;;
        os_Exit 1
    | None => fmt_Println "Login successful, credentials saved."
    end.

Definition HandleLogin (args : list string) : M unit :=
  '(baseURL, token) <- HandleLogin_inputs args ;;
  HandleLogin_save baseURL token.

End with_platform.
End entities.

(* ================================================================== *)
(** * Package [cmd] *)
(* ================================================================== *)

Module cmd.
Section with_platform.
Context (sys : Platform).

(** [Execute], on [os.Args]. *)
Definition Execute (Args : list string) : M unit :=
  match Args with
  | [] | [_] => entities.PrintHelp ;; os_Exit 1
  | _ :: entity :: args =>
      if decide (entity = "login") then entities.HandleLogin sys args
      else if decide (entity = "--help" ∨ entity = "-h" ∨ entity = "help") then
        entities.PrintHelp
      else
        match entities.Entities !! entity with
        | None =>
            fmt_Print ("Unknown entity: " +:+ entity +:+ nl +:+ nl) ;;
            entities.PrintHelp ;;
            os_Exit 1
        | Some actions =>
            cfg <- config.LoadConfig sys ;;
            match cfg with
            | Err err =>
                fmt_Print ("Error loading config: " +:+ Error err +:+ nl
                           +:+ "Please run `n8nctl login` first." +:+ nl) ;;
                os_Exit 1
            | Ok cfg => entities.HandleEntityCommand sys entity args actions cfg
            end
        end
  end.

End with_platform.
End cmd.

(* ================================================================== *)
(** * Sample surroundings, to run the tool on *)
(* ================================================================== *)

Module Sample.

(** A platform whose server answers every request with [answer]. *)
Definition platform (answer : Response) : Platform := {|
  json_Encode cfg := "{" +:+ APIToken cfg +:+ "," +:+ BaseURL cfg +:+ "}";
  json_Decode _ := Ok {| APIToken := "secret"; BaseURL := "https://N8N.example" |};
  json_Indent data := Ok data;
  NewRequest_error _ _ := None;
  client_Do _ := Ok answer;
  yq_Output yaml := Ok ("json of " +:+ yaml);
  CreateTemp_result pattern := Ok ("/tmp/" +:+ pattern);
  Write_error _ _ := None;
  LookPath _ := false;
  diff_Run _ old new := Exited (if decide (old = new) then 0 else 1)
|}.

Definition ok_200 : Response :=
  {| StatusCode := 200; Status := "200 OK"; Body := Ok "[]" |}.

Definition not_found : Response :=
  {| StatusCode := 404; Status := "404 Not Found"; Body := Ok "no such user" |}.

Definition cfg : Config :=
  {| APIToken := "secret"; BaseURL := "https://N8N.example" |}.

(** A home directory with a config directory, and nothing in the
    working directory. *)
Definition empty_dir (input : string) : World := {|
  files := ∅;
  dirs := {[ "/home/u"; "/home/u/.n8nctl" ]};
  HOME := "/home/u";
  stdin := input;
  trace := []
|}.

(** A working directory with a workflow that includes a script and
    uses a variable of the environment file. *)
Definition project (input : string) : World := {|
  files := {[ "workflow.yaml" :=
                "  jsCode: file(index.js)" +:+ nl +:+ "url: ${{HOST}}/hook";
              "index.js" := "a();" +:+ nl +:+ "b();";
              ".env" := "HOST=" +:+ dq +:+ "example.org" +:+ dq +:+ nl ]};
  dirs := {[ "/home/u"; "/home/u/.n8nctl" ]};
  HOME := "/home/u";
  stdin := input;
  trace := []
|}.

End Sample.

(** The events a computation adds to the trace. *)
Definition logs (evs : list event) (w : World) : World :=
  {| files := files w; dirs := dirs w; HOME := HOME w; stdin := stdin w;
     trace := trace w ++ evs |}.

Definition is_http (e : event) : bool :=
  match e with EvHTTP _ => true | _ => false end.

Definition is_diff (e : event) : bool :=
  match e with EvDiff _ _ _ => true | _ => false end.

(** A write to the files and directories of the state.  The temporary
    files of [RunDiff] lie outside them and have events of their own. *)
Definition is_write (e : event) : bool :=
  match e with EvWriteFile _ _ | EvMkdir _ => true | _ => false end.

(** A registry as a list of its entries. *)
Definition entries_of (registry : gmap string (gmap string entities.Action))
  : list (string * gmap string entities.Action * string * entities.Action) :=
  '(entity, actions) ← map_to_list registry;
  '(action, a) ← map_to_list actions;
  [(entity, actions, action, a)].

Definition registry_entries := entries_of entities.Entities.

(* ================================================================== *)
(** * The vocabulary of the properties *)
(* ================================================================== *)

(** The requests among some events. *)
Definition requests (evs : list event) : list Request :=
  omap (λ e, match e with EvHTTP req => Some req | _ => None end) evs.

(** [prints P m]: the computation [m] always returns, leaves the files,
    the directories and the standard input as they are, and adds to the
    trace only events that satisfy [P]. *)
Definition prints {A} (P : event → Prop) (m : M A) : Prop :=
  ∀ w, ∃ a evs, m w = (Ret a, logs evs w) ∧ Forall P evs.

(** [adds P m]: however [m] ends, it adds to the trace only events that
    satisfy [P]. *)
Definition adds {A} (P : event → Prop) (m : M A) : Prop :=
  ∀ w, ∃ evs, trace (snd (m w)) = trace w ++ evs ∧ Forall P evs.

Definition no_request (e : event) : Prop := is_http e = false.

(** Neither a request nor a change of the files and directories of the
    state. *)
Definition harmless (e : event) : Prop := is_http e = false ∧ is_write e = false.

(** The YAML text that the preview flow hands to [yq], or the error of
    the steps before: the source file, the inclusion of the script when
    the marker is there, and the substitution of the environment. *)
Definition preview_source (w : World) : result string :=
  match ReadFile "workflow.yaml" w with
  | (Ret (Ok yamlStr), _) =>
      match (if Strings.Contains yamlStr "jsCode: file(index.js)"
             then workflows.injectJSCode "workflow.yaml" w
             else (Ret (Ok yamlStr), w)) with
      | (Ret (Ok yamlStr), _) =>
          match utils.LoadDotEnv ".env" w with
          | (Ret (envMap, err), _) =>
              match (if IsNotExist err then None else err) with
              | Some err => Err (WrapError "failed to load .env file: " err)
              | None =>
                  Ok match envMap with
                     | Some env => workflows.injectEnvVariables yamlStr env
                     | None => yamlStr
                     end
              end
          | _ => Err (ErrorString "")
          end
      | (Ret (Err err), _) => Err (WrapError "failed to inject index.js code: " err)
      | _ => Err (ErrorString "")
      end
  | _ => Err (ErrorString "workflow.yaml not found")
  end.

(** [returns P m]: the computation [m] always returns (it neither exits
    nor panics), reads nothing from the standard input, and adds to the
    trace only events that satisfy [P]. *)
Definition returns {A} (P : event → Prop) (m : M A) : Prop :=
  ∀ w, ∃ a w' evs,
    m w = (Ret a, w') ∧ stdin w' = stdin w
    ∧ trace w' = trace w ++ evs ∧ Forall P evs.

(** No entity is named like a special command, and no action like a
    flag. *)
Definition plain_names (entity action : string) (_ : entities.Action) : bool :=
  bool_decide (entity ∉ ["login"; "--help"; "-h"; "help"])
  && bool_decide (action ∉ ["--help"; "-h"; "--schema"]).

Definition users_actions : gmap string entities.Action :=
  default ∅ (entities.Entities !! "users").

(** The request that [n8nAPIRequest] builds. *)
Definition request_of (method url body apiKey : string) : Request :=
  {| Method := method; URL := url;
     ReqBody := if decide (body = "") then None else Some body;
     Header := [("X-N8N-API-KEY", apiKey); ("Content-Type", "application/json")] |}.

(** The answer that the prompt of the preview flow reads from the
    standard input, as the flow compares it. *)
Definition answer_of (input : string) : string :=
  Strings.TrimSpace (Strings.ToLower (fst (fst (Bufio.ReadString input "010")))).

Definition not_diff (e : event) : Prop := is_diff e = false.

Definition skip_message : string :=
  nl +:+ "No existing .out/workflow.json found, skipping diff." +:+ nl.

Definition prompt_message : string :=
  nl +:+ "Write this JSON to .out/workflow.json? (y/N): ".

(** A run of slashes. *)
Fixpoint slashes (n : nat) : string :=
  match n with
  | O => ""
  | S n' => String "/"%char (slashes n')
  end.

(** [keeps P m]: however [m] ends, the files, the directories and
    [$HOME] are as before, and [m] adds to the trace only events that
    satisfy [P]. *)
Definition keeps {A} (P : event → Prop) (m : M A) : Prop :=
  ∀ w, ∃ evs,
    files (snd (m w)) = files w ∧ dirs (snd (m w)) = dirs w
    ∧ HOME (snd (m w)) = HOME w
    ∧ trace (snd (m w)) = trace w ++ evs ∧ Forall P evs.


(** The events of [SaveConfig]: it may make the config directory, and
    what it writes is the encoding of the config. *)
Definition saves (sys : Platform) (cfg : Config) (e : event) : Prop :=
  match e with
  | EvMkdir _ => True
  | EvWriteFile _ data => data = json_Encode sys cfg
  | _ => False
  end.

Definition is_upper (c : ascii) : bool :=
  ((65 <=? Strings.byte c) && (Strings.byte c <=? 90))%N.

(** The string has one of the letters [A] to [Z]. *)
Fixpoint has_upper (s : string) : bool :=
  match s with
  | EmptyString => false
  | String c s' => is_upper c || has_upper s'
  end.

(** The table of the specification (its section 4.2 and the list of
    the remote API), written after its words: the method and the URL of
    an action on an entity, over a base URL; [{id}] is the first
    parameter.  Preview and diff send nothing, and create on workflows
    writes the starter file instead. *)
Definition documented_request (base entity action : string) (params : list string)
  : option (string * string) :=
  let root := base +:+ "/api/v1/" +:+ entity in
  if decide (action = "list") then Some ("GET", root)
  else if decide (action = "get") then
    (λ id, ("GET", root +:+ "/" +:+ id)) <$> head params
  else if decide (action = "create") then
    if decide (entity = "workflows") then None else Some ("POST", root)
  else if decide (action = "update") then
    (λ id, ("PATCH", root +:+ "/" +:+ id)) <$> head params
  else if decide (action = "delete") then
    (λ id, ("DELETE", root +:+ "/" +:+ id)) <$> head params
  else if decide (action = "activate" ∨ action = "deactivate") then
    (λ id, ("POST", root +:+ "/" +:+ id +:+ "/" +:+ action)) <$> head params
  else if decide (action = "deploy") then
    if decide (entity = "workflows") then Some ("POST", base +:+ "/api/v1/workflows")
    else None
  else None.

(** The actions of the table that take an ID. *)
Definition takes_id (action : string) : bool :=
  bool_decide (action ∈ ["get"; "update"; "delete"; "activate"; "deactivate"]).

(** The claim, over the base URL that the templates stand on: for every
    pair of the registry, called with an ID where the registry asks for
    one, a request that the dispatch builds has the documented method and
    URL; but for deploy, which asks first, the dispatch does build one;
    and the requests that are sent are the documented one. *)
Definition dispatch_as_documented (base_of : Config → string) : Prop :=
  ∀ sys entity actions action a params cfg w method url,
    entities.Entities !! entity = Some actions →
    actions !! action = Some a →
    (entities.NeedsID a = true → params ≠ []) →
    documented_request (base_of cfg) entity action params = Some (method, url) →
    (∀ m u body w1,
       entities.handleGenericEntityAction_switch sys entity action params cfg w
       = (Ret (entities.ToSend m u body), w1) → m = method ∧ u = url)
    ∧ (action ≠ "deploy" → ∃ body w1,
         entities.handleGenericEntityAction_switch sys entity action params cfg w
         = (Ret (entities.ToSend method url body), w1))
    ∧ (∃ evs,
         trace (snd (entities.handleGenericEntityAction sys entity action params cfg w))
         = trace w ++ evs
         ∧ ∀ req, In req (requests evs) → Method req = method ∧ URL req = url).

(** What the table needs of the registry: the actions that take an ID
    are registered as needing one, and deploy is an action of workflows
    only. *)
Definition table_fits (entity action : string) (a : entities.Action) : bool :=
  (if takes_id action then entities.NeedsID a else true)
  && (if decide (action = "deploy") then bool_decide (entity = "workflows") else true).

Definition users_list : entities.Action :=
  {| entities.Description := "List all users"; entities.NeedsID := false;
     entities.Schema := "" |}.

Definition dollar : ascii := "$"%char.

(** Every byte of the string is in the class. *)
Fixpoint all_bytes (p : ascii → bool) (s : string) : bool :=
  match s with
  | EmptyString => true
  | String c s' => p c && all_bytes p s'
  end.

(** A name as the pattern captures it: a letter or an underscore, then
    letters, digits and underscores. *)
Definition is_identifier (name : string) : bool :=
  match name with
  | EmptyString => false
  | String c rest => Regexp.is_ident_start c && all_bytes Regexp.is_ident_char rest
  end.

(** The texts that the pattern matches, after the pattern itself: the
    opening [${{], white space of the class [\s], a name, white space
    again, and the closing [}}]; the name is the group. *)
Definition matches_pattern (m name : string) : Prop :=
  ∃ ws1 ws2,
    all_bytes Regexp.is_s ws1 = true
    ∧ all_bytes Regexp.is_s ws2 = true
    ∧ is_identifier name = true
    ∧ m = "${{" +:+ ws1 +:+ name +:+ ws2 +:+ "}}".

Definition rbrace : ascii := "}"%char.

(** The spaces a line starts with: its indentation. *)
Fixpoint leading_spaces (line : string) : string :=
  match line with
  | String c rest =>
      if Ascii.eqb c " "%char then String c (leading_spaces rest) else EmptyString
  | EmptyString => EmptyString
  end.

(** The line is an inclusion directive, as [injectJSCode] tests it. *)
Definition is_include (line : string) : bool :=
  Strings.HasPrefix (Strings.TrimSpace line) "jsCode: file("
  && Strings.HasSuffix (Strings.TrimSpace line) ")".

(** The lines that stand for an inclusion directive: the block scalar
    header at the indentation of the directive, then the lines of the
    script, each two spaces deeper. *)
Definition block_of (line js : string) : list string :=
  (leading_spaces line +:+ "jsCode: |")
  :: (String.app (leading_spaces line +:+ "  ") <$> Strings.Split js "010"%char).

(** The environment map that the preview flow loads, if any. *)
Definition dotenv_of (w : World) : option (gmap string string) :=
  match utils.LoadDotEnv ".env" w with
  | (Ret (envMap, _), _) => envMap
  | _ => None
  end.

(** The text after the substitution step of the preview flow. *)
Definition substituted (w : World) (text : string) : string :=
  match dotenv_of w with
  | Some env => workflows.injectEnvVariables text env
  | None => text
  end.

(** A working directory whose workflow includes a script of another
    name than [index.js]. *)
Definition other_script (input : string) : World := {|
  files := {[ "workflow.yaml" := "  jsCode: file(x.js)"; "x.js" := "a();" ]};
  dirs := ∅;
  HOME := "/home/u";
  stdin := input;
  trace := []
|}.

(** The events of the preview flow from [yq] to the preview of the
    JSON. *)
Definition previewed (src json : string) : list event :=
  [EvExec "yq" ["."; "-"] src;
   EvStdout ("Workflow JSON preview:" +:+ nl);
   EvStdout (json +:+ nl)].

(** The argument is written as a flag. *)
Definition is_flag (arg : string) : bool := Strings.HasPrefix arg "-".

(** C2 as it is stated: an action that needs an ID, called with
    arguments none of which is an ID (all of them are flags), exits with
    a code other than 0 and without a request. *)
Definition id_always_required : Prop :=
  ∀ sys entity actions action a params cfg w,
    entities.Entities !! entity = Some actions →
    actions !! action = Some a →
    entities.NeedsID a = true →
    forallb is_flag params = true →
    ∃ code w' evs,
      entities.HandleEntityCommand sys entity (action :: params) actions cfg w
      = (Exit code, w')
      ∧ code ≠ 0 ∧ trace w' = trace w ++ evs ∧ requests evs = [].

(** The string has ASCII bytes only: on such a string Go's
    [strings.ToLower] lower-cases byte by byte. *)
Fixpoint is_ascii (s : string) : bool :=
  match s with
  | EmptyString => true
  | String c s' => (Strings.byte c <? 128)%N && is_ascii s'
  end.

(** A config whose base URL has upper case letters. *)
Definition shouting : Config := {| APIToken := "secret"; BaseURL := "HTTP://N8N" |}.

(** C9 as it is stated: with an upper case letter in the base URL of
    the config, the base URL as configured is nowhere in the URL of a
    request that the dispatch sends. *)
Definition base_never_verbatim : Prop :=
  ∀ sys entity action params cfg w evs req,
    has_upper (BaseURL cfg) = true →
    trace (snd (entities.handleGenericEntityAction sys entity action params cfg w))
    = trace w ++ evs →
    In req (requests evs) →
    Strings.Contains (URL req) (BaseURL cfg) = false.

(** [safe m]: the computation [m] returns or exits with a code; it does
    not panic. *)
Definition safe {A} (m : M A) : Prop :=
  ∀ w text, fst (m w) ≠ Panic text.

(** The predicate that every event satisfies. *)
Definition any_event (_ : event) : Prop := True.

(** The directory and the file of the config, as [configPath] names
    them. *)
Definition config_dir (w : World) : string := Filepath.Join [HOME w; ".n8nctl"].

Definition config_file (w : World) : string :=
  Filepath.Join [config_dir w; "config.json"].

(** [os.IsNotExist] of the error of [os.Stat]. *)
Definition stat_not_exist (w : World) (path : string) : bool :=
  negb (exists_ w path)
  && match missing_errno w path with ENOENT => true | _ => false end.

(** The header that [n8nAPIRequest] sets on a request. *)
Definition header_of (apiKey : string) : list (string * string) :=
  [("X-N8N-API-KEY", apiKey); ("Content-Type", "application/json")].

(** The event is a text on the standard output. *)
Definition is_stdout (e : event) : Prop :=
  match e with EvStdout _ => True | _ => False end.

(** [says P m]: however [m] ends, all it does is add events that
    satisfy [P]; the files, the directories and the standard input are
    as before. *)
Definition says {A} (P : event → Prop) (m : M A) : Prop :=
  ∀ w, ∃ evs, snd (m w) = logs evs w ∧ Forall P evs.

(** The actions that have a case in the [switch] of
    [handleGenericEntityAction]. *)
Definition implemented (action : string) : bool :=
  bool_decide (action ∈ ["list"; "get"; "create"; "update"; "delete"; "preview";
                         "diff"; "deploy"; "activate"; "deactivate"]).

(** The one pair of the registry without such a case. *)
Definition only_rollback_missing (entity action : string) (_ : entities.Action) : bool :=
  bool_decide (implemented action = false ↔ entity = "workflows" ∧ action = "rollback").

(** What a successful action prints after the request. *)
Definition success_text (sys : Platform) (entity action data : string) : string :=
  if decide (action = "delete") then entity +:+ " " +:+ action +:+ " successful" +:+ nl
  else match json_Indent sys data with
       | Ok prettyJSON => prettyJSON +:+ nl
       | Err _ => data +:+ nl
       end.

(** The words that ask for the general help. *)
Definition is_help_word (entity : string) : bool :=
  bool_decide (entity ∈ ["--help"; "-h"; "help"]).

(** The actions that the registry has for workflows. *)
Definition workflows_actions : gmap string entities.Action :=
  default ∅ (entities.Entities !! "workflows").

(** The program that [RunDiff] starts. *)
Definition diff_name (sys : Platform) : string :=
  if LookPath sys "colordiff" then "colordiff" else "diff".

(** The names of the two temporary files of [RunDiff], where both can
    be made and written. *)
Definition temp_files (sys : Platform) (oldJSON newJSON : string)
  : option (string * string) :=
  match CreateTemp_result sys "oldworkflow-*.json" with
  | Ok oldTmp =>
      match Write_error sys oldTmp oldJSON with
      | None =>
          match CreateTemp_result sys "newworkflow-*.json" with
          | Ok newTmp =>
              match Write_error sys newTmp newJSON with
              | None => Some (oldTmp, newTmp)
              | Some _ => None
              end
          | Err _ => None
          end
      | Some _ => None
      end
  | Err _ => None
  end.

(** The events of [RunDiff] before and after the diff program: the two
    temporary files are made and written, and removed in the reverse
    order. *)
Definition temps_written (oldTmp newTmp oldJSON newJSON : string) : list event :=
  [EvCreateTemp "oldworkflow-*.json"; EvWriteTemp oldTmp oldJSON;
   EvCreateTemp "newworkflow-*.json"; EvWriteTemp newTmp newJSON].

Definition temps_removed (oldTmp newTmp : string) : list event :=
  [EvRemove newTmp; EvRemove oldTmp].

(** The diff step goes through: the temporary files can be made and
    written, and the diff program ends with code 0 (no difference) or 1
    (differences). *)
Definition diff_passes (sys : Platform) (oldJSON newJSON : string) : Prop :=
  is_Some (temp_files sys oldJSON newJSON)
  ∧ (diff_Run sys (diff_name sys) oldJSON newJSON = Exited 0
     ∨ diff_Run sys (diff_name sys) oldJSON newJSON = Exited 1).

(** What the diff command may do: print, start [yq] and the diff
    program, and make, write and remove temporary files.  Requests and
    writes to the files and directories of the state are not among
    these. *)
Definition local_effect (e : event) : Prop :=
  match e with
  | EvStdout _ | EvExec _ _ _ | EvDiff _ _ _
  | EvCreateTemp _ | EvWriteTemp _ _ | EvRemove _ => True
  | _ => False
  end.

(** The temporary files that the events leave behind: those written
    and not removed afterwards. *)
Fixpoint temps_left (evs : list event) : list string :=
  match evs with
  | [] => []
  | EvWriteTemp name _ :: evs' =>
      if existsb (λ e, match e with
                       | EvRemove name' => bool_decide (name' = name)
                       | _ => false
                       end) evs'
      then temps_left evs' else name :: temps_left evs'
  | _ :: evs' => temps_left evs'
  end.

(** The answer at the prompt is a yes. *)
Definition confirmed (w : World) : Prop :=
  answer_of (stdin w) = "y" ∨ answer_of (stdin w) = "yes".

(** Surroundings without a diff program. *)
Definition no_diff_program : Platform := {|
  json_Encode := json_Encode (Sample.platform Sample.ok_200);
  json_Decode := json_Decode (Sample.platform Sample.ok_200);
  json_Indent := json_Indent (Sample.platform Sample.ok_200);
  NewRequest_error := NewRequest_error (Sample.platform Sample.ok_200);
  client_Do := client_Do (Sample.platform Sample.ok_200);
  yq_Output := yq_Output (Sample.platform Sample.ok_200);
  CreateTemp_result := CreateTemp_result (Sample.platform Sample.ok_200);
  Write_error := Write_error (Sample.platform Sample.ok_200);
  LookPath _ := false;
  diff_Run name _ _ :=
    NotStarted (ErrorString ("exec: " +:+ dq +:+ name +:+ dq
                             +:+ ": executable file not found in $PATH"))
|}.

(** The sample project after an earlier preview was saved. *)
Definition previewed_project (input : string) : World :=
  set_files (<[".out/workflow.json" := "{}"]> (files (Sample.project input)))
    (set_dirs ({[".out"]} ∪ dirs (Sample.project input)) (Sample.project input)).

(** An ASCII byte that is no white space. *)
Definition ascii_nonspace (c : ascii) : bool :=
  (Strings.byte c <? 128)%N && negb (Strings.is_space1 c).

(** The string is empty, or begins (for [ends_plain]: and ends) with an
    ASCII byte that is no white space. *)
Definition first_plain (s : string) : bool :=
  match s with EmptyString => true | String c _ => ascii_nonspace c end.

Definition ends_plain (s : string) : bool :=
  first_plain s && first_plain (String.rev s).

(** A printable ASCII byte other than the space and the double quote. *)
Definition is_plain (c : ascii) : bool :=
  ((33 <=? Strings.byte c) && (Strings.byte c <=? 126)
   && negb (Strings.byte c =? 34))%N.

(** A line of an environment file that defines [name] as [value]: white
    space of the ASCII kind may stand around the line, the [=] and the
    value, and the value may stand in double quotes. *)
Definition definition_line (lead name sp1 sp2 quote value trail : string) : string :=
  lead +:+ name +:+ sp1 +:+ "=" +:+ sp2 +:+ quote +:+ value +:+ quote +:+ trail.

(** An environment file with one line [NAME=VALUE] for each pair, in
    the order of the list. *)
Definition env_file (defs : list (string * string)) : string :=
  foldr (λ d rest, fst d +:+ "=" +:+ snd d +:+ nl +:+ rest) "" defs.

(** A pair of a name and a value without white space and quotes. *)
Definition plain_definition (d : string * string) : Prop :=
  is_identifier (fst d) = true ∧ all_bytes is_plain (snd d) = true.

(** The line [NAME=VALUE] of the pair is short enough for the scanner. *)
Definition short_definition (d : string * string) : Prop :=
  Bufio.fits (fst d +:+ "=" +:+ snd d) = true.

(* ================================================================== *)
(** * Properties *)
(* ================================================================== *)

#[local] Arguments Filepath.Dir : simpl never.
#[local] Arguments Filepath.Join : simpl never.
#[local] Arguments Filepath.Clean : simpl never.
#[local] Arguments Strings.TrimSpace : simpl never.
#[local] Arguments Strings.ToLower : simpl never.
#[local] Arguments Strings.TrimRight : simpl never.
#[local] Arguments Strings.Contains : simpl never.
#[local] Arguments workflows.yamlContent : simpl never.

(** ** Strings *)

Lemma sapp_cons (c : ascii) (s t : string) : String c s +:+ t = String c (s +:+ t).
Proof. reflexivity. Qed.

Lemma sapp_nil_r (s : string) : s +:+ "" = s.
Proof. induction s as [|c s IH]; [reflexivity|]. rewrite sapp_cons. by rewrite IH. Qed.

Lemma sapp_nil_l (s : string) : "" +:+ s = s.
Proof. reflexivity. Qed.

Lemma sapp_assoc (s t u : string) : (s +:+ t) +:+ u = s +:+ t +:+ u.
Proof. induction s as [|c s IH]; [reflexivity|]. rewrite !sapp_cons. by rewrite IH. Qed.

Lemma sapp_length (s t : string) :
  String.length (s +:+ t) = (String.length s + String.length t)%nat.
Proof. induction s as [|c s IH]; [reflexivity|]. rewrite sapp_cons. simpl. by rewrite IH. Qed.

Lemma HasPrefix_app (s t : string) : Strings.HasPrefix (s +:+ t) s = true.
Proof.
  induction s as [|c s IH]; [done|].
  rewrite sapp_cons. simpl. by rewrite Ascii.eqb_refl.
Qed.

Lemma Contains_here (s sub : string) :
  Strings.HasPrefix s sub = true → Strings.Contains s sub = true.
Proof. intros H. destruct s; unfold Strings.Contains; by rewrite H. Qed.

Lemma Contains_app (pre s post : string) :
  Strings.Contains (pre +:+ s +:+ post) s = true.
Proof.
  induction pre as [|c pre IH].
  - rewrite sapp_nil_l. apply Contains_here, HasPrefix_app.
  - rewrite sapp_cons. unfold Strings.Contains; fold Strings.Contains.
    rewrite IH. apply orb_true_r.
Qed.

Lemma Contains_app_r (pre s : string) : Strings.Contains (pre +:+ s) s = true.
Proof. pose proof (Contains_app pre s "") as H. by rewrite sapp_nil_r in H. Qed.

(** ** The monad and the trace *)

Lemma log_logs (e : event) (w : World) : log e w = logs [e] w.
Proof. reflexivity. Qed.

Lemma logs_nil (w : World) : logs [] w = w.
Proof. destruct w. unfold logs. simpl. by rewrite app_nil_r. Qed.

Lemma logs_logs (evs1 evs2 : list event) (w : World) :
  logs evs2 (logs evs1 w) = logs (evs1 ++ evs2) w.
Proof. unfold logs. simpl. by rewrite app_assoc. Qed.

(** ** The registry *)

Lemma entries_of_complete registry entity actions action a :
  registry !! entity = Some actions →
  actions !! action = Some a →
  In (entity, actions, action, a) (entries_of registry).
Proof.
  intros He Ha. apply list_elem_of_In. unfold entries_of.
  apply list_elem_of_bind. exists (entity, actions). split.
  - apply list_elem_of_bind. exists (action, a). split; [set_solver|].
    by apply elem_of_map_to_list.
  - by apply elem_of_map_to_list.
Qed.

Lemma registry_entries_complete entity actions action a :
  entities.Entities !! entity = Some actions →
  actions !! action = Some a →
  In (entity, actions, action, a) registry_entries.
Proof. apply entries_of_complete. Qed.

Lemma prints_ret {A} P (a : A) : prints P (ret a).
Proof. intros w. exists a, []. by rewrite logs_nil. Qed.

Lemma prints_bind {A B} P (m : M A) (k : A → M B) :
  prints P m → (∀ a, prints P (k a)) → prints P (bind m k).
Proof.
  intros Hm Hk w. destruct (Hm w) as (a & evs1 & Em & H1).
  destruct (Hk a (logs evs1 w)) as (b & evs2 & Ek & H2).
  exists b, (evs1 ++ evs2). unfold bind. rewrite Em, Ek, logs_logs.
  split; [done|]. by apply Forall_app.
Qed.

Lemma prints_mono {A} (P Q : event → Prop) (m : M A) :
  (∀ e, P e → Q e) → prints P m → prints Q m.
Proof.
  intros HPQ Hm w. destruct (Hm w) as (a & evs & Em & H).
  exists a, evs. split; [done|]. eapply Forall_impl; eauto.
Qed.

Lemma prints_event P (e : event) :
  P e → prints P (λ w, (Ret tt, log e w)).
Proof. intros He w. exists tt, [e]. split; [done|]. by constructor. Qed.

Lemma prints_Print P text : P (EvStdout text) → prints P (fmt_Print text).
Proof. apply prints_event. Qed.

Lemma prints_Println P text :
  P (EvStdout (text +:+ nl)) → prints P (fmt_Println text).
Proof. apply prints_event. Qed.

Lemma prints_Eprint P text : P (EvStderr text) → prints P (fmt_Eprint text).
Proof. apply prints_event. Qed.

Lemma prints_ReadFile P path : prints P (ReadFile path).
Proof.
  intros w. unfold ReadFile.
  destruct (files w !! path); [|destruct (is_dir w path)];
    eexists _, []; by rewrite logs_nil.
Qed.

Lemma prints_Stat P path : prints P (Stat path).
Proof.
  intros w. unfold Stat. destruct (exists_ w path);
    eexists _, []; by rewrite logs_nil.
Qed.

Lemma prints_Open P path : prints P (Open path).
Proof.
  intros w. unfold Open. destruct (exists_ w path);
    eexists _, []; by rewrite logs_nil.
Qed.

Lemma prints_UserHomeDir P : prints P UserHomeDir.
Proof.
  intros w. unfold UserHomeDir. destruct (decide (HOME w = ""));
    eexists _, []; by rewrite logs_nil.
Qed.

Lemma adds_prints {A} P (m : M A) : prints P m → adds P m.
Proof.
  intros Hm w. destruct (Hm w) as (a & evs & -> & H). by exists evs.
Qed.

Lemma adds_bind {A B} P (m : M A) (k : A → M B) :
  adds P m → (∀ a, adds P (k a)) → adds P (bind m k).
Proof.
  intros Hm Hk w. destruct (Hm w) as (evs1 & E1 & H1). unfold bind.
  destruct (m w) as [[a|code|text] w1]; simpl in *.
  - destruct (Hk a w1) as (evs2 & E2 & H2). exists (evs1 ++ evs2).
    rewrite E2, E1, app_assoc. split; [done|]. by apply Forall_app.
  - by exists evs1.
  - by exists evs1.
Qed.

Lemma adds_mono {A} (P Q : event → Prop) (m : M A) :
  (∀ e, P e → Q e) → adds P m → adds Q m.
Proof.
  intros HPQ Hm w. destruct (Hm w) as (evs & Em & H).
  exists evs. split; [done|]. eapply Forall_impl; eauto.
Qed.

Lemma adds_Exit {A} P code : adds P (@os_Exit A code).
Proof. intros w. exists []. simpl. by rewrite app_nil_r. Qed.

Lemma adds_panic {A} P text : adds P (@panic A text).
Proof. intros w. exists []. simpl. by rewrite app_nil_r. Qed.

Lemma adds_index P s i : adds P (index s i).
Proof.
  unfold index. destruct (s !! i); [apply adds_prints, prints_ret|apply adds_panic].
Qed.

Lemma adds_stdin_ReadString P : adds P stdin_ReadString.
Proof.
  intros w. exists []. unfold stdin_ReadString.
  destruct (Bufio.ReadString (stdin w) "010") as [[line rest] eof]. simpl.
  by rewrite app_nil_r.
Qed.

Lemma adds_Mkdir (P : event → Prop) path : P (EvMkdir path) → adds P (Mkdir path).
Proof.
  intros HP w. exists [EvMkdir path]. unfold Mkdir.
  destruct (exists_ w path); [|destruct (parent_errno w path)]; simpl;
    (split; [done|by constructor]).
Qed.

Lemma adds_WriteFile (P : event → Prop) path data :
  P (EvWriteFile path data) → adds P (WriteFile path data).
Proof.
  intros HP w. exists [EvWriteFile path data]. unfold WriteFile.
  destruct (is_dir w path); [|destruct (parent_errno w path)]; simpl;
    (split; [done|by constructor]).
Qed.

Create HintDb effects.
#[local] Hint Resolve prints_ret prints_ReadFile prints_Stat prints_Open
  prints_UserHomeDir adds_Exit adds_panic adds_index adds_stdin_ReadString
  : effects.

(** Goals [prints P m] and [adds P m] by the structure of [m]. *)
Ltac effects_step :=
  match goal with
  | |- prints _ (bind _ _) => apply prints_bind; [|intros ?]
  | |- adds _ (bind _ _) => apply adds_bind; [|intros ?]
  | |- prints _ (fmt_Print _) => apply prints_Print; try done
  | |- prints _ (fmt_Println _) => apply prints_Println; try done
  | |- prints _ (fmt_Eprint _) => apply prints_Eprint; try done
  | |- adds _ (Mkdir _) => apply adds_Mkdir; try done
  | |- adds _ (WriteFile _ _) => apply adds_WriteFile; try done
  | |- prints _ (λ w, (Ret tt, log _ w)) => apply prints_event; try done
  | |- _ => solve [eauto with effects]
  | |- adds _ _ => solve [apply adds_prints; eauto with effects]
  | |- context [match ?x with _ => _ end] => destruct x
  | |- adds _ _ => apply adds_prints
  end.

Ltac effects := repeat effects_step.

(** ** What the helpers do to the outside *)

Lemma prints_injectJSCode_lines P yamlPath lines outputLines :
  prints P (workflows.injectJSCode_lines yamlPath lines outputLines).
Proof.
  revert outputLines. induction lines as [|line lines IH]; intros outputLines; simpl.
  - apply prints_ret.
  - destruct (_ && _); [|apply IH].
    apply prints_bind; [apply prints_ReadFile|]. intros [jsCode|err]; [apply IH|apply prints_ret].
Qed.

Lemma prints_injectJSCode P yamlPath : prints P (workflows.injectJSCode yamlPath).
Proof.
  unfold workflows.injectJSCode.
  apply prints_bind; [apply prints_ReadFile|]. intros [data|err]; [|apply prints_ret].
  apply prints_bind; [apply prints_injectJSCode_lines|]. intros [out|err]; apply prints_ret.
Qed.

Lemma prints_LoadDotEnv P filename : prints P (utils.LoadDotEnv filename).
Proof. unfold utils.LoadDotEnv. effects. Qed.

Lemma prints_defer {A} P (deferred : M unit) (rest : M A) :
  prints P deferred → prints P rest → prints P (defer deferred rest).
Proof.
  intros Hd Hr w. destruct (Hr w) as (a & evs1 & E1 & H1).
  destruct (Hd (logs evs1 w)) as ([] & evs2 & E2 & H2).
  exists a, (evs1 ++ evs2). unfold defer. rewrite E1, E2. simpl.
  rewrite logs_logs. split; [done|]. by apply Forall_app.
Qed.

Lemma prints_logged {A} P (a : A) (e : event) :
  P e → prints P (λ w, (Ret a, log e w)).
Proof. intros He w. exists a, [e]. split; [done|]. by constructor. Qed.

Lemma prints_RunDiff (P : event → Prop) sys oldJSON newJSON :
  (∀ name, P (EvDiff name oldJSON newJSON)) → (∀ text, P (EvStdout text)) →
  (∀ pattern, P (EvCreateTemp pattern)) → (∀ name data, P (EvWriteTemp name data)) →
  (∀ name, P (EvRemove name)) →
  prints P (utils.RunDiff sys oldJSON newJSON).
Proof.
  intros Hd Hs Hc Hw Hr. unfold utils.RunDiff.
  apply prints_bind; [by apply prints_logged|]. intros [oldTmpFile|err]; [|effects].
  apply prints_defer; [by apply prints_logged|].
  apply prints_bind; [by apply prints_logged|]. intros [err|]; [effects|].
  apply prints_bind; [by apply prints_logged|]. intros [newTmpFile|err]; [|effects].
  apply prints_defer; [by apply prints_logged|].
  apply prints_bind; [by apply prints_logged|]. intros [err|]; effects.
Qed.

Lemma prints_yq_stdin (P : event → Prop) sys input :
  (∀ args, P (EvExec "yq" args input)) → prints P (workflows.yq_stdin sys input).
Proof.
  intros HP w. exists (yq_Output sys input), [EvExec "yq" ["."; "-"] input].
  split; [done|]. by constructor.
Qed.

Lemma prints_yq_file (P : event → Prop) sys path :
  (∀ args, P (EvExec "yq" args "")) → prints P (workflows.yq_file sys path).
Proof. intros HP. unfold workflows.yq_file. effects. Qed.

Lemma prints_PrintJSONResponse (P : event → Prop) sys data :
  (∀ text, P (EvStdout text)) → prints P (utils.PrintJSONResponse sys data).
Proof. intros HP. unfold utils.PrintJSONResponse. effects. Qed.

#[local] Hint Resolve prints_injectJSCode prints_LoadDotEnv : effects.

Lemma ReadString_spec input delim :
  ∀ line rest eof, Bufio.ReadString input delim = (line, rest, eof) →
    input = line +:+ rest
    ∧ (eof = true → rest = "")
    ∧ (eof = false → (String.length rest < String.length input)%nat).
Proof.
  induction input as [|c input IH]; intros line rest eof; simpl.
  - intros [= <- <- <-]. by repeat split.
  - destruct (Ascii.eqb c delim).
    + intros [= <- <- <-]. repeat split; [done|lia].
    + destruct (Bufio.ReadString input delim) as [[line' rest'] eof'].
      intros [= <- <- <-]. destruct (IH _ _ _ eq_refl) as (E & Ht & Hf).
      rewrite sapp_cons. repeat split; [by f_equal|done|]. intros H. specialize (Hf H). lia.
Qed.

(** [ReadStdin] takes all that is left of the standard input: the loop
    ends within its turns. *)
Lemma ReadStdin_loop_all fuel sb w :
  (String.length (stdin w) < fuel)%nat →
  utils.ReadStdin_loop fuel sb w = (Ret (sb +:+ stdin w), set_stdin "" w).
Proof.
  revert sb w. induction fuel as [|fuel IH]; intros sb w Hlen; [lia|].
  simpl. unfold bind, stdin_ReadString.
  destruct (Bufio.ReadString (stdin w) "010") as [[line rest] eof] eqn:Er.
  destruct (ReadString_spec _ _ _ _ _ Er) as (E & Ht & Hf).
  destruct eof.
  - rewrite (Ht eq_refl) in *. rewrite sapp_nil_r in E. by rewrite E.
  - rewrite IH; [|simpl; specialize (Hf eq_refl); lia].
    simpl. by rewrite sapp_assoc, E.
Qed.

Lemma ReadStdin_all w :
  utils.ReadStdin w = (Ret (Strings.TrimSpace (stdin w)), set_stdin "" w).
Proof. unfold utils.ReadStdin, bind. rewrite ReadStdin_loop_all; [done|lia]. Qed.

Lemma adds_ReadStdin P : adds P utils.ReadStdin.
Proof. intros w. rewrite ReadStdin_all. exists []. simpl. by rewrite app_nil_r. Qed.

Lemma lines_returns yamlPath lines outputLines w :
  ∃ r, workflows.injectJSCode_lines yamlPath lines outputLines w = (Ret r, w).
Proof.
  destruct (prints_injectJSCode_lines (λ _, False) yamlPath lines outputLines w)
    as (r & evs & E & Hevs).
  exists r. destruct evs as [|e evs]; [by rewrite logs_nil in E|].
  by apply Forall_cons in Hevs as [[] _].
Qed.

Lemma ReadFile_returns path w : ∃ r, ReadFile path w = (Ret r, w).
Proof.
  unfold ReadFile. destruct (files w !! path); [|destruct (is_dir w path)]; by eexists.
Qed.

Lemma bind_Ret {A B} (m : M A) (k : A → M B) w a w' :
  m w = (Ret a, w') → bind m k w = k a w'.
Proof. intros E. unfold bind. by rewrite E. Qed.

Lemma unchanged {A} (m : M A) :
  prints (λ _, False) m → ∀ w, ∃ a, m w = (Ret a, w).
Proof.
  intros Hm w. destruct (Hm w) as (a & evs & E & Hevs).
  exists a. destruct evs as [|e evs]; [by rewrite logs_nil in E|].
  by apply Forall_cons in Hevs as [[] _].
Qed.

(** The preview flow fails with the error of its source, or starts [yq]
    on the source, and goes on from there without a request. *)
Lemma Preview_source sys w :
  match preview_source w with
  | Err err =>
      workflows.PreviewWorkflowJSONWithPrompt sys w = (Ret (false, Some err), w)
  | Ok yamlStr =>
      ∃ evs,
        trace (snd (workflows.PreviewWorkflowJSONWithPrompt sys w))
        = trace w ++ EvExec "yq" ["."; "-"] yamlStr :: evs
        ∧ Forall no_request evs
  end.
Proof.
  unfold preview_source, workflows.PreviewWorkflowJSONWithPrompt.
  destruct (ReadFile_returns "workflow.yaml" w) as [r E].
  rewrite E, (bind_Ret _ _ _ _ _ E). clear E.
  destruct r as [yamlStr|?]; [|reflexivity].
  assert (∃ r, (if Strings.Contains yamlStr "jsCode: file(index.js)"
                then workflows.injectJSCode "workflow.yaml"
                else ret (Ok yamlStr)) w = (Ret r, w)) as [r Hr].
  { destruct (Strings.Contains _ _); [|by eexists].
    apply unchanged, prints_injectJSCode. }
  assert ((if Strings.Contains yamlStr "jsCode: file(index.js)"
           then workflows.injectJSCode "workflow.yaml" w
           else (Ret (Ok yamlStr), w)) = (Ret r, w)) as ->.
  { rewrite <- Hr. by destruct (Strings.Contains _ _). }
  rewrite (bind_Ret _ _ _ _ _ Hr). clear Hr.
  destruct r as [yamlStr'|?]; [|reflexivity].
  destruct (unchanged _ (prints_LoadDotEnv _ ".env") w) as [[envMap err] E].
  rewrite E, (bind_Ret _ _ _ _ _ E). clear E.
  destruct (if IsNotExist err then None else err); [reflexivity|].
  unfold bind at 1, workflows.yq_stdin at 1.
  match goal with |- context [EvExec "yq" _ ?y] => set (source := y) end.
  cbv beta iota.
  match goal with |- context [snd (?f (log (EvExec "yq" ["."; "-"] source) w))] =>
    assert (adds no_request f) as Hrest
  end.
  2: { destruct (Hrest (log (EvExec "yq" ["."; "-"] source) w)) as (evs & E & Hevs).
       exists evs. split; [|done]. etrans; [exact E|]. simpl. by rewrite <- app_assoc. }
  destruct (yq_Output sys source) as [newJSON|err']; [|effects].
  apply adds_bind; [effects|]. intros oldJSON.
  apply adds_bind; [effects|]. intros _.
  apply adds_bind; [effects|]. intros _.
  apply adds_bind.
  { destruct oldJSON; [|effects].
    apply adds_bind; [effects|]. intros _. apply adds_prints, prints_RunDiff; done. }
  intros [err'|]; [effects|].
  apply adds_bind; [effects|]. intros _.
  apply adds_bind; [effects|]. intros [answer eof].
  destruct (bool_decide _); [|effects].
  apply adds_bind; [effects|]. intros st.
  apply adds_bind; [destruct (IsNotExist st); effects|].
  intros [err'|]; [effects|].
  apply adds_bind; [effects|]. intros [err'|]; effects.
Qed.

Lemma adds_Preview sys :
  adds no_request (workflows.PreviewWorkflowJSONWithPrompt sys).
Proof.
  intros w. pose proof (Preview_source sys w) as H.
  destruct (preview_source w) as [yamlStr|err].
  - destruct H as (evs & E & Hevs). exists (EvExec "yq" ["."; "-"] yamlStr :: evs).
    split; [done|]. by constructor.
  - rewrite H. exists []. simpl. by rewrite app_nil_r.
Qed.

Lemma returns_prints {A} P (m : M A) : prints P m → returns P m.
Proof.
  intros Hm w. destruct (Hm w) as (a & evs & -> & H). by exists a, (logs evs w), evs.
Qed.

Lemma returns_bind {A B} P (m : M A) (k : A → M B) :
  returns P m → (∀ a, returns P (k a)) → returns P (bind m k).
Proof.
  intros Hm Hk w. destruct (Hm w) as (a & w1 & evs1 & Em & Ei1 & E1 & H1).
  destruct (Hk a w1) as (b & w2 & evs2 & Ek & Ei2 & E2 & H2).
  exists b, w2, (evs1 ++ evs2). unfold bind.
  rewrite Em, Ek, E2, E1, app_assoc, Ei2, Ei1.
  repeat split. by apply Forall_app.
Qed.

Lemma returns_Mkdir (P : event → Prop) path : P (EvMkdir path) → returns P (Mkdir path).
Proof.
  intros HP w. unfold Mkdir.
  destruct (exists_ w path); [|destruct (parent_errno w path)];
    eexists _, _, [EvMkdir path]; (split; [reflexivity|]); simpl;
    (split; [done|]); (split; [done|by constructor]).
Qed.

Lemma returns_WriteFile (P : event → Prop) path data :
  P (EvWriteFile path data) → returns P (WriteFile path data).
Proof.
  intros HP w. unfold WriteFile.
  destruct (is_dir w path); [|destruct (parent_errno w path)];
    eexists _, _, [EvWriteFile path data]; (split; [reflexivity|]); simpl;
    (split; [done|]); (split; [done|by constructor]).
Qed.

Lemma adds_returns {A} P (m : M A) : returns P m → adds P m.
Proof.
  intros Hm w. destruct (Hm w) as (a & w' & evs & -> & _ & E & H). by exists evs.
Qed.

Ltac returns_step :=
  match goal with
  | |- returns _ (bind _ _) => apply returns_bind; [|intros ?]
  | |- returns _ (Mkdir _) => apply returns_Mkdir; try done
  | |- returns _ (WriteFile _ _) => apply returns_WriteFile; try done
  | |- returns _ (match ?x with _ => _ end) => destruct x
  | |- returns _ _ => apply returns_prints; solve [effects]
  end.

Ltac returns := repeat returns_step.

Lemma Forall_no_request evs : Forall no_request evs → requests evs = [].
Proof.
  induction 1 as [|e evs He _ IH]; [done|].
  destruct e; done.
Qed.

Lemma returns_configPath P :
  (∀ path, P (EvMkdir path)) → returns P config.configPath.
Proof. intros HP. unfold config.configPath. returns. Qed.

Lemma returns_LoadConfig P sys :
  (∀ path, P (EvMkdir path)) → returns P (config.LoadConfig sys).
Proof.
  intros HP. unfold config.LoadConfig.
  apply returns_bind; [by apply returns_configPath|]. intros ?. returns.
Qed.

(** A property of the registry entries that a computation decides
    holds of every entry. *)
Lemma registry_check (P : string → string → entities.Action → bool) :
  forallb (λ '(entity, _, action, a), P entity action a) registry_entries = true →
  ∀ entity actions action a,
    entities.Entities !! entity = Some actions →
    actions !! action = Some a →
    P entity action a = true.
Proof.
  intros Hall entity actions action a He Ha.
  rewrite forallb_forall in Hall.
  exact (Hall _ (registry_entries_complete _ _ _ _ He Ha)).
Qed.

Lemma registry_plain_names entity actions action a :
  entities.Entities !! entity = Some actions →
  actions !! action = Some a →
  (entity ∉ ["login"; "--help"; "-h"; "help"])
  ∧ (action ∉ ["--help"; "-h"; "--schema"]).
Proof.
  intros He Ha.
  assert (plain_names entity action a = true) as H.
  { revert He Ha. apply registry_check. vm_compute. reflexivity. }
  unfold plain_names in H. apply andb_true_iff in H as [H1 H2].
  by apply bool_decide_eq_true in H1, H2.
Qed.

(** C2, as amended.  An action whose registry entry needs an ID, called
    with the action name alone, ends the process with exit code 1 after
    printing that the action requires an ID, and nothing else happens: no
    request is built or sent.  The same holds for the whole command line:
    the process exits with code 1, its last event is a message on
    standard output, and no request is among its events.  The test is on
    the number of arguments only: with anything after the action name, a
    flag included (and [--schema] nowhere), the command goes on to the
    dispatch, which takes that argument for the ID. *)
Theorem needs_id_fails_before_request sys entity actions action a cfg w :
  entities.Entities !! entity = Some actions →
  actions !! action = Some a →
  entities.NeedsID a = true →
  entities.HandleEntityCommand sys entity [action] actions cfg w
  = (Exit 1, log (EvStdout ("Action '" +:+ action
                            +:+ "' requires an ID parameter" +:+ nl)) w)
  ∧ (∀ prog, ∃ w' evs,
       cmd.Execute sys [prog; entity; action] w = (Exit 1, w')
       ∧ trace w' = trace w ++ evs
       ∧ requests evs = []
       ∧ ∃ evs' text, evs = evs' ++ [EvStdout text])
  ∧ (∀ id rest,
       "--schema" ∉ id :: rest →
       entities.HandleEntityCommand sys entity (action :: id :: rest) actions cfg w
       = (err <- entities.handleGenericEntityAction sys entity action (id :: rest) cfg ;;
          match err with
          | Some err => fmt_Print ("Error: " +:+ Error err +:+ nl) ;; os_Exit 1
          | None => ret tt
          end)%go w).
Proof.
  intros He Ha Hid.
  destruct (registry_plain_names _ _ _ _ He Ha) as [Hent Hact].
  assert (∀ cfg w, entities.HandleEntityCommand sys entity [action] actions cfg w
           = (Exit 1, log (EvStdout ("Action '" +:+ action
                             +:+ "' requires an ID parameter" +:+ nl)) w)) as Hcmd.
  { intros cfg0 w0. unfold entities.HandleEntityCommand.
    destruct (decide (action = "--help" ∨ action = "-h")) as [[->| ->]|_];
      [exfalso; apply Hact; set_solver..|].
    simpl. rewrite bool_decide_eq_false_2 by (intros ->; apply Hact; set_solver).
    simpl. rewrite Ha, Hid. reflexivity. }
  split; [apply Hcmd|]. split.
  - intros prog. unfold cmd.Execute.
    destruct (decide (entity = "login")) as [->|_]; [exfalso; apply Hent; set_solver|].
    destruct (decide _) as [[->|[->| ->]]|_]; [exfalso; apply Hent; set_solver..|].
    rewrite He. unfold bind.
    destruct (returns_LoadConfig no_request sys (λ _, eq_refl) w)
      as (r & w1 & evs & -> & _ & Etr & Hevs).
    assert (∀ text, requests (evs ++ [EvStdout text]) = []) as Hreq.
    { intros text. unfold requests. rewrite omap_app. fold (requests evs).
      by rewrite (Forall_no_request _ Hevs). }
    destruct r as [cfg'|err].
    + rewrite Hcmd. eexists _, _. split; [reflexivity|]. simpl. rewrite Etr, <- app_assoc.
      split; [reflexivity|]. split; [apply Hreq|by eexists _, _].
    + simpl. eexists _, _. split; [reflexivity|]. simpl. rewrite Etr, <- app_assoc.
      split; [reflexivity|]. split; [apply Hreq|by eexists _, _].
  - intros id rest Hschema. unfold entities.HandleEntityCommand.
    destruct (decide (action = "--help" ∨ action = "-h")) as [[->| ->]|_];
      [exfalso; apply Hact; rewrite !elem_of_cons; tauto..|].
    assert (existsb (λ arg, bool_decide (arg = "--schema")) (action :: id :: rest) = false)
      as ->.
    { apply not_true_is_false. intros (x & Hx & Hb)%existsb_exists.
      apply bool_decide_eq_true in Hb as ->. destruct Hx as [->|Hx].
      - apply Hact. rewrite !elem_of_cons. tauto.
      - apply Hschema. by apply list_elem_of_In. }
    rewrite Ha, Hid. cbn [andb]. rewrite bool_decide_eq_false_2; [done|].
    cbn [length]. lia.
Qed.

Lemma needs_id_fails_before_request_witness :
  entities.Entities !! "users" = Some users_actions
  ∧ users_actions !! "get"
    = Some {| entities.Description := "Get a user by ID";
              entities.NeedsID := true; entities.Schema := "" |}
  ∧ entities.HandleEntityCommand (Sample.platform Sample.ok_200) "users" ["get"]
      users_actions Sample.cfg (Sample.empty_dir "")
    = (Exit 1, log (EvStdout ("Action '" +:+ "get"
                              +:+ "' requires an ID parameter" +:+ nl))
                 (Sample.empty_dir "")).
Proof.
  assert (entities.Entities !! "users" = Some users_actions) as He
    by (vm_compute; reflexivity).
  assert (users_actions !! "get"
          = Some {| entities.Description := "Get a user by ID";
                    entities.NeedsID := true; entities.Schema := "" |}) as Ha
    by (vm_compute; reflexivity).
  split; [exact He|]. split; [exact Ha|].
  exact (proj1 (needs_id_fails_before_request (Sample.platform Sample.ok_200)
                  "users" users_actions "get" _ Sample.cfg (Sample.empty_dir "")
                  He Ha eq_refl)).
Defined.

(** C2, as stated: the claim fails.  An argument after the action is
    taken for the ID though it is a flag: [users get --data], where no ID
    is given, sends a request for the user [--data] and returns. *)
Lemma flag_is_taken_for_the_id :
  entities.HandleEntityCommand (Sample.platform Sample.ok_200) "users" ["get"; "--data"]
    users_actions Sample.cfg (Sample.empty_dir "")
  = (Ret tt,
     logs [EvHTTP (request_of "GET" "https://n8n.example/api/v1/users/--data" "" "secret");
           EvStdout ("[]" +:+ nl)] (Sample.empty_dir ""))
  ∧ ¬ id_always_required.
Proof.
  assert (entities.HandleEntityCommand (Sample.platform Sample.ok_200) "users"
            ["get"; "--data"] users_actions Sample.cfg (Sample.empty_dir "")
          = (Ret tt,
             logs [EvHTTP (request_of "GET" "https://n8n.example/api/v1/users/--data"
                             "" "secret");
                   EvStdout ("[]" +:+ nl)] (Sample.empty_dir ""))) as Hrun
    by (vm_compute; reflexivity).
  split; [exact Hrun|]. intros Hclaim.
  assert (entities.Entities !! "users" = Some users_actions) as He
    by (vm_compute; reflexivity).
  assert (users_actions !! "get"
          = Some {| entities.Description := "Get a user by ID";
                    entities.NeedsID := true; entities.Schema := "" |}) as Ha
    by (vm_compute; reflexivity).
  destruct (Hclaim (Sample.platform Sample.ok_200) "users" users_actions "get" _
              ["--data"] Sample.cfg (Sample.empty_dir "") He Ha eq_refl eq_refl)
    as (code & w' & evs & E & _).
  rewrite Hrun in E. discriminate.
Qed.

(** ** The starter workflow *)

Lemma Dir_workflow_yaml : Filepath.Dir "workflow.yaml" = ".".
Proof. vm_compute. reflexivity. Qed.

Lemma exists_false w path :
  exists_ w path = false → files w !! path = None ∧ is_dir w path = false.
Proof.
  unfold exists_. intros [H1 H2]%orb_false_iff. split; [|done].
  apply bool_decide_eq_false in H1. by apply eq_None_not_Some.
Qed.

(** C10.  The create action of workflows looks for [workflow.yaml]: when
    nothing of that name exists it writes the starter file, and that is
    all it does; when something of that name exists it returns the error
    [workflow.yaml already exists] and changes nothing.  So the file is
    written exactly when it did not exist, an existing file keeps its
    content, and no request is sent either way. *)
Theorem create_workflow_writes_starter_once sys params cfg w :
  let run := entities.handleGenericEntityAction sys "workflows" "create" params cfg w in
  (exists_ w "workflow.yaml" = false →
     run = (Ret None,
            set_files (<["workflow.yaml" := workflows.yamlContent]> (files w))
              (log (EvWriteFile "workflow.yaml" workflows.yamlContent) w)))
  ∧ (exists_ w "workflow.yaml" = true →
     run = (Ret (Some (ErrorString "workflow.yaml already exists")), w))
  ∧ (∃ evs, trace (snd run) = trace w ++ evs
            ∧ requests evs = []
            ∧ (In (EvWriteFile "workflow.yaml" workflows.yamlContent) evs
               ↔ exists_ w "workflow.yaml" = false))
  ∧ (∀ data, files w !! "workflow.yaml" = Some data →
             files (snd run) !! "workflow.yaml" = Some data).
Proof.
  assert (exists_ w "workflow.yaml" = false →
     entities.handleGenericEntityAction sys "workflows" "create" params cfg w
     = (Ret None,
        set_files (<["workflow.yaml" := workflows.yamlContent]> (files w))
          (log (EvWriteFile "workflow.yaml" workflows.yamlContent) w))) as Hnew.
  { intros Hex. destruct (exists_false _ _ Hex) as [Hf Hd].
    unfold entities.handleGenericEntityAction, entities.handleGenericEntityAction_switch,
      workflows.GenerateStarterWorkflowYAML, bind, ret, Stat, WriteFile. simpl.
    rewrite Hex. simpl. rewrite Hd. reflexivity. }
  assert (exists_ w "workflow.yaml" = true →
     entities.handleGenericEntityAction sys "workflows" "create" params cfg w
     = (Ret (Some (ErrorString "workflow.yaml already exists")), w)) as Hold.
  { intros Hex.
    unfold entities.handleGenericEntityAction, entities.handleGenericEntityAction_switch,
      workflows.GenerateStarterWorkflowYAML, bind, ret, Stat. simpl.
    rewrite Hex. reflexivity. }
  intros run. subst run. split; [exact Hnew|]. split; [exact Hold|].
  destruct (exists_ w "workflow.yaml") eqn:Hex.
  - rewrite (Hold eq_refl). simpl. split.
    + exists []. rewrite app_nil_r. split; [done|]. split; [done|]. split; [intros []|done].
    + done.
  - rewrite (Hnew eq_refl). simpl. split.
    + eexists. split; [reflexivity|]. split; [done|]. split; [done|]. intros _. by left.
    + intros data Hdata. destruct (exists_false _ _ Hex) as [Hf _]. congruence.
Qed.

(** ** Answers of the server *)

Lemma n8nAPIRequest_returns sys method url body apiKey w :
  ∃ r evs, entities.n8nAPIRequest sys method url body apiKey w = (Ret r, logs evs w)
           ∧ (evs = [] ∨ evs = [EvHTTP (request_of method url body apiKey)]).
Proof.
  unfold entities.n8nAPIRequest, bind, ret. fold (request_of method url body apiKey).
  destruct (NewRequest_error sys method url).
  { eexists _, []. rewrite logs_nil. eauto. }
  destruct (client_Do sys _) as [resp|err]; [|eexists _, [_]; eauto].
  destruct (Body resp); [|eexists _, [_]; eauto].
  destruct (bool_decide _); eexists _, [_]; eauto.
Qed.

(** C3.  When the server answers with a status code below 200 or from
    300 on, [n8nAPIRequest] returns the error [API error: STATUS], a
    newline and the body, whose text contains the status line and the
    body.  Whatever action led to the request (create, update and delete
    among them), [handleGenericEntityAction] returns that error and
    prints nothing after the request, and the command exits with code 1
    after printing the error.  For delete, the success message is printed
    exactly when [n8nAPIRequest] returned no error. *)
Theorem non_2xx_is_failure sys method url body resp data cfg w :
  NewRequest_error sys method url = None →
  client_Do sys (request_of method url body (APIToken cfg)) = Ok resp →
  Body resp = Ok data →
  StatusCode resp < 200 ∨ StatusCode resp >= 300 →
  let err := ErrorString ("API error: " +:+ Status resp +:+ nl +:+ data) in
  let sent := log (EvHTTP (request_of method url body (APIToken cfg))) w in
  entities.n8nAPIRequest sys method url body (APIToken cfg) w = (Ret (Err err), sent)
  ∧ Strings.Contains (Error err) (Status resp) = true
  ∧ Strings.Contains (Error err) data = true
  ∧ (∀ entity action params w0,
       entities.handleGenericEntityAction_switch sys entity action params cfg w0
       = (Ret (entities.ToSend method url body), w) →
       entities.handleGenericEntityAction sys entity action params cfg w0
       = (Ret (Some err), sent)
       ∧ ∀ actions a,
           actions !! action = Some a →
           action ∉ ["--help"; "-h"] →
           "--schema" ∉ action :: params →
           (entities.NeedsID a = true → params ≠ []) →
           entities.HandleEntityCommand sys entity (action :: params) actions cfg w0
           = (Exit 1, log (EvStdout ("Error: " +:+ Error err +:+ nl)) sent))
  ∧ (∀ entity id params cfg' w1,
       let deleted := EvStdout (entity +:+ " delete successful" +:+ nl) in
       ∃ r w',
         entities.n8nAPIRequest sys "DELETE"
           (Strings.ToLower (BaseURL cfg') +:+ "/api/v1/" +:+ entity +:+ "/" +:+ id)
           "" (APIToken cfg') w1 = (Ret r, w')
         ∧ entities.handleGenericEntityAction sys entity "delete" (id :: params) cfg' w1
           = match r with
             | Ok _ => (Ret None, log deleted w')
             | Err err' => (Ret (Some err'), w')
             end).
Proof.
  intros Hnew Hdo Hbody Hcode err sent.
  assert (entities.n8nAPIRequest sys method url body (APIToken cfg) w
          = (Ret (Err err), sent)) as Hreq.
  { unfold entities.n8nAPIRequest, bind, ret.
    fold (request_of method url body (APIToken cfg)).
    rewrite Hnew, Hdo, Hbody. by rewrite bool_decide_eq_true_2. }
  split; [exact Hreq|]. split; [|split; [|split]].
  - apply (Contains_app "API error: " (Status resp) (nl +:+ data)).
  - simpl. rewrite <- (sapp_assoc (Status resp)), <- sapp_assoc.
    apply Contains_app_r.
  - intros entity action params w0 Hsw.
    assert (entities.handleGenericEntityAction sys entity action params cfg w0
            = (Ret (Some err), sent)) as Hgen.
    { unfold entities.handleGenericEntityAction, bind. rewrite Hsw, Hreq. reflexivity. }
    split; [exact Hgen|].
    intros actions a Ha Hhelp Hschema Hid.
    unfold entities.HandleEntityCommand.
    destruct (decide (action = "--help" ∨ action = "-h")) as [[->| ->]|_];
      [exfalso; apply Hhelp; set_solver..|].
    assert (existsb (λ arg, bool_decide (arg = "--schema")) (action :: params) = false) as ->.
    { apply not_true_is_false. intros (x & Hx & Hx')%existsb_exists.
      apply bool_decide_eq_true in Hx'. subst x. apply Hschema. by apply list_elem_of_In. }
    rewrite Ha.
    assert (entities.NeedsID a && bool_decide (length (action :: params) < 2)%nat = false) as ->.
    { destruct (entities.NeedsID a); [|done]. simpl.
      apply bool_decide_eq_false. destruct params; [by destruct Hid|simpl; lia]. }
    unfold bind. rewrite Hgen. reflexivity.
  - intros entity id params cfg' w1 deleted.
    destruct (n8nAPIRequest_returns sys "DELETE"
                (Strings.ToLower (BaseURL cfg') +:+ "/api/v1/" +:+ entity +:+ "/" +:+ id)
                "" (APIToken cfg') w1) as (r & evs & Hr & _).
    exists r, (logs evs w1). split; [exact Hr|].
    unfold entities.handleGenericEntityAction, entities.handleGenericEntityAction_switch.
    simpl. unfold bind at 1. simpl. unfold bind. rewrite !sapp_assoc, Hr.
    by destruct r.
Qed.

Lemma non_2xx_is_failure_witness :
  let sys := Sample.platform Sample.not_found in
  let url := "https://n8n.example/api/v1/users/7" in
  let w := Sample.empty_dir "" in
  NewRequest_error sys "DELETE" url = None
  ∧ client_Do sys (request_of "DELETE" url "" (APIToken Sample.cfg)) = Ok Sample.not_found
  ∧ Body Sample.not_found = Ok "no such user"
  ∧ (StatusCode Sample.not_found < 200 ∨ StatusCode Sample.not_found >= 300)
  ∧ entities.handleGenericEntityAction sys "users" "delete" ["7"] Sample.cfg w
    = (Ret (Some (ErrorString ("API error: " +:+ "404 Not Found" +:+ nl +:+ "no such user"))),
       log (EvHTTP (request_of "DELETE" url "" (APIToken Sample.cfg))) w).
Proof.
  intros sys url w.
  assert (StatusCode Sample.not_found < 200 ∨ StatusCode Sample.not_found >= 300) as Hcode
    by (right; simpl; lia).
  repeat (split; [first [reflexivity | exact Hcode]|]).
  exact (proj1 (proj1 (proj2 (proj2 (proj2
    (non_2xx_is_failure sys "DELETE" url "" Sample.not_found "no such user" Sample.cfg w
       eq_refl eq_refl eq_refl Hcode))))
    "users" "delete" ["7"] w eq_refl)).
Defined.

(** ** The preview flow *)

Lemma bind_prints {A B} P (m : M A) (k : A → M B) w :
  prints P m → ∃ a evs, bind m k w = k a (logs evs w) ∧ Forall P evs.
Proof.
  intros Hm. destruct (Hm w) as (a & evs & E & H). exists a, evs.
  unfold bind. by rewrite E.
Qed.

Lemma harmless_stdout text : harmless (EvStdout text).
Proof. done. Qed.

Lemma harmless_exec name args input : harmless (EvExec name args input).
Proof. done. Qed.

Lemma harmless_diff name old new : harmless (EvDiff name old new).
Proof. done. Qed.

#[local] Hint Resolve harmless_stdout harmless_exec harmless_diff : effects.

(** Step over the first computation of a [bind] that only prints. *)
Ltac over lemma :=
  match goal with
  | |- context [bind ?m ?k ?w] =>
      let a := fresh "a" in
      let evs := fresh "evs" in
      let E := fresh "E" in
      let H := fresh "Hevs" in
      destruct (bind_prints harmless m k w lemma) as (a & evs & E & H);
      rewrite E; clear E; rewrite ?logs_logs
  end.

Ltac ends_here :=
  eexists _, _, _; split; [reflexivity|]; simpl;
  repeat split; rewrite ?Forall_app; eauto 10 with effects.

(** When the answer at the prompt is neither [y] nor [yes], the preview
    flow returns unconfirmed, without a request and without a change of
    the file system. *)
Lemma Preview_declined sys w :
  answer_of (stdin w) ≠ "y" → answer_of (stdin w) ≠ "yes" →
  ∃ err w' evs,
    workflows.PreviewWorkflowJSONWithPrompt sys w = (Ret (false, err), w')
    ∧ files w' = files w ∧ dirs w' = dirs w
    ∧ trace w' = trace w ++ evs ∧ Forall harmless evs.
Proof.
  intros Hy Hyes. unfold workflows.PreviewWorkflowJSONWithPrompt.
  over (prints_ReadFile harmless "workflow.yaml").
  destruct a as [yamlStr|?]; [|ends_here].
  match goal with |- context [bind ?m _ _] =>
    assert (prints harmless m) as Hinj by (destruct (Strings.Contains _ _); effects) end.
  over Hinj. destruct a as [yamlStr'|?]; [|ends_here].
  over (prints_LoadDotEnv harmless ".env"). destruct a as [envMap err].
  destruct (if IsNotExist err then None else err); [ends_here|].
  match goal with |- context [bind (workflows.yq_stdin sys ?y) _ _] =>
    over (prints_yq_stdin harmless sys y (λ args, harmless_exec "yq" args y)) end.
  destruct a as [newJSON|?]; [|ends_here].
  over (prints_ReadFile harmless ".out/workflow.json").
  over (prints_Println harmless "Workflow JSON preview:" (harmless_stdout _)).
  over (prints_Println harmless newJSON (harmless_stdout _)).
  match goal with |- context [bind ?m _ _] =>
    assert (prints harmless m) as Hdiff end.
  { destruct a; [|effects].
    apply prints_bind; [effects|]. intros _.
    apply prints_RunDiff; intros; done. }
  over Hdiff. destruct a2 as [?|]; [ends_here|].
  match goal with |- context [bind (fmt_Print ?t) _ _] =>
    over (prints_Print harmless t (harmless_stdout _)) end.
  unfold bind at 1, stdin_ReadString. simpl.
  unfold answer_of in Hy, Hyes.
  destruct (Bufio.ReadString (stdin w) "010") as [[line rest] eof]. simpl in *.
  rewrite bool_decide_eq_false_2 by (intros [?|?]; done).
  eexists _, _, _. split; [reflexivity|]. simpl.
  split; [done|]. split; [done|]. split; [by rewrite <- app_assoc|].
  rewrite !Forall_app. repeat split; eauto with effects.
Qed.

(** C4.  In the deploy flow, when the answer at the prompt (trimmed and
    in lower case, as the flow compares it) is neither [y] nor [yes], the
    action returns, no request is sent, nothing is written (but the
    temporary files of the diff step, where it runs), and the files and
    directories, the cached [.out/workflow.json] among them, are as
    before. *)
Theorem deploy_declined_changes_nothing sys params cfg w :
  answer_of (stdin w) ≠ "y" → answer_of (stdin w) ≠ "yes" →
  ∃ err w' evs,
    entities.handleGenericEntityAction sys "workflows" "deploy" params cfg w
    = (Ret err, w')
    ∧ trace w' = trace w ++ evs
    ∧ requests evs = []
    ∧ Forall (λ e, is_write e = false) evs
    ∧ files w' = files w
    ∧ dirs w' = dirs w
    ∧ files w' !! ".out/workflow.json" = files w !! ".out/workflow.json".
Proof.
  intros Hy Hyes.
  destruct (Preview_declined sys w Hy Hyes) as (err & w1 & evs & E & Hf & Hd & Htr & Hevs).
  unfold entities.handleGenericEntityAction, entities.handleGenericEntityAction_switch.
  simpl. unfold bind at 1. unfold bind at 1. rewrite E.
  assert (∀ evs', Forall harmless evs' →
            requests evs' = [] ∧ Forall (λ e, is_write e = false) evs') as Hsplit.
  { intros evs' H. split.
    - apply Forall_no_request. eapply Forall_impl; [exact H|]. by intros e [? ?].
    - eapply Forall_impl; [exact H|]. by intros e [? ?]. }
  destruct err as [err|].
  - exists (Some err), w1, evs. split; [reflexivity|].
    destruct (Hsplit evs Hevs). rewrite Hf. by repeat split.
  - eexists None, _, (evs ++ [_]). split; [reflexivity|]. simpl.
    destruct (Hsplit (evs ++ [EvStdout ("Deploy aborted by user." +:+ nl)])) as [H1 H2].
    { apply Forall_app. split; [done|]. by constructor. }
    rewrite Htr, <- app_assoc, Hf. by repeat split.
Qed.

Lemma deploy_declined_changes_nothing_witness :
  let w := Sample.project ("n" +:+ nl) in
  answer_of (stdin w) ≠ "y"
  ∧ answer_of (stdin w) ≠ "yes"
  ∧ ∃ err w' evs,
      entities.handleGenericEntityAction (Sample.platform Sample.ok_200)
        "workflows" "deploy" [] Sample.cfg w = (Ret err, w')
      ∧ trace w' = trace w ++ evs
      ∧ requests evs = []
      ∧ Forall (λ e, is_write e = false) evs
      ∧ files w' = files w
      ∧ dirs w' = dirs w
      ∧ files w' !! ".out/workflow.json" = files w !! ".out/workflow.json".
Proof.
  intros w.
  assert (answer_of (stdin w) ≠ "y") as Hy by (vm_compute; discriminate).
  assert (answer_of (stdin w) ≠ "yes") as Hyes by (vm_compute; discriminate).
  split; [exact Hy|]. split; [exact Hyes|].
  exact (deploy_declined_changes_nothing (Sample.platform Sample.ok_200) []
           Sample.cfg w Hy Hyes).
Defined.

Ltac over_with P lemma :=
  match goal with
  | |- context [bind ?m ?k ?w] =>
      let a := fresh "a" in
      let evs := fresh "evs" in
      let E := fresh "E" in
      let H := fresh "Hevs" in
      destruct (bind_prints P m k w lemma) as (a & evs & E & H);
      rewrite E; clear E; rewrite ?logs_logs
  end.

Lemma bind_Print {A} text (k : unit → M A) w :
  bind (fmt_Print text) k w = k tt (log (EvStdout text) w).
Proof. reflexivity. Qed.

Lemma bind_Println {A} text (k : unit → M A) w :
  bind (fmt_Println text) k w = k tt (log (EvStdout (text +:+ nl)) w).
Proof. reflexivity. Qed.

Lemma bind_ret {A B} (a : A) (k : A → M B) w : bind (ret a) k w = k a w.
Proof. reflexivity. Qed.

Lemma bind_bind {A B C} (m : M A) (k : A → M B) (k' : B → M C) w :
  bind (bind m k) k' w = bind m (λ a, bind (k a) k') w.
Proof. unfold bind. by destruct (m w) as [[a|code|text] w1]. Qed.

Lemma bind_stdin_ReadString {A} (k : string * bool → M A) w :
  bind stdin_ReadString k w
  = k (fst (fst (Bufio.ReadString (stdin w) "010")),
       snd (Bufio.ReadString (stdin w) "010"))
      (set_stdin (snd (fst (Bufio.ReadString (stdin w) "010"))) w).
Proof.
  unfold bind, stdin_ReadString.
  by destruct (Bufio.ReadString (stdin w) "010") as [[line rest] eof].
Qed.

Lemma ReadFile_missing path w :
  files w !! path = None → ∃ err, ReadFile path w = (Ret (Err err), w).
Proof.
  intros H. unfold ReadFile. rewrite H. destruct (is_dir w path); by eexists.
Qed.

Lemma returns_save_tail newJSON :
  returns not_diff
    (st <- Stat ".out" ;;
     mk <- (if IsNotExist st then Mkdir ".out" else ret None) ;;
     match mk with
     | Some err =>
         ret (false, Some (WrapError "failed to create .out directory: " err))
     | None =>
         wr <- WriteFile ".out/workflow.json" newJSON ;;
         match wr with
         | Some err =>
             ret (false, Some (WrapError "failed to write .out/workflow.json: " err))
         | None =>
             fmt_Println (nl +:+ "Saved to .out/workflow.json") ;;
             ret (true, None)
         end
     end)%go.
Proof.
  apply returns_bind; [returns|]. intros st.
  apply returns_bind; [destruct (IsNotExist st); returns|].
  intros [err|]; returns.
Qed.

(** The preview flow returns the error of its source without a trace of
    it. *)
Lemma Preview_source_fails sys w err :
  preview_source w = Err err →
  workflows.PreviewWorkflowJSONWithPrompt sys w = (Ret (false, Some err), w).
Proof.
  unfold preview_source, workflows.PreviewWorkflowJSONWithPrompt. intros Hsrc.
  destruct (ReadFile_returns "workflow.yaml" w) as [r E].
  rewrite E in Hsrc. rewrite (bind_Ret _ _ _ _ _ E). clear E.
  destruct r as [yamlStr|?]; [|by injection Hsrc as <-].
  assert (∃ r, (if Strings.Contains yamlStr "jsCode: file(index.js)"
                then workflows.injectJSCode "workflow.yaml"
                else ret (Ok yamlStr)) w = (Ret r, w)) as [r Hr].
  { destruct (Strings.Contains _ _); [|by eexists].
    apply unchanged, prints_injectJSCode. }
  assert ((if Strings.Contains yamlStr "jsCode: file(index.js)"
           then workflows.injectJSCode "workflow.yaml" w
           else (Ret (Ok yamlStr), w)) = (Ret r, w)) as Hr'.
  { rewrite <- Hr. by destruct (Strings.Contains _ _). }
  rewrite Hr' in Hsrc. rewrite (bind_Ret _ _ _ _ _ Hr). clear Hr Hr'.
  destruct r as [yamlStr'|?]; [|by injection Hsrc as <-].
  destruct (unchanged _ (prints_LoadDotEnv _ ".env") w) as [[envMap err'] E].
  rewrite E in Hsrc. rewrite (bind_Ret _ _ _ _ _ E). clear E.
  destruct (if IsNotExist err' then None else err'); [|done].
  by injection Hsrc as <-.
Qed.

(** With a source, the flow comes to [yq] with nothing changed. *)
Lemma Preview_to_yq sys w src :
  preview_source w = Ok src →
  workflows.PreviewWorkflowJSONWithPrompt sys w
  = match yq_Output sys src with
    | Err err =>
        (Ret (false, Some (WrapError "yq failed: " err)),
         log (EvExec "yq" ["."; "-"] src) w)
    | Ok json =>
        (diffed <-
           match files w !! ".out/workflow.json" with
           | Some oldJSONBytes =>
               fmt_Println (nl +:+ "Showing diff between existing and new workflow JSON:") ;;
               utils.RunDiff sys oldJSONBytes json
           | None =>
               fmt_Println (nl +:+ "No existing .out/workflow.json found, skipping diff.") ;;
               ret None
           end ;;
         match diffed with
         | Some err => ret (false, Some err)
         | None =>
             fmt_Print (nl +:+ "Write this JSON to .out/workflow.json? (y/N): ") ;;
             '(answer, _) <- stdin_ReadString ;;
             let answer := Strings.TrimSpace (Strings.ToLower answer) in
             if bool_decide (answer = "y" ∨ answer = "yes") then
               st <- Stat ".out" ;;
               mk <- (if IsNotExist st then Mkdir ".out" else ret None) ;;
               match mk with
               | Some err =>
                   ret (false, Some (WrapError "failed to create .out directory: " err))
               | None =>
                   wr <- WriteFile ".out/workflow.json" json ;;
                   match wr with
                   | Some err =>
                       ret (false, Some (WrapError "failed to write .out/workflow.json: " err))
                   | None =>
                       fmt_Println (nl +:+ "Saved to .out/workflow.json") ;;
                       ret (true, None)
                   end
               end
             else
               fmt_Println "Aborted, no changes written." ;;
               ret (false, None)
         end)%go (logs (previewed src json) w)
    end.
Proof.
  unfold preview_source, workflows.PreviewWorkflowJSONWithPrompt. intros Hsrc.
  destruct (ReadFile_returns "workflow.yaml" w) as [r E].
  rewrite E in Hsrc. rewrite (bind_Ret _ _ _ _ _ E). clear E.
  destruct r as [yamlStr|?]; [|done].
  assert (∃ r, (if Strings.Contains yamlStr "jsCode: file(index.js)"
                then workflows.injectJSCode "workflow.yaml"
                else ret (Ok yamlStr)) w = (Ret r, w)) as [r Hr].
  { destruct (Strings.Contains _ _); [|by eexists].
    apply unchanged, prints_injectJSCode. }
  assert ((if Strings.Contains yamlStr "jsCode: file(index.js)"
           then workflows.injectJSCode "workflow.yaml" w
           else (Ret (Ok yamlStr), w)) = (Ret r, w)) as Hr'.
  { rewrite <- Hr. by destruct (Strings.Contains _ _). }
  rewrite Hr' in Hsrc. rewrite (bind_Ret _ _ _ _ _ Hr). clear Hr Hr'.
  destruct r as [yamlStr'|?]; [|done].
  destruct (unchanged _ (prints_LoadDotEnv _ ".env") w) as [[envMap err] E].
  rewrite E in Hsrc. rewrite (bind_Ret _ _ _ _ _ E). clear E.
  destruct (if IsNotExist err then None else err); [done|].
  injection Hsrc as Hsrc. rewrite Hsrc.
  unfold bind at 1, workflows.yq_stdin at 1.
  destruct (yq_Output sys src) as [json|yqerr]; [|reflexivity].
  unfold bind at 1, ReadFile at 1. cbn [files log].
  destruct (files w !! ".out/workflow.json") as [old|].
  - rewrite !bind_Println. unfold previewed. by rewrite !log_logs, !logs_logs.
  - destruct (is_dir _ _); rewrite !bind_Println; unfold previewed;
      by rewrite !log_logs, !logs_logs.
Qed.

(** A source file without the marker of a script, where no [.env] stands,
    is the source of the preview as it is. *)
Lemma preview_source_plain w yaml :
  files w !! "workflow.yaml" = Some yaml →
  Strings.Contains yaml "jsCode: file(index.js)" = false →
  exists_ w ".env" = false →
  preview_source w = Ok yaml.
Proof.
  intros Hyaml Hmark Henv. unfold preview_source, ReadFile. rewrite Hyaml, Hmark.
  unfold utils.LoadDotEnv, bind, Open. rewrite Henv.
  unfold missing_errno, parent_errno.
  assert (Filepath.Dir ".env" = ".") as -> by (vm_compute; reflexivity).
  assert (is_dir w "." = true) as -> by (apply bool_decide_eq_true; by left).
  reflexivity.
Qed.

(** C8.  When no cached [.out/workflow.json] exists, the preview flow
    never runs the diff program.  And it goes on to the prompt whenever
    it comes to the diff step, that is, whenever the YAML source is made
    (with its script and the environment file) and [yq] converts it:
    after the preview of the JSON it prints that the diff is skipped,
    prints the prompt, and reads the answer from the standard input.
    Where the source or [yq] fails, the flow returns that very error,
    with nothing printed; a source file without the marker of a script,
    where no [.env] stands, is a source that is made. *)
Theorem preview_without_cache_skips_diff sys w :
  files w !! ".out/workflow.json" = None →
  (∃ r w' evs,
     workflows.PreviewWorkflowJSONWithPrompt sys w = (Ret r, w')
     ∧ trace w' = trace w ++ evs
     ∧ Forall not_diff evs)
  ∧ (∀ src json,
       preview_source w = Ok src →
       yq_Output sys src = Ok json →
       ∃ r w' evs,
         workflows.PreviewWorkflowJSONWithPrompt sys w = (Ret r, w')
         ∧ trace w'
           = trace w ++ previewed src json
             ++ [EvStdout skip_message; EvStdout prompt_message] ++ evs
         ∧ Forall not_diff evs
         ∧ stdin w' = snd (fst (Bufio.ReadString (stdin w) "010")))
  ∧ (∀ err,
       preview_source w = Err err →
       workflows.PreviewWorkflowJSONWithPrompt sys w = (Ret (false, Some err), w))
  ∧ (∀ src err,
       preview_source w = Ok src →
       yq_Output sys src = Err err →
       workflows.PreviewWorkflowJSONWithPrompt sys w
       = (Ret (false, Some (WrapError "yq failed: " err)),
          log (EvExec "yq" ["."; "-"] src) w))
  ∧ (∀ yaml,
       files w !! "workflow.yaml" = Some yaml →
       Strings.Contains yaml "jsCode: file(index.js)" = false →
       exists_ w ".env" = false →
       preview_source w = Ok yaml).
Proof.
  intros Hcache.
  assert (∀ src json,
       preview_source w = Ok src →
       yq_Output sys src = Ok json →
       ∃ r w' evs,
         workflows.PreviewWorkflowJSONWithPrompt sys w = (Ret r, w')
         ∧ trace w'
           = trace w ++ previewed src json
             ++ [EvStdout skip_message; EvStdout prompt_message] ++ evs
         ∧ Forall not_diff evs
         ∧ stdin w' = snd (fst (Bufio.ReadString (stdin w) "010"))) as Hprompt.
  { intros src json Hsrc Hyq. rewrite (Preview_to_yq sys w src Hsrc), Hyq.
    cbn [files logs]. rewrite Hcache.
    rewrite bind_bind, bind_Println, bind_ret, bind_Print, bind_stdin_ReadString.
    cbn [fst snd].
    match goal with |- context [bool_decide ?P] => destruct (bool_decide P) end.
    - match goal with |- context [bind (Stat ".out") ?k ?w2] =>
        destruct (returns_save_tail json w2) as (r & w3 & evs & E & Ein & Etr & Hevs)
      end.
      exists r, w3, evs. split; [exact E|]. split.
      { rewrite Etr. cbn. by rewrite <- !app_assoc. }
      split; [exact Hevs|]. exact Ein.
    - rewrite bind_Println. unfold ret.
      eexists _, _, [_]. split; [reflexivity|]. cbn. split; [by rewrite <- !app_assoc|].
      split; [by repeat constructor|]. reflexivity. }
  split; [|split; [exact Hprompt|split; [|split]]].
  - destruct (preview_source w) as [src|err] eqn:Hsrc.
    + destruct (yq_Output sys src) as [json|err] eqn:Hyq.
      * destruct (Hprompt src json eq_refl Hyq) as (r & w' & evs & E & Etr & Hevs & _).
        exists r, w', (previewed src json
                       ++ [EvStdout skip_message; EvStdout prompt_message] ++ evs).
        split; [exact E|]. split; [exact Etr|].
        rewrite !Forall_app. split; [by repeat constructor|].
        split; [by repeat constructor|exact Hevs].
      * rewrite (Preview_to_yq sys w src Hsrc), Hyq.
        eexists _, _, [_]. split; [reflexivity|]. split; [reflexivity|].
        by repeat constructor.
    + rewrite (Preview_source_fails sys w err Hsrc).
      exists (false, Some err), w, []. split; [reflexivity|].
      split; [by rewrite app_nil_r|constructor].
  - intros err. apply Preview_source_fails.
  - intros src err Hsrc Hyq. by rewrite (Preview_to_yq sys w src Hsrc), Hyq.
  - intros yaml. apply preview_source_plain.
Qed.

Lemma preview_without_cache_skips_diff_witness :
  let sys := Sample.platform Sample.ok_200 in
  let w := Sample.project ("y" +:+ nl) in
  let src := "  jsCode: |" +:+ nl +:+ "    a();" +:+ nl +:+ "    b();"
             +:+ nl +:+ "url: example.org/hook" in
  files w !! ".out/workflow.json" = None
  ∧ preview_source w = Ok src
  ∧ yq_Output sys src = Ok ("json of " +:+ src)
  ∧ ∃ r w' evs,
      workflows.PreviewWorkflowJSONWithPrompt sys w = (Ret r, w')
      ∧ trace w'
        = trace w ++ previewed src ("json of " +:+ src)
          ++ [EvStdout skip_message; EvStdout prompt_message] ++ evs
      ∧ Forall not_diff evs
      ∧ stdin w' = snd (fst (Bufio.ReadString (stdin w) "010")).
Proof.
  intros sys w src.
  assert (files w !! ".out/workflow.json" = None) as Hcache by (vm_compute; reflexivity).
  assert (preview_source w = Ok src) as Hsrc by (vm_compute; reflexivity).
  assert (yq_Output sys src = Ok ("json of " +:+ src)) as Hyq by reflexivity.
  split; [exact Hcache|]. split; [exact Hsrc|]. split; [exact Hyq|].
  exact (proj1 (proj2 (preview_without_cache_skips_diff sys w Hcache)) src _ Hsrc Hyq).
Defined.

(** On the sample project the flow does reach the prompt, and saves. *)
Example preview_sample_reaches_prompt :
  let run := workflows.PreviewWorkflowJSONWithPrompt (Sample.platform Sample.ok_200)
               (Sample.project ("y" +:+ nl)) in
  fst run = Ret (true, None)
  ∧ In (EvStdout prompt_message) (trace (snd run))
  ∧ Forall not_diff (trace (snd run)).
Proof.
  vm_compute. split; [reflexivity|]. split; [tauto|]. repeat constructor.
Qed.

(** ** Reversal and trimming *)

Lemma rev_app_spec (s t : string) : String.rev_app s t = String.rev s +:+ t.
Proof.
  revert t. induction s as [|c s IH]; intros t; [reflexivity|].
  unfold String.rev. simpl. rewrite !IH, sapp_assoc. reflexivity.
Qed.

Lemma rev_cons (c : ascii) (s : string) :
  String.rev (String c s) = String.rev s +:+ String c "".
Proof. unfold String.rev at 1. simpl. apply rev_app_spec. Qed.

Lemma rev_sapp (s t : string) : String.rev (s +:+ t) = String.rev t +:+ String.rev s.
Proof.
  induction s as [|c s IH].
  - by rewrite sapp_nil_l, sapp_nil_r.
  - by rewrite sapp_cons, !rev_cons, IH, sapp_assoc.
Qed.

Lemma rev_involutive (s : string) : String.rev (String.rev s) = s.
Proof.
  induction s as [|c s IH]; [reflexivity|].
  by rewrite rev_cons, rev_sapp, IH.
Qed.

Lemma slashes_snoc n : slashes n +:+ "/" = String "/"%char (slashes n).
Proof. induction n as [|n IH]; [reflexivity|]. simpl. by rewrite sapp_cons, IH. Qed.

Lemma rev_slashes n : String.rev (slashes n) = slashes n.
Proof.
  induction n as [|n IH]; [reflexivity|].
  simpl. by rewrite rev_cons, IH, slashes_snoc.
Qed.

Lemma TrimLeft_slash (s : string) :
  Strings.HasPrefix (Strings.TrimLeft s "/") "/" = false
  ∧ ∃ n, s = slashes n +:+ Strings.TrimLeft s "/".
Proof.
  induction s as [|c s [IH1 [n IH2]]].
  - split; [reflexivity|]. by exists 0%nat.
  - simpl. destruct (Ascii.eqb c "/") eqn:Ec; simpl.
    + apply Ascii.eqb_eq in Ec as ->. split; [exact IH1|].
      exists (S n). simpl. rewrite sapp_cons. by f_equal.
    + split; [by rewrite Ec|]. by exists 0%nat.
Qed.

(** [strings.TrimRight(s, "/")] is [s] without the slashes at its end. *)
Lemma TrimRight_slash (s : string) :
  Strings.HasSuffix (Strings.TrimRight s "/") "/" = false
  ∧ ∃ n, s = Strings.TrimRight s "/" +:+ slashes n.
Proof.
  unfold Strings.TrimRight, Strings.HasSuffix.
  destruct (TrimLeft_slash (String.rev s)) as [H1 [n H2]].
  rewrite rev_involutive. split; [exact H1|].
  exists n. rewrite <- (rev_involutive s) at 1.
  rewrite H2 at 1. by rewrite rev_sapp, rev_slashes.
Qed.

(** ** Login *)

Lemma keeps_prints {A} P (m : M A) : prints P m → keeps P m.
Proof.
  intros Hm w. destruct (Hm w) as (a & evs & -> & H). by exists evs.
Qed.

Lemma keeps_bind {A B} P (m : M A) (k : A → M B) :
  keeps P m → (∀ a, keeps P (k a)) → keeps P (bind m k).
Proof.
  intros Hm Hk w. destruct (Hm w) as (evs1 & F1 & D1 & O1 & E1 & H1). unfold bind.
  destruct (m w) as [[a|code|text] w1]; simpl in *.
  - destruct (Hk a w1) as (evs2 & F2 & D2 & O2 & E2 & H2). exists (evs1 ++ evs2).
    rewrite F2, D2, O2, E2, E1, app_assoc. repeat split; try done. by apply Forall_app.
  - by exists evs1.
  - by exists evs1.
Qed.

Lemma keeps_Exit {A} P code : keeps P (@os_Exit A code).
Proof. intros w. exists []. simpl. by rewrite app_nil_r. Qed.

Lemma keeps_stdin_ReadString P : keeps P stdin_ReadString.
Proof.
  intros w. exists []. unfold stdin_ReadString.
  destruct (Bufio.ReadString (stdin w) "010") as [[line rest] eof]. simpl.
  by rewrite app_nil_r.
Qed.

Ltac keeps_step :=
  match goal with
  | |- keeps _ (bind _ _) => apply keeps_bind; [|intros ?]
  | |- keeps _ (os_Exit _) => apply keeps_Exit
  | |- keeps _ stdin_ReadString => apply keeps_stdin_ReadString
  | |- keeps _ (match ?x with _ => _ end) => destruct x
  | |- keeps _ _ => apply keeps_prints; solve [effects]
  end.

Ltac keeps := repeat keeps_step.


Lemma returns_SaveConfig_saves sys cfg :
  returns (saves sys cfg) (config.SaveConfig sys cfg).
Proof.
  unfold config.SaveConfig.
  apply returns_bind; [by apply returns_configPath|]. intros ?. returns.
Qed.



(** ** The request of an action *)

(** Where the [switch] of [handleGenericEntityAction] leaves with a
    request to send, the action, the method and the URL are one of these
    seven. *)
Lemma switch_ToSend sys entity action params cfg w method url body w1 :
  entities.handleGenericEntityAction_switch sys entity action params cfg w
  = (Ret (entities.ToSend method url body), w1) →
  let basePath := Strings.ToLower (BaseURL cfg) +:+ "/api/v1/" +:+ entity in
  (action = "list" ∧ method = "GET" ∧ url = basePath)
  ∨ (action = "get" ∧ method = "GET"
     ∧ ∃ id rest, params = id :: rest ∧ url = basePath +:+ "/" +:+ id)
  ∨ (action = "create" ∧ entity ≠ "workflows" ∧ method = "POST" ∧ url = basePath)
  ∨ (action = "update" ∧ method = "PATCH"
     ∧ ∃ id rest, params = id :: rest ∧ url = basePath +:+ "/" +:+ id)
  ∨ (action = "delete" ∧ method = "DELETE"
     ∧ ∃ id rest, params = id :: rest ∧ url = basePath +:+ "/" +:+ id)
  ∨ (action = "deploy" ∧ entity = "workflows" ∧ method = "POST" ∧ url = basePath)
  ∨ ((action = "activate" ∨ action = "deactivate") ∧ method = "POST"
     ∧ ∃ id rest, params = id :: rest
                  ∧ url = basePath +:+ "/" +:+ id +:+ "/" +:+ action).
Proof.
  intros Hsw basePath. unfold entities.handleGenericEntityAction_switch in Hsw.
  fold basePath in Hsw.
  destruct (decide (action = "list")) as [->|_].
  { injection Hsw as <- <- _ _. by left. }
  destruct (decide (action = "get")) as [->|_].
  { destruct params as [|id rest]; [done|]. injection Hsw as <- <- _ _.
    right; left. eauto 10. }
  destruct (decide (action = "create")) as [->|_].
  { destruct (decide (entity = "workflows")) as [->|Hne].
    - unfold bind in Hsw. by destruct (workflows.GenerateStarterWorkflowYAML _) as [[?|?|?] ?].
    - unfold bind at 1 in Hsw.
      match type of Hsw with context [match ?m w with _ => _ end] =>
        destruct (m w) as [[b|?|?] w2]; [|done..] end.
      injection Hsw as <- <- _ _. right; right; left. eauto. }
  destruct (decide (action = "update")) as [->|_].
  { destruct params as [|id rest]; [done|].
    unfold bind at 1 in Hsw.
    match type of Hsw with context [match ?m w with _ => _ end] =>
      destruct (m w) as [[b|?|?] w2]; [|done..] end.
    injection Hsw as <- <- _ _. right; right; right; left. eauto 10. }
  destruct (decide (action = "delete")) as [->|_].
  { destruct params as [|id rest]; [done|]. injection Hsw as <- <- _ _.
    right; right; right; right; left. eauto 10. }
  destruct (decide (action = "preview")) as [->|_].
  { destruct (decide (entity = "workflows")); [|done].
    unfold bind at 1 in Hsw.
    destruct (workflows.PreviewWorkflowJSONWithPrompt sys w) as [[[c [perr|]]|?|?] w2];
      [done| |done..].
    by destruct c. }
  destruct (decide (action = "diff")) as [->|_].
  { destruct (decide (entity = "workflows")); [|done].
    unfold bind in Hsw. by destruct (workflows.DiffWorkflowJSON sys w) as [[?|?|?] ?]. }
  destruct (decide (action = "deploy")) as [->|_].
  { destruct (decide (entity = "workflows")) as [->|]; [|done].
    unfold bind at 1 in Hsw.
    destruct (workflows.PreviewWorkflowJSONWithPrompt sys w) as [[[c [perr|]]|?|?] w2];
      [done| |done..].
    destruct c; [|done]. unfold bind in Hsw.
    destruct (ReadFile _ w2) as [[[?|?]|?|?] ?]; [|done..].
    injection Hsw as <- <- _ _. do 5 right; left. eauto. }
  destruct (decide (action = "activate" ∨ action = "deactivate")) as [Hact|_]; [|done].
  destruct params as [|id rest]; [done|]. injection Hsw as <- <- _ _.
  do 6 right. eauto 10.
Qed.

Lemma adds_switch sys entity action params cfg :
  adds no_request
    (entities.handleGenericEntityAction_switch sys entity action params cfg).
Proof.
  unfold entities.handleGenericEntityAction_switch.
  destruct (decide (action = "list")); [effects|].
  destruct (decide (action = "get")); [effects|].
  destruct (decide (action = "create")).
  { destruct (decide (entity = "workflows")).
    - apply adds_bind; [|intros ?; effects].
      unfold workflows.GenerateStarterWorkflowYAML.
      apply adds_bind; [effects|]. intros [?|]; effects.
    - apply adds_bind; [|intros ?; effects].
      destruct params as [|? [|? ?]]; try destruct (decide _); try solve [effects].
      all: apply adds_bind; [effects|intros ?; apply adds_ReadStdin]. }
  destruct (decide (action = "update")).
  { destruct params as [|id rest]; [effects|].
    apply adds_bind; [|intros ?; effects].
    destruct rest as [|? [|? ?]]; try destruct (decide _); try solve [effects].
    all: apply adds_bind; [effects|intros ?; apply adds_ReadStdin]. }
  destruct (decide (action = "delete")); [effects|].
  destruct (decide (action = "preview")).
  { destruct (decide (entity = "workflows")); [|effects].
    apply adds_bind; [apply adds_Preview|]. intros [c [?|]]; [effects|].
    destruct c; effects. }
  destruct (decide (action = "diff")).
  { destruct (decide (entity = "workflows")); [|effects].
    apply adds_bind; [|intros ?; effects].
    unfold workflows.DiffWorkflowJSON.
    apply adds_bind; [effects|]. intros st. destruct (IsNotExist st); [effects|].
    apply adds_bind; [effects|]. intros st'. destruct (IsNotExist st'); [effects|].
    apply adds_bind; [apply adds_prints, prints_yq_file; done|].
    intros [?|?]; [|effects].
    apply adds_bind; [effects|]. intros [?|?]; [|effects].
    apply adds_prints, prints_RunDiff; done. }
  destruct (decide (action = "deploy")).
  { destruct (decide (entity = "workflows")); [|effects].
    apply adds_bind; [apply adds_Preview|]. intros [c [?|]]; [effects|].
    destruct c; [|effects].
    apply adds_bind; [effects|]. intros [?|?]; effects. }
  destruct (decide (action = "activate" ∨ action = "deactivate")); effects.
Qed.

(** The requests that [handleGenericEntityAction] sends: none, or the
    one its [switch] asked for, with the token of the config. *)
Lemma handleGeneric_requests sys entity action params cfg w :
  ∃ evs,
    trace (snd (entities.handleGenericEntityAction sys entity action params cfg w))
    = trace w ++ evs
    ∧ (requests evs = []
       ∨ ∃ method url body w1,
           entities.handleGenericEntityAction_switch sys entity action params cfg w
           = (Ret (entities.ToSend method url body), w1)
           ∧ requests evs = [request_of method url body (APIToken cfg)]).
Proof.
  destruct (adds_switch sys entity action params cfg w) as (evs1 & E1 & H1).
  apply Forall_no_request in H1.
  unfold entities.handleGenericEntityAction, bind at 1.
  destruct (entities.handleGenericEntityAction_switch sys entity action params cfg w)
    as [[[err|method url body]|code|text] w1]; simpl in E1.
  1, 3, 4: exists evs1; split; [done|by left].
  destruct (n8nAPIRequest_returns sys method url body (APIToken cfg) w1)
    as (r & evs2 & E2 & H2).
  unfold bind. rewrite E2.
  assert (∀ evs3, requests evs3 = [] →
            requests ((evs1 ++ evs2) ++ evs3) = requests evs2) as Hreq.
  { intros evs3 H3. unfold requests in *. by rewrite !omap_app, H1, H3, app_nil_r. }
  assert (∀ evs3, requests evs3 = [] →
    requests ((evs1 ++ evs2) ++ evs3) = []
    ∨ ∃ method' url' body' w1',
        (Ret (entities.ToSend method url body), w1)
        = (Ret (entities.ToSend method' url' body'), w1')
        ∧ requests ((evs1 ++ evs2) ++ evs3)
          = [request_of method' url' body' (APIToken cfg)]) as Hcase.
  { intros evs3 H3. rewrite (Hreq evs3 H3).
    destruct H2 as [-> | ->]; [by left|right]. by eexists _, _, _, _. }
  destruct r as [data|err].
  - destruct (decide (action = "delete")).
    + eexists ((evs1 ++ evs2) ++ [_]).
      split; [simpl; by rewrite E1, <- !app_assoc|by apply Hcase].
    + destruct (prints_PrintJSONResponse no_request sys data (λ _, eq_refl) (logs evs2 w1))
        as (u & evs3 & E3 & H3).
      unfold bind. rewrite E3. exists ((evs1 ++ evs2) ++ evs3).
      split; [|by apply Hcase, Forall_no_request].
      simpl. by rewrite E1, <- !app_assoc.
  - exists ((evs1 ++ evs2) ++ []). split; [|by apply Hcase].
    simpl. by rewrite E1, <- !app_assoc, app_nil_r.
Qed.

(** ** Upper case in the base URL *)

Lemma lower_byte_upper (c : ascii) : is_upper c = true → Strings.lower_byte c ≠ c.
Proof. destruct c as [[] [] [] [] [] [] [] []]; vm_compute; congruence. Qed.

(** On a string of ASCII characters [strings.ToLower] keeps the
    length. *)
Lemma ToLower_length (s : string) :
  is_ascii s = true → String.length (Strings.ToLower s) = String.length s.
Proof.
  induction s as [|c s IH]; [done|]. cbn [is_ascii].
  intros [_ Hs]%andb_true_iff.
  change (Strings.ToLower (String c s))
    with (String (Strings.lower_byte c) (Strings.ToLower s)).
  cbn [String.length]. by rewrite IH.
Qed.

(** A string of ASCII characters with one of the letters [A] to [Z] is
    not its own lower case. *)
Lemma ToLower_upper (s : string) :
  is_ascii s = true → has_upper s = true → Strings.ToLower s ≠ s.
Proof.
  induction s as [|c s IH]; [done|]. cbn [is_ascii has_upper].
  change (Strings.ToLower (String c s))
    with (String (Strings.lower_byte c) (Strings.ToLower s)).
  intros [_ Ha]%andb_true_iff [Hc|Hs]%orb_true_iff [= H1 H2].
  - by apply (lower_byte_upper c).
  - by apply IH.
Qed.

Lemma HasPrefix_same_length (x y rest : string) :
  Strings.HasPrefix (x +:+ rest) y = true →
  String.length x = String.length y → x = y.
Proof.
  revert y. induction x as [|c x IH]; intros [|d y]; try done.
  rewrite sapp_cons. simpl. destruct (Ascii.eqb c d) eqn:Ec; [|done].
  apply Ascii.eqb_eq in Ec as ->. intros H [= Hlen]. f_equal. by apply IH.
Qed.

Lemma has_upper_sapp (s t : string) :
  has_upper (s +:+ t) = has_upper s || has_upper t.
Proof.
  induction s as [|c s IH]; [done|].
  rewrite sapp_cons. simpl. by rewrite IH, orb_assoc.
Qed.

Lemma has_upper_slashes n : has_upper (slashes n) = false.
Proof. induction n as [|n IH]; [done|]. simpl. exact IH. Qed.

(** Where the switch leaves a request to send and [http.NewRequest]
    takes its URL, the dispatch sends that request, and no other. *)
Lemma handleGeneric_sends sys entity action params cfg w method url body w1 :
  entities.handleGenericEntityAction_switch sys entity action params cfg w
  = (Ret (entities.ToSend method url body), w1) →
  NewRequest_error sys method url = None →
  ∀ evs,
    trace (snd (entities.handleGenericEntityAction sys entity action params cfg w))
    = trace w ++ evs →
    requests evs = [request_of method url body (APIToken cfg)].
Proof.
  intros Hsw Hnew evs Etr.
  destruct (handleGeneric_requests sys entity action params cfg w)
    as (evs' & Etr' & Hreq).
  rewrite Etr in Etr'. apply app_inv_head in Etr' as ->.
  destruct Hreq as [Hnone|(m & u & b & w1' & Hsw' & Hone)].
  2: { rewrite Hsw in Hsw'. by injection Hsw' as <- <- <- _. }
  exfalso. revert Etr Hnone.
  unfold entities.handleGenericEntityAction, bind at 1. rewrite Hsw.
  destruct (adds_switch sys entity action params cfg w) as (evs1 & E1 & _).
  rewrite Hsw in E1. cbn [snd] in E1.
  assert (∃ r, entities.n8nAPIRequest sys method url body (APIToken cfg) w1
               = (Ret r, log (EvHTTP (request_of method url body (APIToken cfg))) w1))
    as [r Hr].
  { unfold entities.n8nAPIRequest, bind, ret.
    fold (request_of method url body (APIToken cfg)). rewrite Hnew.
    destruct (client_Do sys _) as [resp|err]; [|by eexists].
    destruct (Body resp); [|by eexists].
    destruct (bool_decide _); by eexists. }
  unfold bind at 1. rewrite Hr.
  set (req := request_of method url body (APIToken cfg)).
  assert (∀ evs3 w2, trace w2 = (trace w1 ++ [EvHTTP req]) ++ evs3 →
          trace w2 = trace w ++ evs' → requests evs' = [] → False) as Hno.
  { intros evs3 w2 E2 E3 Hnone. rewrite E3, E1, <- !app_assoc in E2.
    apply app_inv_head in E2. rewrite E2 in Hnone. unfold requests in Hnone.
    rewrite !omap_app in Hnone. cbn in Hnone. by destruct (omap _ evs1). }
  destruct r as [data|err].
  - destruct (decide (action = "delete")).
    + rewrite bind_Print. unfold ret. cbn [snd]. eapply Hno. reflexivity.
    + destruct (prints_PrintJSONResponse no_request sys data (λ _, eq_refl)
                  (log (EvHTTP req) w1)) as (u & evs3 & E3 & _).
      unfold bind. rewrite E3. cbn [snd]. eapply Hno. reflexivity.
  - unfold ret. cbn [snd]. apply (Hno []). cbn. by rewrite app_nil_r.
Qed.

(** C9, as amended.  Every request that an action sends goes to the
    lower-cased base URL of the config, followed by [/api/v1/], the
    entity, and nothing, or the ID, or the ID and the action, the ID
    being the first parameter as it was given.  So when the base URL of
    the config is of ASCII characters and has an upper case letter, no
    request URL starts with the base URL as configured.  Such requests
    are sent: where [http.NewRequest] takes the URL, list sends one GET
    request to the path, get and delete send one to the path with the
    ID, activate and deactivate one to the path with the ID and the
    action, each with the token of the config.  Login, for its part,
    writes the config with the base URL as typed but for the slashes at
    its end: it keeps the case of every letter. *)
Theorem request_url_uses_lowercased_base sys entity action params cfg w :
  let root := Strings.ToLower (BaseURL cfg) +:+ "/api/v1/" +:+ entity in
  (∃ evs,
     trace (snd (entities.handleGenericEntityAction sys entity action params cfg w))
     = trace w ++ evs
     ∧ (∀ req, In req (requests evs) →
          (∃ suffix,
             URL req = root +:+ suffix
             ∧ (suffix = ""
                ∨ ∃ id rest, params = id :: rest
                             ∧ (suffix = "/" +:+ id
                                ∨ suffix = "/" +:+ id +:+ "/" +:+ action)))
          ∧ (is_ascii (BaseURL cfg) = true →
             has_upper (BaseURL cfg) = true →
             Strings.HasPrefix (URL req) (BaseURL cfg) = false))
     ∧ (action = "list" →
        NewRequest_error sys "GET" root = None →
        requests evs = [request_of "GET" root "" (APIToken cfg)])
     ∧ (∀ id rest method,
          params = id :: rest →
          (action = "get" ∧ method = "GET") ∨ (action = "delete" ∧ method = "DELETE") →
          NewRequest_error sys method (root +:+ "/" +:+ id) = None →
          requests evs = [request_of method (root +:+ "/" +:+ id) "" (APIToken cfg)])
     ∧ (∀ id rest,
          params = id :: rest →
          action = "activate" ∨ action = "deactivate" →
          NewRequest_error sys "POST" (root +:+ "/" +:+ id +:+ "/" +:+ action) = None →
          requests evs
          = [request_of "POST" (root +:+ "/" +:+ id +:+ "/" +:+ action) ""
               (APIToken cfg)]))
  ∧ (∀ baseURL token w0,
       token ≠ "" → baseURL ≠ "" →
       let saved := {| APIToken := token; BaseURL := Strings.TrimRight baseURL "/" |} in
       (∃ o w2 evs,
          entities.HandleLogin_save sys baseURL token w0 = (o, w2)
          ∧ trace w2 = trace w0 ++ evs
          ∧ Forall (λ e, ∀ path data, e = EvWriteFile path data →
                                      data = json_Encode sys saved) evs)
       ∧ has_upper (BaseURL saved) = has_upper baseURL
       ∧ ∃ n, baseURL = BaseURL saved +:+ slashes n).
Proof.
  intros root. split.
  - destruct (handleGeneric_requests sys entity action params cfg w)
      as (evs & Etr & Hreq).
    exists evs. split; [exact Etr|]. split; [|split; [|split]].
    + destruct Hreq as [Hnone|(method & url & body & w1 & Hsw & Hone)].
      { rewrite Hnone. intros req []. }
      rewrite Hone. intros req [<-|[]]. cbn [URL request_of].
      assert (∃ suffix,
        url = root +:+ suffix
        ∧ (suffix = ""
           ∨ ∃ id rest, params = id :: rest
                        ∧ (suffix = "/" +:+ id
                           ∨ suffix = "/" +:+ id +:+ "/" +:+ action))) as Hurl.
      { destruct (switch_ToSend _ _ _ _ _ _ _ _ _ _ Hsw)
          as [(_ & _ & ->)|[(_ & _ & id & rest & -> & ->)|[(_ & _ & _ & ->)|
             [(_ & _ & id & rest & -> & ->)|[(_ & _ & id & rest & -> & ->)|
             [(_ & _ & _ & ->)|(_ & _ & id & rest & -> & ->)]]]]]].
        all: fold root.
        1, 3, 6: exists ""; rewrite sapp_nil_r; split; [reflexivity|by left].
        1, 2, 3: exists ("/" +:+ id); split; [reflexivity|right]; eauto.
        exists ("/" +:+ id +:+ "/" +:+ action). split; [reflexivity|right]. eauto. }
      split; [exact Hurl|].
      intros Hascii Hup. destruct Hurl as (suffix & -> & _).
      apply not_true_is_false. intros Hpre. unfold root in Hpre.
      rewrite !sapp_assoc in Hpre.
      apply HasPrefix_same_length in Hpre; [|by apply ToLower_length].
      by apply (ToLower_upper _ Hascii Hup).
    + intros -> Hnew.
      by apply (handleGeneric_sends sys entity "list" params cfg w "GET" root "" w).
    + intros id rest method -> [[-> ->]|[-> ->]] Hnew.
      * by apply (handleGeneric_sends sys entity "get" (id :: rest) cfg w
                    "GET" (root +:+ "/" +:+ id) "" w).
      * by apply (handleGeneric_sends sys entity "delete" (id :: rest) cfg w
                    "DELETE" (root +:+ "/" +:+ id) "" w).
    + intros id rest -> [-> | ->] Hnew.
      * by apply (handleGeneric_sends sys entity "activate" (id :: rest) cfg w
                    "POST" (root +:+ "/" +:+ id +:+ "/" +:+ "activate") "" w).
      * by apply (handleGeneric_sends sys entity "deactivate" (id :: rest) cfg w
                    "POST" (root +:+ "/" +:+ id +:+ "/" +:+ "deactivate") "" w).
  - intros baseURL token w0 Ht Hb saved.
    destruct (TrimRight_slash baseURL) as [_ [n Hn]].
    split; [|split; [|by exists n]].
    + unfold entities.HandleLogin_save.
      destruct (decide _) as [[?|?]|_]; [done..|]. fold saved.
      destruct (returns_SaveConfig_saves sys saved w0) as (r & w2 & evs & E & _ & Etr & Hevs).
      unfold bind. rewrite E.
      assert (∀ text,
        Forall (λ e, ∀ path data, e = EvWriteFile path data → data = json_Encode sys saved)
          (evs ++ [EvStdout text])) as Hall.
      { intros text. apply Forall_app. split.
        - eapply Forall_impl; [exact Hevs|]. intros e He path data ->. exact He.
        - constructor; [|constructor]. intros ? ? [=]. }
      destruct r as [err|]; eexists _, _, (evs ++ [_]);
        (split; [reflexivity|]); simpl; rewrite Etr, <- app_assoc;
        (split; [reflexivity|apply Hall]).
    + simpl. rewrite Hn at 2. by rewrite has_upper_sapp, has_upper_slashes, orb_false_r.
Qed.

Lemma request_url_uses_lowercased_base_witness :
  let sys := Sample.platform Sample.ok_200 in
  let run := entities.handleGenericEntityAction sys "users" "get" ["7"] shouting
               (Sample.empty_dir "") in
  is_ascii (BaseURL shouting) = true
  ∧ has_upper (BaseURL shouting) = true
  ∧ NewRequest_error sys "GET" "http://n8n/api/v1/users/7" = None
  ∧ ∃ evs,
      trace (snd run) = trace (Sample.empty_dir "") ++ evs
      ∧ requests evs = [request_of "GET" "http://n8n/api/v1/users/7" "" "secret"]
      ∧ ∀ req, In req (requests evs) →
               Strings.HasPrefix (URL req) (BaseURL shouting) = false.
Proof.
  intros sys run.
  assert (is_ascii (BaseURL shouting) = true) as Hascii by (vm_compute; reflexivity).
  assert (has_upper (BaseURL shouting) = true) as Hup by (vm_compute; reflexivity).
  split; [exact Hascii|]. split; [exact Hup|]. split; [reflexivity|].
  destruct (proj1 (request_url_uses_lowercased_base sys "users" "get" ["7"] shouting
                     (Sample.empty_dir "")))
    as (evs & Etr & Hurl & _ & Hget & _).
  exists evs. split; [exact Etr|]. split.
  - exact (Hget "7" [] "GET" eq_refl (or_introl (conj eq_refl eq_refl)) eq_refl).
  - intros req Hreq. exact (proj2 (Hurl req Hreq) Hascii Hup).
Defined.

(** C9, as stated: the claim fails.  The base URL as configured can be
    in the URL of a request, after the lower-cased one: [users get] with
    an ID that repeats the base URL. *)
Lemma id_may_repeat_the_base :
  let run := entities.handleGenericEntityAction (Sample.platform Sample.ok_200)
               "users" "get" ["HTTP://N8N"] shouting (Sample.empty_dir "") in
  requests (trace (snd run))
  = [request_of "GET" "http://n8n/api/v1/users/HTTP://N8N" "" "secret"]
  ∧ has_upper (BaseURL shouting) = true
  ∧ Strings.Contains "http://n8n/api/v1/users/HTTP://N8N" (BaseURL shouting) = true
  ∧ ¬ base_never_verbatim.
Proof.
  intros run.
  assert (requests (trace (snd run))
          = [request_of "GET" "http://n8n/api/v1/users/HTTP://N8N" "" "secret"]) as Hrun
    by (vm_compute; reflexivity).
  assert (has_upper (BaseURL shouting) = true) as Hup by (vm_compute; reflexivity).
  assert (Strings.Contains "http://n8n/api/v1/users/HTTP://N8N" (BaseURL shouting) = true)
    as Hin by (vm_compute; reflexivity).
  split; [exact Hrun|]. split; [exact Hup|]. split; [exact Hin|].
  intros Hclaim.
  specialize (Hclaim (Sample.platform Sample.ok_200) "users" "get" ["HTTP://N8N"]
                shouting (Sample.empty_dir "") (trace (snd run))
                (request_of "GET" "http://n8n/api/v1/users/HTTP://N8N" "" "secret")
                Hup eq_refl).
  rewrite Hrun in Hclaim. specialize (Hclaim (or_introl eq_refl)).
  cbn [URL request_of] in Hclaim. rewrite Hin in Hclaim. discriminate.
Qed.

(** ** The documented requests *)

Lemma create_body_returns (prompt : string) (params : list string) w :
  ∃ body w1,
    match params with
    | p0 :: p1 :: _ =>
        if decide (p0 = "--data") then ret p1
        else bind (fmt_Println prompt) (λ _, utils.ReadStdin)
    | _ => bind (fmt_Println prompt) (λ _, utils.ReadStdin)
    end w = (Ret body, w1).
Proof.
  assert (∃ body w1, bind (fmt_Println prompt) (λ _, utils.ReadStdin) w = (Ret body, w1)).
  { rewrite bind_Println, ReadStdin_all. by eexists _, _. }
  destruct params as [|p0 [|p1 ?]]; try done.
  destruct (decide _); [by eexists _, _|done].
Qed.

Lemma registry_table_fits entity actions action a :
  entities.Entities !! entity = Some actions →
  actions !! action = Some a →
  (takes_id action = true → entities.NeedsID a = true)
  ∧ (action = "deploy" → entity = "workflows").
Proof.
  intros He Ha.
  assert (table_fits entity action a = true) as H.
  { revert He Ha. apply registry_check. vm_compute. reflexivity. }
  unfold table_fits in H. apply andb_true_iff in H as [H1 H2]. split.
  - intros Hid. by rewrite Hid in H1.
  - intros ->. simpl in H2. by apply bool_decide_eq_true in H2.
Qed.

(** C1, as amended.  For every pair of the registry, called with an ID
    where the registry asks for one, the request that the dispatch builds
    has the documented method and URL over the lower-cased base URL of
    the config: list is GET base/api/v1/entity, get is GET on that path
    with the ID, create (but on workflows) is POST on the path, update is
    PATCH with the ID, delete is DELETE with the ID, activate and
    deactivate are POST on the path with the ID and the action, and
    deploy on workflows is POST base/api/v1/workflows.  Every pair of the
    registry with one of these eight actions, but create on workflows, is
    in the table. *)
Theorem dispatch_builds_documented_request :
  dispatch_as_documented (λ cfg, Strings.ToLower (BaseURL cfg))
  ∧ ∀ entity actions action a params base,
      entities.Entities !! entity = Some actions →
      actions !! action = Some a →
      (entities.NeedsID a = true → params ≠ []) →
      action ∈ ["list"; "get"; "create"; "update"; "delete";
                "activate"; "deactivate"; "deploy"] →
      ¬ (entity = "workflows" ∧ action = "create") →
      is_Some (documented_request base entity action params).
Proof.
  split.
  { intros sys entity actions action a params cfg w method url _ _ _ Hdoc.
  assert ((∀ m u body w1,
       entities.handleGenericEntityAction_switch sys entity action params cfg w
       = (Ret (entities.ToSend m u body), w1) → m = method ∧ u = url)
    ∧ (action ≠ "deploy" → ∃ body w1,
         entities.handleGenericEntityAction_switch sys entity action params cfg w
         = (Ret (entities.ToSend method url body), w1))) as [Hany Hsome].
  { assert ((∃ body w1,
         entities.handleGenericEntityAction_switch sys entity action params cfg w
         = (Ret (entities.ToSend method url body), w1)) →
       (∀ m u body w1,
         entities.handleGenericEntityAction_switch sys entity action params cfg w
         = (Ret (entities.ToSend m u body), w1) → m = method ∧ u = url)
       ∧ (action ≠ "deploy" → ∃ body w1,
         entities.handleGenericEntityAction_switch sys entity action params cfg w
         = (Ret (entities.ToSend method url body), w1))) as Hdet.
    { intros (body & w1 & E). split; [|by eauto].
      intros m u body' w1'. rewrite E. by intros [= <- <- _ _]. }
    unfold documented_request in Hdoc.
    destruct (decide (action = "list")) as [->|?].
    { injection Hdoc as <- <-. apply Hdet. by eexists _, _. }
    destruct (decide (action = "get")) as [->|?].
    { destruct params as [|id rest]; [done|]. injection Hdoc as <- <-.
      apply Hdet. by eexists _, _. }
    destruct (decide (action = "create")) as [->|?].
    { destruct (decide (entity = "workflows")) as [|Hne]; [done|].
      injection Hdoc as <- <-. apply Hdet.
      unfold entities.handleGenericEntityAction_switch. simpl.
      destruct (decide (entity = "workflows")); [done|].
      destruct (create_body_returns "Enter JSON data for creation:" params w)
        as (body & w1 & E).
      exists body, w1. unfold bind at 1. by rewrite E. }
    destruct (decide (action = "update")) as [->|?].
    { destruct params as [|id rest]; [done|]. injection Hdoc as <- <-.
      apply Hdet.
      unfold entities.handleGenericEntityAction_switch. simpl.
      destruct (create_body_returns "Enter JSON data for update:" rest w)
        as (body & w1 & E).
      exists body, w1. unfold bind at 1.
      destruct rest as [|p1 [|p2 ?]]; by rewrite E. }
    destruct (decide (action = "delete")) as [->|?].
    { destruct params as [|id rest]; [done|]. injection Hdoc as <- <-.
      apply Hdet. by eexists _, _. }
    destruct (decide (action = "activate" ∨ action = "deactivate")) as [Hact|?].
    { destruct params as [|id rest]; [done|]. injection Hdoc as <- <-.
      apply Hdet. destruct Hact as [-> | ->]; by eexists _, _. }
    destruct (decide (action = "deploy")) as [->|?]; [|done].
    destruct (decide (entity = "workflows")) as [->|]; [|done].
    injection Hdoc as <- <-. split; [|done].
    intros m u body w1 Hsw.
    destruct (switch_ToSend _ _ _ _ _ _ _ _ _ _ Hsw)
      as [(? & _)|[(? & _)|[(? & _)|[(? & _)|[(? & _)|[(_ & _ & -> & ->)|([?|?] & _)]]]]]];
      done. }
  split; [exact Hany|]. split; [exact Hsome|].
  destruct (handleGeneric_requests sys entity action params cfg w)
    as (evs & Etr & [Hnone|(m & u & body & w1 & Hsw & Hone)]).
  - exists evs. split; [done|]. rewrite Hnone. intros req [].
  - exists evs. split; [done|]. rewrite Hone. intros req [<-|[]]. simpl.
    by apply (Hany m u body w1). }
  intros entity actions action a params base He Ha Hid Hin Hnot.
  destruct (registry_table_fits _ _ _ _ He Ha) as [Hneeds Hdeploy].
  assert (takes_id action = true → ∃ id rest, params = id :: rest) as Hparams.
  { intros Ht. specialize (Hid (Hneeds Ht)). destruct params; [done|by eauto]. }
  unfold documented_request.
  repeat (apply elem_of_cons in Hin as [->|Hin]); [..|by apply elem_of_nil in Hin].
  - done.
  - destruct (Hparams eq_refl) as (id & rest & ->). by eexists.
  - simpl. destruct (decide (entity = "workflows")); [|by eexists]. by destruct Hnot.
  - destruct (Hparams eq_refl) as (id & rest & ->). by eexists.
  - destruct (Hparams eq_refl) as (id & rest & ->). by eexists.
  - destruct (Hparams eq_refl) as (id & rest & ->). by eexists.
  - destruct (Hparams eq_refl) as (id & rest & ->). by eexists.
  - rewrite (Hdeploy eq_refl). by eexists.
Qed.

(** C1, as stated: over the base URL as the config has it, the claim
    fails, for a config whose base URL has an upper case letter. *)
Lemma dispatch_not_documented_verbatim : ¬ dispatch_as_documented BaseURL.
Proof.
  intros H.
  assert (entities.Entities !! "users" = Some users_actions) as He
    by (vm_compute; reflexivity).
  assert (users_actions !! "list" = Some users_list) as Ha
    by (vm_compute; reflexivity).
  destruct (H (Sample.platform Sample.ok_200) "users" users_actions "list" users_list
              [] Sample.cfg (Sample.empty_dir "")
              "GET" "https://N8N.example/api/v1/users" He Ha
              (λ Hid, False_ind _ (Bool.diff_false_true Hid)) eq_refl) as [Hany _].
  destruct (Hany "GET" "https://n8n.example/api/v1/users" "" (Sample.empty_dir "") eq_refl)
    as [_ Hurl].
  discriminate Hurl.
Qed.

Lemma dispatch_builds_documented_request_witness :
  entities.Entities !! "users" = Some users_actions
  ∧ users_actions !! "list" = Some users_list
  ∧ documented_request (Strings.ToLower (BaseURL Sample.cfg)) "users" "list" []
    = Some ("GET", "https://n8n.example/api/v1/users")
  ∧ ∃ body w1,
      entities.handleGenericEntityAction_switch (Sample.platform Sample.ok_200)
        "users" "list" [] Sample.cfg (Sample.empty_dir "")
      = (Ret (entities.ToSend "GET" "https://n8n.example/api/v1/users" body), w1).
Proof.
  assert (entities.Entities !! "users" = Some users_actions) as He
    by (vm_compute; reflexivity).
  assert (users_actions !! "list" = Some users_list) as Ha
    by (vm_compute; reflexivity).
  split; [exact He|]. split; [exact Ha|]. split; [reflexivity|].
  refine (proj1 (proj2 (proj1 dispatch_builds_documented_request
    (Sample.platform Sample.ok_200) "users" users_actions "list" users_list
    [] Sample.cfg (Sample.empty_dir "")
    "GET" "https://n8n.example/api/v1/users" He Ha
    (λ Hid, False_ind _ (Bool.diff_false_true Hid)) eq_refl)) _).
  discriminate.
Defined.

(** ** Substitution of the environment *)

Lemma span_app (p : ascii → bool) (s : string) :
  s = fst (Regexp.span p s) +:+ snd (Regexp.span p s).
Proof.
  induction s as [|c s IH]; [reflexivity|]. simpl.
  destruct (p c); [|reflexivity].
  destruct (Regexp.span p s) as [run rest]. simpl in *.
  rewrite sapp_cons. by f_equal.
Qed.

(** A byte outside the class ends the run, whatever comes after. *)
Lemma span_stop (p : ascii → bool) (s : string) (d : ascii) (t : string) :
  p d = false →
  Regexp.span p (s +:+ String d t)
  = (fst (Regexp.span p s), snd (Regexp.span p s) +:+ String d t).
Proof.
  intros Hd. induction s as [|c s IH].
  - rewrite sapp_nil_l. simpl. by rewrite Hd.
  - rewrite sapp_cons. simpl. destruct (p c); [|reflexivity].
    rewrite IH. by destruct (Regexp.span p s).
Qed.

Lemma CutPrefix_spec (s lit r : string) :
  Strings.CutPrefix s lit = Some r → s = lit +:+ r.
Proof.
  revert s. induction lit as [|c lit IH]; intros s; simpl.
  - by intros [= ->].
  - destruct s as [|d s]; [done|]. destruct (Ascii.eqb d c) eqn:E; [|done].
    apply Ascii.eqb_eq in E as ->. intros H. rewrite sapp_cons. f_equal. by apply IH.
Qed.

Lemma CutPrefix_here (lit r : string) : Strings.CutPrefix (lit +:+ r) lit = Some r.
Proof.
  induction lit as [|c lit IH]; [reflexivity|].
  rewrite sapp_cons. simpl. by rewrite Ascii.eqb_refl.
Qed.

Lemma CutPrefix_app (s lit r t : string) :
  Strings.CutPrefix s lit = Some r → Strings.CutPrefix (s +:+ t) lit = Some (r +:+ t).
Proof.
  intros H. rewrite (CutPrefix_spec _ _ _ H), sapp_assoc. apply CutPrefix_here.
Qed.

Lemma CutPrefix_open_none (s t : string) :
  s ≠ "" → Strings.CutPrefix s "${{" = None →
  Strings.CutPrefix (s +:+ String dollar t) "${{" = None.
Proof.
  intros Hs H. destruct s as [|c1 s]; [done|]. rewrite sapp_cons.
  simpl in *. destruct (Ascii.eqb c1 "$"); [|done].
  destruct s as [|c2 s]; [reflexivity|]. rewrite sapp_cons.
  destruct (Ascii.eqb c2 "{"); [|done].
  destruct s as [|c3 s]; [reflexivity|]. rewrite sapp_cons.
  by destruct (Ascii.eqb c3 "{").
Qed.

Lemma CutPrefix_close_none (s t : string) :
  Strings.CutPrefix s "}}" = None →
  Strings.CutPrefix (s +:+ String dollar t) "}}" = None.
Proof.
  intros H. destruct s as [|c1 s]; [reflexivity|]. rewrite sapp_cons.
  simpl in *. destruct (Ascii.eqb c1 "}"); [|done].
  destruct s as [|c2 s]; [reflexivity|]. rewrite sapp_cons.
  by destruct (Ascii.eqb c2 "}").
Qed.

#[local] Arguments Strings.CutPrefix : simpl never.
#[local] Arguments Regexp.span : simpl never.

(** A match cannot run over a dollar sign: in front of one, the text
    matches as it does alone. *)
Lemma match_here_before_dollar (s t : string) :
  s ≠ "" →
  Regexp.match_here (s +:+ String dollar t)
  = (λ '(m, r), (m, r +:+ String dollar t)) <$> Regexp.match_here s.
Proof.
  intros Hs. unfold Regexp.match_here.
  destruct (Strings.CutPrefix s "${{") as [s1|] eqn:E1.
  2: { by rewrite (CutPrefix_open_none s t Hs E1). }
  rewrite (CutPrefix_app _ _ _ (String dollar t) E1). simpl.
  rewrite (span_stop Regexp.is_s s1 dollar t eq_refl).
  destruct (Regexp.span Regexp.is_s s1) as [ws1 s2]. simpl.
  rewrite (span_stop Regexp.is_ident_char s2 dollar t eq_refl).
  destruct (Regexp.span Regexp.is_ident_char s2) as [name s3]. simpl.
  destruct name as [|c name]; [reflexivity|].
  destruct (Regexp.is_ident_start c); [|reflexivity].
  rewrite (span_stop Regexp.is_s s3 dollar t eq_refl).
  destruct (Regexp.span Regexp.is_s s3) as [ws2 s4]. simpl.
  destruct (Strings.CutPrefix s4 "}}") as [s5|] eqn:E5.
  - by rewrite (CutPrefix_app _ _ _ (String dollar t) E5).
  - by rewrite (CutPrefix_close_none s4 t E5).
Qed.

(** A match is a prefix of the text, and starts with a dollar sign. *)
Lemma match_here_whole (s : string) m r :
  Regexp.match_here s = Some (m, r) →
  s = Regexp.whole m +:+ r ∧ ∃ tl, Regexp.whole m = String dollar tl.
Proof.
  unfold Regexp.match_here.
  destruct (Strings.CutPrefix s "${{") as [s1|] eqn:E1; [|done]. simpl.
  pose proof (span_app Regexp.is_s s1) as A1.
  destruct (Regexp.span Regexp.is_s s1) as [ws1 s2]. simpl in A1.
  pose proof (span_app Regexp.is_ident_char s2) as A2.
  destruct (Regexp.span Regexp.is_ident_char s2) as [name s3]. simpl in A2.
  destruct name as [|c name]; [done|].
  destruct (Regexp.is_ident_start c); [|done].
  pose proof (span_app Regexp.is_s s3) as A3.
  destruct (Regexp.span Regexp.is_s s3) as [ws2 s4]. simpl in A3.
  destruct (Strings.CutPrefix s4 "}}") as [s5|] eqn:E5; [|done].
  intros [= <- <-]. simpl. split; [|by eexists].
  apply CutPrefix_spec in E1, E5. subst s s1 s2 s3 s4.
  by rewrite !sapp_assoc.
Qed.

Lemma replace_from_skip (x rest : string) repl :
  Regexp.replace_from (String.length x) (x +:+ rest) repl
  = Regexp.replace_from 0 rest repl.
Proof.
  induction x as [|c x IH]; [by destruct rest|].
  rewrite sapp_cons. simpl. exact IH.
Qed.

(** The two equations of [ReplaceAllStringFunc]. *)
Lemma ReplaceAll_match (s : string) m r repl :
  Regexp.match_here s = Some (m, r) →
  Regexp.ReplaceAllStringFunc s repl
  = repl (Regexp.whole m) +:+ Regexp.ReplaceAllStringFunc r repl.
Proof.
  intros H. destruct (match_here_whole _ _ _ H) as [Hs [tl Hm]].
  unfold Regexp.ReplaceAllStringFunc.
  destruct s as [|c s']; [by rewrite Hm in Hs|].
  unfold Regexp.replace_from; fold Regexp.replace_from. rewrite H.
  f_equal. rewrite Hm in *. rewrite sapp_cons in Hs. injection Hs as -> ->.
  simpl. apply replace_from_skip.
Qed.

Lemma ReplaceAll_no_match (c : ascii) (s : string) repl :
  Regexp.match_here (String c s) = None →
  Regexp.ReplaceAllStringFunc (String c s) repl
  = String c (Regexp.ReplaceAllStringFunc s repl).
Proof.
  intros H. unfold Regexp.ReplaceAllStringFunc.
  unfold Regexp.replace_from; fold Regexp.replace_from. by rewrite H.
Qed.

(** Substitution goes through the text in front of a dollar sign and
    the text from it on one after the other. *)
Lemma ReplaceAll_before_dollar (pre t : string) repl :
  Regexp.ReplaceAllStringFunc (pre +:+ String dollar t) repl
  = Regexp.ReplaceAllStringFunc pre repl
    +:+ Regexp.ReplaceAllStringFunc (String dollar t) repl.
Proof.
  remember (String.length pre) as n eqn:Hn.
  revert pre Hn. induction n as [n IH] using lt_wf_ind. intros pre Hn.
  destruct pre as [|c pre']; [reflexivity|].
  pose proof (match_here_before_dollar (String c pre') t ltac:(done)) as Hm.
  rewrite sapp_cons in *.
  destruct (Regexp.match_here (String c pre')) as [[m r]|] eqn:E.
  - rewrite (ReplaceAll_match _ m (r +:+ String dollar t) repl Hm).
    rewrite (ReplaceAll_match _ m r repl E), sapp_assoc. f_equal.
    destruct (match_here_whole _ _ _ E) as [Hs [tl Htl]].
    apply (IH (String.length r)); [|done].
    rewrite Hn, Hs, sapp_length, Htl. simpl. lia.
  - rewrite (ReplaceAll_no_match _ _ repl Hm).
    rewrite (ReplaceAll_no_match _ _ repl E), sapp_cons. f_equal.
    apply (IH (String.length pre')); [|done]. rewrite Hn. simpl. lia.
Qed.

Lemma span_all (p : ascii → bool) (s : string) (d : ascii) (t : string) :
  all_bytes p s = true → p d = false →
  Regexp.span p (s +:+ String d t) = (s, String d t).
Proof.
  intros Hs Hd. induction s as [|c s IH].
  - rewrite sapp_nil_l. unfold Regexp.span. by rewrite Hd.
  - rewrite sapp_cons. simpl in Hs. apply andb_true_iff in Hs as [Hc Hs].
    unfold Regexp.span; fold Regexp.span. by rewrite Hc, (IH Hs).
Qed.

Lemma ident_start_not_s (c : ascii) :
  Regexp.is_ident_start c = true → Regexp.is_s c = false.
Proof. destruct c as [[] [] [] [] [] [] [] []]; vm_compute; congruence. Qed.

Lemma s_not_ident (c : ascii) :
  Regexp.is_s c = true → Regexp.is_ident_char c = false.
Proof. destruct c as [[] [] [] [] [] [] [] []]; vm_compute; congruence. Qed.

Lemma span_sound (p : ascii → bool) (s : string) :
  all_bytes p (fst (Regexp.span p s)) = true.
Proof.
  induction s as [|c s IH]; [reflexivity|].
  unfold Regexp.span; fold Regexp.span. destruct (p c) eqn:Hc; [|reflexivity].
  destruct (Regexp.span p s) as [run rest]. simpl in *. by rewrite Hc.
Qed.

(** The matcher finds only matches of the pattern. *)
Lemma match_here_sound (s : string) m r :
  Regexp.match_here s = Some (m, r) →
  s = Regexp.whole m +:+ r ∧ matches_pattern (Regexp.whole m) (Regexp.group1 m).
Proof.
  intros H. split; [by apply (match_here_whole s m r)|].
  revert H. unfold Regexp.match_here.
  destruct (Strings.CutPrefix s "${{") as [s1|]; [|done]. simpl.
  pose proof (span_sound Regexp.is_s s1) as A1.
  destruct (Regexp.span Regexp.is_s s1) as [ws1 s2]. simpl in A1.
  pose proof (span_sound Regexp.is_ident_char s2) as A2.
  destruct (Regexp.span Regexp.is_ident_char s2) as [name s3]. simpl in A2.
  destruct name as [|c name]; [done|].
  destruct (Regexp.is_ident_start c) eqn:Hc; [|done].
  pose proof (span_sound Regexp.is_s s3) as A3.
  destruct (Regexp.span Regexp.is_s s3) as [ws2 s4]. simpl in A3.
  destruct (Strings.CutPrefix s4 "}}") as [s5|]; [|done].
  intros [= <- <-]. simpl. exists ws1, ws2. repeat split; try done.
  simpl in A2. apply andb_true_iff in A2 as [_ A2].
  unfold is_identifier. by rewrite Hc, A2.
Qed.

(** The matcher finds every match of the pattern: at the start of a
    text the pattern has at most one match, so that the order in which
    Go tries the alternatives does not matter. *)
Lemma match_here_complete (ws1 name ws2 r : string) :
  all_bytes Regexp.is_s ws1 = true →
  all_bytes Regexp.is_s ws2 = true →
  is_identifier name = true →
  Regexp.match_here ("${{" +:+ ws1 +:+ name +:+ ws2 +:+ "}}" +:+ r)
  = Some ({| Regexp.whole := "${{" +:+ ws1 +:+ name +:+ ws2 +:+ "}}";
             Regexp.group1 := name |}, r).
Proof.
  intros H1 H2 Hname. unfold Regexp.match_here. rewrite CutPrefix_here. simpl.
  destruct name as [|c rest]; [done|].
  simpl in Hname. apply andb_true_iff in Hname as [Hc Hrest].
  rewrite (sapp_cons c rest).
  rewrite (span_all Regexp.is_s ws1 c _ H1 (ident_start_not_s c Hc)).
  assert (Regexp.span Regexp.is_s (ws2 +:+ "}}" +:+ r) = (ws2, "}}" +:+ r)) as Hws2.
  { change ("}}" +:+ r) with (String rbrace (String rbrace r)).
    by apply span_all. }
  assert (Regexp.span Regexp.is_ident_char (String c (rest +:+ ws2 +:+ "}}" +:+ r))
          = (String c rest, ws2 +:+ "}}" +:+ r)) as ->.
  { rewrite <- sapp_cons.
    assert (all_bytes Regexp.is_ident_char (String c rest) = true) as Hall.
    { simpl. unfold Regexp.is_ident_char at 1. by rewrite Hc. }
    destruct ws2 as [|d ws2].
    - change ("" +:+ "}}" +:+ r) with (String rbrace (String rbrace r)).
      by apply span_all.
    - rewrite (sapp_cons d). apply span_all; [done|].
      simpl in H2. apply andb_true_iff in H2 as [Hd _]. by apply s_not_ident. }
  rewrite Hc, Hws2, CutPrefix_here. simpl. by rewrite sapp_cons.
Qed.

(** The pattern matches [${{NAME}}] for a name, with the name as its
    group, and nothing more than that. *)
Lemma match_here_occurrence (name post : string) :
  is_identifier name = true →
  Regexp.match_here ("${{" +:+ name +:+ "}}" +:+ post)
  = Some ({| Regexp.whole := "${{" +:+ name +:+ "}}"; Regexp.group1 := name |}, post).
Proof. intros Hname. by apply (match_here_complete "" name "" post). Qed.

Lemma FindStringSubmatch_here (s : string) m r :
  Regexp.match_here s = Some (m, r) → Regexp.FindStringSubmatch s = Some m.
Proof.
  intros H.
  destruct s; unfold Regexp.FindStringSubmatch; fold Regexp.FindStringSubmatch;
    by rewrite H.
Qed.

(** C6.  In whatever text it stands, an occurrence of [${{NAME}}], NAME
    a name, is replaced by the value of NAME in the map when NAME is a
    key of the map, and is left as it is when NAME is no key; the text in
    front of it and the text after it are substituted on their own.  So
    with the map of FOO to bar, the output for a text with [${{FOO}}] in
    it has [bar] in it. *)
Theorem injectEnvVariables_replaces_occurrences
    (env : gmap string string) (pre name post : string) :
  is_identifier name = true →
  workflows.injectEnvVariables (pre +:+ "${{" +:+ name +:+ "}}" +:+ post) env
  = workflows.injectEnvVariables pre env
    +:+ default ("${{" +:+ name +:+ "}}") (env !! name)
    +:+ workflows.injectEnvVariables post env
  ∧ (name = "FOO" → env = {[ "FOO" := "bar" ]} →
     Strings.Contains
       (workflows.injectEnvVariables (pre +:+ "${{FOO}}" +:+ post) env) "bar" = true).
Proof.
  intros Hname.
  assert (workflows.injectEnvVariables (pre +:+ "${{" +:+ name +:+ "}}" +:+ post) env
          = workflows.injectEnvVariables pre env
            +:+ default ("${{" +:+ name +:+ "}}") (env !! name)
            +:+ workflows.injectEnvVariables post env) as Hocc.
  { unfold workflows.injectEnvVariables.
    change ("${{" +:+ name +:+ "}}" +:+ post)
      with (String dollar ("{{" +:+ name +:+ "}}" +:+ post)).
    rewrite ReplaceAll_before_dollar. f_equal.
    change (String dollar ("{{" +:+ name +:+ "}}" +:+ post))
      with ("${{" +:+ name +:+ "}}" +:+ post).
    rewrite (ReplaceAll_match _ _ _ _ (match_here_occurrence name post Hname)).
    f_equal. cbn beta. cbn [Regexp.whole].
    pose proof (match_here_occurrence name "" Hname) as Hself.
    rewrite sapp_nil_r in Hself.
    rewrite (FindStringSubmatch_here _ _ _ Hself). cbn [Regexp.group1].
    by destruct (env !! name). }
  split; [exact Hocc|].
  intros -> ->.
  change ("${{FOO}}" +:+ post) with ("${{" +:+ "FOO" +:+ "}}" +:+ post).
  rewrite Hocc, lookup_singleton_eq. apply Contains_app.
Qed.

Lemma injectEnvVariables_replaces_occurrences_witness :
  is_identifier "FOO" = true
  ∧ workflows.injectEnvVariables ("url: " +:+ "${{" +:+ "FOO" +:+ "}}" +:+ "/x")
      {[ "FOO" := "bar" ]}
    = workflows.injectEnvVariables "url: " {[ "FOO" := "bar" ]}
      +:+ default ("${{" +:+ "FOO" +:+ "}}")
            (({[ "FOO" := "bar" ]} : gmap string string) !! "FOO")
      +:+ workflows.injectEnvVariables "/x" {[ "FOO" := "bar" ]}.
Proof.
  split; [reflexivity|].
  exact (proj1 (injectEnvVariables_replaces_occurrences
                  {[ "FOO" := "bar" ]} "url: " "FOO" "/x" eq_refl)).
Defined.

(** The same text, by computation: the value is put in, and a name
    that is no key stays. *)
Example injectEnvVariables_sample :
  workflows.injectEnvVariables "a: ${{FOO}}, b: ${{ FOO }}, c: ${{BAR}}"
    {[ "FOO" := "bar" ]}
  = "a: bar, b: bar, c: ${{BAR}}".
Proof. vm_compute. reflexivity. Qed.

(** ** Inclusion of script files *)

Lemma leading_spaces_TrimLeft (line : string) :
  line = leading_spaces line +:+ Strings.TrimLeft line " ".
Proof.
  induction line as [|c line IH]; [reflexivity|]. simpl.
  destruct (Ascii.eqb c " "); simpl; [|reflexivity].
  rewrite sapp_cons. by f_equal.
Qed.

Lemma substring_take (a b : string) :
  String.substring 0 (String.length a) (a +:+ b) = a.
Proof.
  induction a as [|c a IH]; [by destruct b|].
  rewrite sapp_cons. simpl. by rewrite IH.
Qed.

Lemma substring_skip (a s : string) (m : nat) :
  String.substring (String.length a) m (a +:+ s) = String.substring 0 m s.
Proof. induction a as [|c a IH]; [reflexivity|]. rewrite sapp_cons. simpl. exact IH. Qed.

(** The slice that [injectJSCode] takes for the indentation. *)
Lemma indentation_slice (line : string) :
  workflows.slice line 0
    (String.length line - String.length (Strings.TrimLeft line " "))
  = leading_spaces line.
Proof.
  unfold workflows.slice. rewrite Nat.sub_0_r.
  rewrite (leading_spaces_TrimLeft line) at 1 3.
  rewrite sapp_length, Nat.add_sub. apply substring_take.
Qed.

(** The tests and the slice that [injectJSCode] takes for the file
    name. *)
Lemma include_name (trimmed name : string) :
  trimmed = "jsCode: file(" +:+ name +:+ ")" →
  Strings.HasPrefix trimmed "jsCode: file(" = true
  ∧ Strings.HasSuffix trimmed ")" = true
  ∧ workflows.slice trimmed (String.length "jsCode: file(") (String.length trimmed - 1)
    = name.
Proof.
  intros ->. split; [apply HasPrefix_app|]. split.
  - unfold Strings.HasSuffix. rewrite !rev_sapp, sapp_assoc.
    apply (HasPrefix_app ")").
  - unfold workflows.slice. rewrite substring_skip.
    rewrite !sapp_length. simpl String.length.
    replace (13 + (String.length name + 1) - 1 - 13)%nat with (String.length name) by lia.
    apply substring_take.
Qed.

(** One turn of the loop of [injectJSCode]. *)
Lemma lines_cons yamlPath line lines outputLines w :
  workflows.injectJSCode_lines yamlPath (line :: lines) outputLines w
  = if is_include line then
      let name := workflows.slice (Strings.TrimSpace line)
                    (String.length "jsCode: file(")
                    (String.length (Strings.TrimSpace line) - 1) in
      let jsPath := Filepath.Join [Filepath.Dir yamlPath; name] in
      match ReadFile jsPath w with
      | (Ret (Ok js), _) =>
          workflows.injectJSCode_lines yamlPath lines
            (outputLines ++ block_of line js) w
      | (Ret (Err err), _) =>
          (Ret (Err (WrapError ("failed to read " +:+ jsPath +:+ ": ") err)), w)
      | _ => (Panic "", w)
      end
    else workflows.injectJSCode_lines yamlPath lines (outputLines ++ [line]) w.
Proof.
  unfold workflows.injectJSCode_lines at 1; fold workflows.injectJSCode_lines.
  unfold is_include. destruct (_ && _); [|reflexivity].
  cbv zeta. unfold bind.
  match goal with |- context [ReadFile ?p w] =>
    destruct (ReadFile_returns p w) as [r ->] end.
  destruct r as [js|err]; [|reflexivity].
  unfold block_of. rewrite indentation_slice.
  by rewrite <- app_assoc.
Qed.

(** The loop only adds to the lines it has: its result on some lines is
    what it has, followed by its result from nothing. *)
Lemma lines_acc yamlPath lines outputLines w :
  workflows.injectJSCode_lines yamlPath lines outputLines w
  = match workflows.injectJSCode_lines yamlPath lines [] w with
    | (Ret (Ok out), _) => (Ret (Ok (outputLines ++ out)), w)
    | other => other
    end.
Proof.
  revert outputLines. induction lines as [|line lines IH]; intros outputLines.
  - simpl. unfold ret. by rewrite app_nil_r.
  - rewrite !lines_cons. destruct (is_include line).
    + cbv zeta.
      match goal with |- context [ReadFile ?p w] =>
        destruct (ReadFile_returns p w) as [r ->] end.
      destruct r as [js|err]; [|reflexivity].
      rewrite (IH (outputLines ++ block_of line js)), (IH ([] ++ block_of line js)).
      destruct (workflows.injectJSCode_lines yamlPath lines [] w) as [[[out|?]|?|?] ?];
        try reflexivity.
      by rewrite <- app_assoc.
    + rewrite (IH (outputLines ++ [line])), (IH ([] ++ [line])).
      destruct (workflows.injectJSCode_lines yamlPath lines [] w) as [[[out|?]|?|?] ?];
        try reflexivity.
      by rewrite <- app_assoc.
Qed.

(** The loop over two runs of lines is the loop over the first, then
    over the second. *)
Lemma lines_app yamlPath lines1 lines2 outputLines w :
  workflows.injectJSCode_lines yamlPath (lines1 ++ lines2) outputLines w
  = match workflows.injectJSCode_lines yamlPath lines1 outputLines w with
    | (Ret (Ok out), _) => workflows.injectJSCode_lines yamlPath lines2 out w
    | other => other
    end.
Proof.
  revert outputLines. induction lines1 as [|line lines1 IH]; intros outputLines.
  - reflexivity.
  - rewrite <- app_comm_cons, !lines_cons. destruct (is_include line); [|apply IH].
    cbv zeta.
    match goal with |- context [ReadFile ?p w] =>
      destruct (ReadFile_returns p w) as [r ->] end.
    destruct r as [js|err]; [apply IH|reflexivity].
Qed.

Lemma Dir_Join_workflow (name : string) :
  Filepath.Join [Filepath.Dir "workflow.yaml"; name] = Filepath.Join ["."; name].
Proof. by rewrite Dir_workflow_yaml. Qed.

Lemma ReadFile_present path data w :
  files w !! path = Some data → ReadFile path w = (Ret (Ok data), w).
Proof. intros H. unfold ReadFile. by rewrite H. Qed.

(** What the preview flow hands to [yq] when its source is [text]
    before the substitution step. *)
Lemma preview_source_substituted w yaml text :
  files w !! "workflow.yaml" = Some yaml →
  (if Strings.Contains yaml "jsCode: file(index.js)"
   then workflows.injectJSCode "workflow.yaml" w
   else (Ret (Ok yaml), w)) = (Ret (Ok text), w) →
  (∃ cause, preview_source w = Err (WrapError "failed to load .env file: " cause))
  ∨ preview_source w = Ok (substituted w text).
Proof.
  intros Hyaml Htext. unfold preview_source, substituted, dotenv_of.
  rewrite (ReadFile_present _ _ _ Hyaml), Htext.
  destruct (unchanged _ (prints_LoadDotEnv _ ".env") w) as [[envMap err] ->].
  destruct (if IsNotExist err then None else err); [left; by eexists|by right].
Qed.

(** C7, as amended.  Let the YAML source have a line whose trimmed
    content is [jsCode: file(NAME)], let the file NAME be there, and let
    [injectJSCode] succeed on the source.  Then its output is, joined by
    newlines: its output for the lines before, the line [jsCode: |] at
    the indentation (the leading spaces) of that line, the lines of the
    file, each at that indentation and two spaces more, and its output
    for the lines after; a line that is no such directive is kept as it
    is.  In the preview flow this takes place when the source has the
    marker [jsCode: file(index.js)] in it: the text handed to [yq] is
    then that output after the substitution of the environment; without
    the marker it is the source itself after that substitution. *)
Theorem include_lines_become_blocks sys w yaml before line after name js out :
  files w !! "workflow.yaml" = Some yaml →
  Strings.Split yaml "010"%char = before ++ line :: after →
  Strings.TrimSpace line = "jsCode: file(" +:+ name +:+ ")" →
  files w !! Filepath.Join ["."; name] = Some js →
  workflows.injectJSCode "workflow.yaml" w = (Ret (Ok out), w) →
  (∃ out1 out2,
     workflows.injectJSCode_lines "workflow.yaml" before [] w = (Ret (Ok out1), w)
     ∧ workflows.injectJSCode_lines "workflow.yaml" after [] w = (Ret (Ok out2), w)
     ∧ out = Strings.Join (out1 ++ block_of line js ++ out2) nl)
  ∧ (∀ other, is_include other = false →
       workflows.injectJSCode_lines "workflow.yaml" [other] [] w = (Ret (Ok [other]), w))
  ∧ (let handed text :=
       (∃ cause, workflows.PreviewWorkflowJSONWithPrompt sys w
                 = (Ret (false, Some (WrapError "failed to load .env file: " cause)), w))
       ∨ ∃ evs, trace (snd (workflows.PreviewWorkflowJSONWithPrompt sys w))
                = trace w ++ EvExec "yq" ["."; "-"] (substituted w text) :: evs in
     if Strings.Contains yaml "jsCode: file(index.js)" then handed out else handed yaml).
Proof.
  intros Hyaml Hsplit Htrim Hjs Hout.
  split; [|split].
  - unfold workflows.injectJSCode in Hout.
    rewrite (bind_Ret _ _ _ _ _ (ReadFile_present _ _ _ Hyaml)) in Hout.
    rewrite Hsplit in Hout. unfold bind in Hout. rewrite lines_app in Hout.
    destruct (lines_returns "workflow.yaml" before [] w) as [r1 E1].
    rewrite E1 in Hout. destruct r1 as [out1|?]; [|done].
    rewrite lines_cons in Hout.
    destruct (include_name _ _ Htrim) as (Hpre & Hsuf & Hname).
    unfold is_include in Hout. rewrite Hpre, Hsuf in Hout.
    cbn [andb] in Hout. cbv zeta in Hout.
    rewrite Hname, Dir_Join_workflow, (ReadFile_present _ _ _ Hjs) in Hout.
    rewrite lines_acc in Hout.
    destruct (lines_returns "workflow.yaml" after [] w) as [r2 E2].
    rewrite E2 in Hout. destruct r2 as [out2|?]; [|done].
    injection Hout as <-. exists out1, out2. by rewrite <- app_assoc.
  - intros other Hother. rewrite lines_cons, Hother. reflexivity.
  - assert (∀ text,
      (if Strings.Contains yaml "jsCode: file(index.js)"
       then workflows.injectJSCode "workflow.yaml" w
       else (Ret (Ok yaml), w)) = (Ret (Ok text), w) →
      (∃ cause, workflows.PreviewWorkflowJSONWithPrompt sys w
                = (Ret (false, Some (WrapError "failed to load .env file: " cause)), w))
      ∨ ∃ evs, trace (snd (workflows.PreviewWorkflowJSONWithPrompt sys w))
               = trace w ++ EvExec "yq" ["."; "-"] (substituted w text) :: evs) as Hhanded.
    { intros text Htext. pose proof (Preview_source sys w) as Hsrc.
      destruct (preview_source_substituted w yaml text Hyaml Htext) as [[cause E]|E];
        rewrite E in Hsrc.
      - left. by exists cause.
      - right. destruct Hsrc as (evs & Etr & _). by exists evs. }
    cbv zeta. destruct (Strings.Contains yaml "jsCode: file(index.js)");
      by apply Hhanded.
Qed.

Lemma include_lines_become_blocks_witness :
  let sys := Sample.platform Sample.ok_200 in
  let w := Sample.project ("n" +:+ nl) in
  let line := "  jsCode: file(index.js)" in
  let yaml := line +:+ nl +:+ "url: ${{HOST}}/hook" in
  let js := "a();" +:+ nl +:+ "b();" in
  let out := "  jsCode: |" +:+ nl +:+ "    a();" +:+ nl +:+ "    b();" +:+ nl
             +:+ "url: ${{HOST}}/hook" in
  files w !! "workflow.yaml" = Some yaml
  ∧ Strings.Split yaml "010"%char = [] ++ line :: ["url: ${{HOST}}/hook"]
  ∧ Strings.TrimSpace line = "jsCode: file(" +:+ "index.js" +:+ ")"
  ∧ files w !! Filepath.Join ["."; "index.js"] = Some js
  ∧ workflows.injectJSCode "workflow.yaml" w = (Ret (Ok out), w)
  ∧ ∃ out1 out2,
      workflows.injectJSCode_lines "workflow.yaml" [] [] w = (Ret (Ok out1), w)
      ∧ workflows.injectJSCode_lines "workflow.yaml" ["url: ${{HOST}}/hook"] [] w
        = (Ret (Ok out2), w)
      ∧ out = Strings.Join (out1 ++ block_of line js ++ out2) nl.
Proof.
  intros sys w line yaml js out.
  assert (files w !! "workflow.yaml" = Some yaml) as H1 by (vm_compute; reflexivity).
  assert (Strings.Split yaml "010"%char = [] ++ line :: ["url: ${{HOST}}/hook"]) as H2
    by (vm_compute; reflexivity).
  assert (Strings.TrimSpace line = "jsCode: file(" +:+ "index.js" +:+ ")") as H3
    by (vm_compute; reflexivity).
  assert (files w !! Filepath.Join ["."; "index.js"] = Some js) as H4
    by (vm_compute; reflexivity).
  assert (workflows.injectJSCode "workflow.yaml" w = (Ret (Ok out), w)) as H5
    by (vm_compute; reflexivity).
  repeat (split; [assumption|]).
  exact (proj1 (include_lines_become_blocks sys w yaml [] line ["url: ${{HOST}}/hook"]
                  "index.js" js out H1 H2 H3 H4 H5)).
Defined.

(** C7, as stated: a line whose trimmed content is [jsCode: file(x.js)],
    with the file [x.js] there, is not replaced in the preview flow: the
    text handed to [yq] is the line itself and not the block. *)
Lemma preview_keeps_other_script_line :
  let sys := Sample.platform Sample.ok_200 in
  let w := other_script ("n" +:+ nl) in
  let line := "  jsCode: file(x.js)" in
  files w !! "workflow.yaml" = Some line
  ∧ Strings.Split line "010"%char = [] ++ line :: []
  ∧ Strings.TrimSpace line = "jsCode: file(" +:+ "x.js" +:+ ")"
  ∧ files w !! Filepath.Join ["."; "x.js"] = Some "a();"
  ∧ (∃ evs, trace (snd (workflows.PreviewWorkflowJSONWithPrompt sys w))
            = trace w ++ EvExec "yq" ["."; "-"] line :: evs)
  ∧ ¬ (∃ evs, trace (snd (workflows.PreviewWorkflowJSONWithPrompt sys w))
              = trace w ++ EvExec "yq" ["."; "-"]
                             (substituted w (Strings.Join ([] ++ block_of line "a();" ++ []) nl))
                           :: evs).
Proof.
  intros sys w line.
  repeat (split; [vm_compute; reflexivity|]).
  split.
  - eexists. vm_compute. reflexivity.
  - intros [evs H]. vm_compute in H. discriminate H.
Qed.

(* ================================================================== *)
(** * Further properties of the code *)
(* ================================================================== *)

(** ** No panic *)

Lemma safe_bind {A B} (m : M A) (k : A → M B) :
  safe m → (∀ a, safe (k a)) → safe (bind m k).
Proof.
  intros Hm Hk w text. unfold bind. specialize (Hm w).
  destruct (m w) as [[a|code|text'] w1]; simpl in *; [apply Hk|done|].
  intros [= ->]. by apply (Hm text).
Qed.

Lemma safe_prints {A} P (m : M A) : prints P m → safe m.
Proof. intros Hm w text. by destruct (Hm w) as (a & evs & -> & _). Qed.

Lemma safe_returns {A} P (m : M A) : returns P m → safe m.
Proof. intros Hm w text. by destruct (Hm w) as (a & w' & evs & -> & _). Qed.

Lemma safe_Exit {A} code : safe (@os_Exit A code).
Proof. by intros w text. Qed.

Lemma safe_stdin_ReadString : safe stdin_ReadString.
Proof.
  intros w text. unfold stdin_ReadString.
  by destruct (Bufio.ReadString (stdin w) "010") as [[line rest] eof].
Qed.

Lemma safe_ReadStdin : safe utils.ReadStdin.
Proof. intros w text. by rewrite ReadStdin_all. Qed.

Lemma prints_for_each {A} P (l : list A) (f : A → M unit) :
  (∀ x, prints P (f x)) → prints P (for_each l f).
Proof.
  intros Hf. induction l as [|x l IH]; simpl; [apply prints_ret|].
  apply prints_bind; [apply Hf|]. intros _. apply IH.
Qed.

Lemma any_event_holds e : any_event e.
Proof. done. Qed.

#[local] Hint Resolve any_event_holds : effects.

Ltac safe_step :=
  match goal with
  | |- ∀ _, safe _ => intros ?
  | |- safe (bind _ _) => apply safe_bind; [|intros ?]
  | |- safe (os_Exit _) => apply safe_Exit
  | |- safe stdin_ReadString => apply safe_stdin_ReadString
  | |- safe utils.ReadStdin => apply safe_ReadStdin
  | |- safe (Mkdir _) => apply (safe_returns any_event), returns_Mkdir; done
  | |- safe (WriteFile _ _) => apply (safe_returns any_event), returns_WriteFile; done
  | |- safe (match ?x with _ => _ end) => destruct x
  | |- safe _ => apply (safe_prints any_event); solve [effects]
  end.

Ltac safe := repeat safe_step.

Lemma prints_PrintHelp P :
  (∀ text, P (EvStdout text)) → prints P entities.PrintHelp.
Proof.
  intros HP. unfold entities.PrintHelp.
  apply prints_bind; [by apply prints_Println|]. intros _.
  apply prints_bind; [|intros _; by apply prints_Println].
  apply prints_for_each. intros kv. by apply prints_Print.
Qed.

Lemma prints_PrintEntityHelp P entity actions showSchema :
  (∀ text, P (EvStdout text)) →
  prints P (entities.PrintEntityHelp entity actions showSchema).
Proof.
  intros HP. unfold entities.PrintEntityHelp.
  apply prints_bind; [by apply prints_Print|]. intros _.
  apply prints_bind.
  { apply prints_for_each. intros [actionName action].
    apply prints_bind; [by apply prints_Print|]. intros _.
    destruct (_ && _); [|apply prints_ret].
    apply prints_bind; [by apply prints_Println|]. intros _.
    apply prints_for_each. intros line. by apply prints_Print. }
  intros _. apply prints_bind; [by apply prints_Print|]. intros _.
  apply prints_bind; [by apply prints_Println|]. intros _. by apply prints_Println.
Qed.

Lemma safe_Preview sys : safe (workflows.PreviewWorkflowJSONWithPrompt sys).
Proof.
  unfold workflows.PreviewWorkflowJSONWithPrompt.
  apply safe_bind; [safe|]. intros [yamlStr|err]; [|safe].
  apply safe_bind; [destruct (Strings.Contains _ _); safe|].
  intros [yamlStr'|err]; [|safe].
  apply safe_bind; [safe|]. intros [envMap err].
  destruct (if IsNotExist err then None else err); [safe|].
  apply safe_bind; [apply (safe_prints any_event), prints_yq_stdin; done|].
  intros [newJSON|err']; [|safe].
  apply safe_bind; [safe|]. intros oldJSON.
  apply safe_bind; [safe|]. intros _.
  apply safe_bind; [safe|]. intros _.
  apply safe_bind.
  { destruct oldJSON; [|safe].
    apply safe_bind; [safe|]. intros _.
    apply (safe_prints any_event), prints_RunDiff; done. }
  intros [err'|]; [safe|].
  apply safe_bind; [safe|]. intros _.
  apply safe_bind; [safe|]. intros [answer eof].
  destruct (bool_decide _); [|safe].
  apply safe_bind; [safe|]. intros st.
  apply safe_bind; [destruct (IsNotExist st); safe|].
  intros [err'|]; safe.
Qed.

Lemma safe_Diff sys : safe (workflows.DiffWorkflowJSON sys).
Proof.
  unfold workflows.DiffWorkflowJSON.
  apply safe_bind; [safe|]. intros st. destruct (IsNotExist st); [safe|].
  apply safe_bind; [safe|]. intros st'. destruct (IsNotExist st'); [safe|].
  apply safe_bind; [apply (safe_prints any_event), prints_yq_file; done|].
  intros [newJSON|err]; [|safe].
  apply safe_bind; [safe|]. intros [old|err]; [|safe].
  apply (safe_prints any_event), prints_RunDiff; done.
Qed.

Lemma safe_n8nAPIRequest sys method url body apiKey :
  safe (entities.n8nAPIRequest sys method url body apiKey).
Proof.
  intros w text.
  by destruct (n8nAPIRequest_returns sys method url body apiKey w) as (r & w' & -> & _).
Qed.

Lemma safe_index_cons (p : string) (params : list string) : safe (index (p :: params) 0).
Proof. by intros w text. Qed.

(** The dispatch does not panic once the actions that index [params]
    are given a parameter. *)
Lemma safe_handleGenericEntityAction sys entity action params cfg :
  (takes_id action = true → params ≠ []) →
  safe (entities.handleGenericEntityAction sys entity action params cfg).
Proof.
  intros Hid. unfold entities.handleGenericEntityAction.
  apply safe_bind.
  2: { intros [err|method url body]; [safe|].
       apply safe_bind; [apply safe_n8nAPIRequest|]. intros [resp|err]; [|safe].
       destruct (decide _); [safe|].
       apply safe_bind; [|safe].
       apply (safe_prints any_event), prints_PrintJSONResponse; done. }
  assert (∀ P : Prop, P → takes_id action = true → safe (index params 0)) as Hindex.
  { intros _ _ Ht. specialize (Hid Ht). destruct params; [done|apply safe_index_cons]. }
  unfold entities.handleGenericEntityAction_switch.
  destruct (decide (action = "list")); [safe|].
  destruct (decide (action = "get")) as [->|].
  { apply safe_bind; [by apply (Hindex True)|]. safe. }
  destruct (decide (action = "create")).
  { destruct (decide (entity = "workflows")).
    - apply safe_bind; [|safe]. unfold workflows.GenerateStarterWorkflowYAML. safe.
    - apply safe_bind; [|safe].
      intros w text. destruct (create_body_returns "Enter JSON data for creation:" params w)
        as (body & w1 & E).
      destruct params as [|p0 [|p1 ?]]; simpl in *; by rewrite E. }
  destruct (decide (action = "update")).
  { destruct params as [|id rest]; [safe|].
    apply safe_bind; [|safe].
    intros w text.
    destruct (create_body_returns "Enter JSON data for update:" rest w) as (body & w1 & E).
    destruct rest as [|p1 [|p2 ?]]; simpl in *; by rewrite E. }
  destruct (decide (action = "delete")) as [->|].
  { apply safe_bind; [by apply (Hindex True)|]. safe. }
  destruct (decide (action = "preview")).
  { destruct (decide (entity = "workflows")); [|safe].
    apply safe_bind; [apply safe_Preview|]. intros [confirmed [err|]]; [safe|].
    apply safe_bind; [destruct confirmed; safe|]. safe. }
  destruct (decide (action = "diff")).
  { destruct (decide (entity = "workflows")); [|safe].
    apply safe_bind; [apply safe_Diff|]. safe. }
  destruct (decide (action = "deploy")).
  { destruct (decide (entity = "workflows")); [|safe].
    apply safe_bind; [apply safe_Preview|]. intros [confirmed [err|]]; [safe|].
    destruct confirmed; safe. }
  destruct (decide (action = "activate" ∨ action = "deactivate")) as [Ha|]; [|safe].
  apply safe_bind; [|safe]. apply (Hindex True); [done|]. by destruct Ha as [-> | ->].
Qed.

Lemma safe_HandleEntityCommand sys entity args actions cfg :
  entities.Entities !! entity = Some actions →
  safe (entities.HandleEntityCommand sys entity args actions cfg).
Proof.
  intros He. unfold entities.HandleEntityCommand.
  destruct args as [|action params]; [safe|].
  destruct (decide _).
  { apply (safe_prints any_event), prints_PrintEntityHelp. done. }
  destruct (existsb _ _).
  { destruct (actions !! action); [|safe]. destruct (decide _); safe. }
  destruct (actions !! action) as [a|] eqn:Ha; [|safe].
  destruct (entities.NeedsID a && bool_decide (length (action :: params) < 2)%nat) eqn:Hguard;
    [safe|].
  apply safe_bind; [|intros [err|]; safe].
  apply safe_handleGenericEntityAction. intros Ht.
  destruct (registry_table_fits _ _ _ _ He Ha) as [Hneeds _].
  rewrite (Hneeds Ht) in Hguard. simpl in Hguard.
  apply bool_decide_eq_false in Hguard. destruct params; [simpl in Hguard; lia|done].
Qed.

Lemma safe_HandleLogin sys args : safe (entities.HandleLogin sys args).
Proof.
  unfold entities.HandleLogin. apply safe_bind.
  - unfold entities.HandleLogin_inputs.
    destruct (Flag.Parse _ _ _); [|safe..].
    apply safe_bind; [destruct (decide _); safe|]. intros baseURL.
    apply safe_bind; [destruct (decide _); safe|]. intros token. safe.
  - intros [baseURL token]. unfold entities.HandleLogin_save.
    destruct (decide _); [safe|].
    apply safe_bind; [|intros [err|]; safe].
    eapply safe_returns, returns_SaveConfig_saves.
Qed.

(** X1.  Whatever the command line, the files, the input and the
    surroundings, the tool returns or exits with a code; it never
    panics.  In particular the index [params[0]] of get, delete, activate
    and deactivate is always in range, because the registry marks these
    actions as needing an ID and the command is refused before the
    dispatch when the ID is missing; and the loop of [ReadStdin] comes to
    the end of the input. *)
Theorem Execute_never_panics sys (Args : list string) (w : World) (text : string) :
  fst (cmd.Execute sys Args w) ≠ Panic text.
Proof.
  revert w text. change (safe (cmd.Execute sys Args)).
  unfold cmd.Execute.
  destruct Args as [|prog [|entity args]].
  - apply safe_bind; [apply (safe_prints any_event), prints_PrintHelp; done|]. safe.
  - apply safe_bind; [apply (safe_prints any_event), prints_PrintHelp; done|]. safe.
  - destruct (decide _); [apply safe_HandleLogin|].
    destruct (decide _); [apply (safe_prints any_event), prints_PrintHelp; done|].
    destruct (entities.Entities !! entity) as [actions|] eqn:He.
    + apply safe_bind.
      { apply (safe_returns any_event), returns_LoadConfig. done. }
      intros [cfg|err]; [by apply safe_HandleEntityCommand|safe].
    + apply safe_bind; [safe|]. intros _.
      apply safe_bind; [apply (safe_prints any_event), prints_PrintHelp; done|]. safe.
Qed.

(** X2.  The dispatch itself relies on its caller for the ID: called
    with no parameter, get, delete, activate and deactivate panic on
    [params[0]] before anything else happens, while update returns the
    error [missing ID for update]; none of them sends a request. *)
Theorem dispatch_without_id sys entity action cfg w :
  action ∈ ["get"; "delete"; "activate"; "deactivate"; "update"] →
  if decide (action = "update") then
    entities.handleGenericEntityAction sys entity action [] cfg w
    = (Ret (Some (ErrorString "missing ID for update")), w)
  else
    ∃ text, entities.handleGenericEntityAction sys entity action [] cfg w
            = (Panic text, w).
Proof.
  intros Hin. repeat (apply elem_of_cons in Hin as [->|Hin]); [..|by apply elem_of_nil in Hin];
    simpl; by eexists.
Qed.

Lemma dispatch_without_id_witness :
  ∃ text, entities.handleGenericEntityAction (Sample.platform Sample.ok_200)
            "users" "get" [] Sample.cfg (Sample.empty_dir "")
          = (Panic text, Sample.empty_dir "").
Proof.
  apply (dispatch_without_id (Sample.platform Sample.ok_200) "users" "get"
           Sample.cfg (Sample.empty_dir "")).
  apply elem_of_cons. by left.
Defined.

(** ** The config file *)

Lemma Stat_not_exist path w :
  ∃ st, Stat path w = (Ret st, w) ∧ IsNotExist st = stat_not_exist w path.
Proof.
  unfold Stat, stat_not_exist. destruct (exists_ w path); [by eexists|].
  eexists. split; [done|]. simpl. by destruct (missing_errno w path).
Qed.

(** Where the config directory is there, or cannot be made for a reason
    that [os.IsNotExist] does not see, [configPath] leaves everything as
    it is. *)
Lemma configPath_settled w :
  HOME w ≠ "" → stat_not_exist w (config_dir w) = false →
  config.configPath w = (Ret (Ok (config_file w)), w).
Proof.
  intros Hhome Hstat. unfold config.configPath, bind at 1, UserHomeDir.
  destruct (decide (HOME w = "")); [done|].
  fold (config_dir w). fold (config_file w).
  destruct (Stat_not_exist (config_dir w) w) as (st & E & Hst).
  rewrite (bind_Ret _ _ _ _ _ E), Hst, Hstat. done.
Qed.

Lemma exists_insert w w1 path q data :
  files w1 = <[q := data]> (files w) → dirs w1 = dirs w →
  exists_ w path = true → exists_ w1 path = true.
Proof.
  unfold exists_, is_dir. intros -> ->. intros [H|H]%orb_true_iff; [|by rewrite H, orb_true_r].
  apply bool_decide_eq_true in H. apply orb_true_iff. left. apply bool_decide_eq_true.
  destruct (decide (q = path)) as [->|]; [by rewrite lookup_insert_eq|by rewrite lookup_insert_ne].
Qed.

Lemma stat_not_exist_insert w w1 path q data :
  files w1 = <[q := data]> (files w) → dirs w1 = dirs w →
  stat_not_exist w path = false → stat_not_exist w1 path = false.
Proof.
  intros Hf Hd. unfold stat_not_exist.
  destruct (exists_ w path) eqn:Hex.
  { by rewrite (exists_insert w w1 path q data Hf Hd Hex). }
  destruct (exists_ w1 path); [done|]. simpl.
  unfold missing_errno, parent_errno, is_dir. rewrite Hd.
  destruct (bool_decide (Filepath.Dir path = "." ∨ _)); [done|].
  destruct (bool_decide (is_Some (files w !! Filepath.Dir path))) eqn:Hdir; [|done].
  intros _. apply bool_decide_eq_true in Hdir.
  assert (is_Some (files w1 !! Filepath.Dir path)) as H.
  { rewrite Hf. destruct (decide (q = Filepath.Dir path)) as [->|];
      [by rewrite lookup_insert_eq|by rewrite lookup_insert_ne]. }
  by rewrite (bool_decide_eq_true_2 _ H).
Qed.

Lemma SaveConfig_done sys cfg w w1 :
  config.SaveConfig sys cfg w = (Ret None, w1) →
  HOME w1 = HOME w ∧ HOME w ≠ ""
  ∧ stat_not_exist w1 (config_dir w) = false
  ∧ files w1 !! config_file w = Some (json_Encode sys cfg).
Proof.
  unfold config.SaveConfig, config.configPath, bind, UserHomeDir, Stat, Mkdir,
    WriteFile, ret.
  destruct (decide (HOME w = "")); [done|]. cbv beta iota zeta.
  fold (config_dir w). fold (config_file w).
  assert (∀ w0, HOME w0 = HOME w →
            (if is_dir w0 (config_file w)
             then (Ret (Some (PathError "open" (config_file w) EISDIR)),
                   log (EvWriteFile (config_file w) (json_Encode sys cfg)) w0)
             else match parent_errno w0 (config_file w) with
                  | Some e => (Ret (Some (PathError "open" (config_file w) e)),
                               log (EvWriteFile (config_file w) (json_Encode sys cfg)) w0)
                  | None => (Ret None,
                             set_files (<[config_file w := json_Encode sys cfg]> (files w0))
                               (log (EvWriteFile (config_file w) (json_Encode sys cfg)) w0))
                  end) = (Ret None, w1) →
            HOME w1 = HOME w
            ∧ files w1 = <[config_file w := json_Encode sys cfg]> (files w0)
            ∧ dirs w1 = dirs w0) as Hwrite.
  { intros w0 Hh. destruct (is_dir w0 _); [done|]. destruct (parent_errno w0 _); [done|].
    intros [= <-]. done. }
  destruct (exists_ w (config_dir w)) eqn:Hex; cbn [IsNotExist].
  { intros H. destruct (Hwrite w eq_refl H) as (Hh & Hf & Hd).
    repeat split; [done|done| |by rewrite Hf, lookup_insert_eq].
    apply (stat_not_exist_insert w w1 _ _ _ Hf Hd). unfold stat_not_exist. by rewrite Hex. }
  destruct (missing_errno w (config_dir w)) eqn:Hmiss; cbv beta iota zeta.
  - rewrite Hex. destruct (parent_errno w (config_dir w)); [done|].
    intros H. apply Hwrite in H as (Hh & Hf & Hd); [|done].
    repeat split; [done|done| |by rewrite Hf, lookup_insert_eq].
    unfold stat_not_exist, exists_, is_dir. rewrite Hd. simpl.
    rewrite (bool_decide_eq_true_2 (_ ∨ _ ∨ _)); [by rewrite orb_true_r|].
    right. right. apply elem_of_union. left. by apply elem_of_singleton.
  - intros H. destruct (Hwrite w eq_refl H) as (Hh & Hf & Hd).
    repeat split; [done|done| |by rewrite Hf, lookup_insert_eq].
    apply (stat_not_exist_insert w w1 _ _ _ Hf Hd). unfold stat_not_exist. by rewrite Hex, Hmiss.
  - intros H. destruct (Hwrite w eq_refl H) as (Hh & Hf & Hd).
    repeat split; [done|done| |by rewrite Hf, lookup_insert_eq].
    apply (stat_not_exist_insert w w1 _ _ _ Hf Hd). unfold stat_not_exist. by rewrite Hex, Hmiss.
  - intros H. destruct (Hwrite w eq_refl H) as (Hh & Hf & Hd).
    repeat split; [done|done| |by rewrite Hf, lookup_insert_eq].
    apply (stat_not_exist_insert w w1 _ _ _ Hf Hd). unfold stat_not_exist. by rewrite Hex, Hmiss.
Qed.

(** X3.  What [SaveConfig] wrote, [LoadConfig] reads: after a
    [SaveConfig] that returned no error, [LoadConfig] returns what the
    JSON decoder makes of the encoding of the saved config, and leaves
    the files, the directories and the trace as they are.  With a decoder
    that inverts the encoder, that is the saved config. *)
Theorem saved_config_is_loaded sys cfg w w1 :
  config.SaveConfig sys cfg w = (Ret None, w1) →
  config.LoadConfig sys w1 = (Ret (json_Decode sys (json_Encode sys cfg)), w1)
  ∧ (json_Decode sys (json_Encode sys cfg) = Ok cfg →
     config.LoadConfig sys w1 = (Ret (Ok cfg), w1)).
Proof.
  intros Hsave. destruct (SaveConfig_done _ _ _ _ Hsave) as (Hh & Hhome & Hstat & Hfile).
  assert (config.LoadConfig sys w1 = (Ret (json_Decode sys (json_Encode sys cfg)), w1)) as E.
  { unfold config.LoadConfig.
    assert (config_dir w1 = config_dir w) as Hcd by (unfold config_dir; by rewrite Hh).
    assert (config_file w1 = config_file w) as Hcf by (unfold config_file; by rewrite Hcd).
    rewrite (bind_Ret _ _ _ _ _ (configPath_settled w1 ltac:(by rewrite Hh)
                                   ltac:(by rewrite Hcd))).
    rewrite Hcf. unfold bind, Open, ReadFile, exists_.
    rewrite Hfile. rewrite (bool_decide_eq_true_2 (is_Some _)); [|by eexists].
    cbn [orb]. cbv beta iota. by rewrite Hfile. }
  split; [exact E|]. intros Hround. by rewrite E, Hround.
Qed.

Lemma saved_config_is_loaded_witness :
  let sys := Sample.platform Sample.ok_200 in
  let w1 := snd (config.SaveConfig sys Sample.cfg (Sample.empty_dir "")) in
  config.LoadConfig sys w1 = (Ret (Ok Sample.cfg), w1).
Proof.
  intros sys w1.
  refine (proj2 (saved_config_is_loaded sys Sample.cfg (Sample.empty_dir "") w1 _) _).
  - vm_compute. reflexivity.
  - reflexivity.
Defined.

(** ** The requests of a command *)

Lemma requests_app evs1 evs2 : requests (evs1 ++ evs2) = requests evs1 ++ requests evs2.
Proof. apply omap_app. Qed.

(** What follows a computation adds its events after the events of the
    computation. *)
Lemma bind_adds {A B} P (m : M A) (k : A → M B) w evs1 :
  trace (snd (m w)) = trace w ++ evs1 →
  (∀ a, adds P (k a)) →
  ∃ evs2, trace (snd (bind m k w)) = trace w ++ evs1 ++ evs2 ∧ Forall P evs2.
Proof.
  intros E1 Hk. unfold bind. destruct (m w) as [[a|code|text] w1]; simpl in *.
  - destruct (Hk a w1) as (evs2 & E2 & H2). exists evs2.
    by rewrite E2, E1, app_assoc.
  - exists []. by rewrite app_nil_r.
  - exists []. by rewrite app_nil_r.
Qed.

Lemma no_request_stdout text : no_request (EvStdout text).
Proof. done. Qed.

Lemma no_request_stderr text : no_request (EvStderr text).
Proof. done. Qed.

#[local] Hint Resolve no_request_stdout no_request_stderr : effects.

Lemma HandleEntityCommand_requests sys entity args actions cfg w :
  ∃ evs,
    trace (snd (entities.HandleEntityCommand sys entity args actions cfg w))
    = trace w ++ evs
    ∧ (length (requests evs) ≤ 1)%nat
    ∧ ∀ req, req ∈ requests evs → Header req = header_of (APIToken cfg).
Proof.
  assert (∀ m : M unit, adds no_request m →
            ∃ evs, trace (snd (m w)) = trace w ++ evs
                   ∧ (length (requests evs) ≤ 1)%nat
                   ∧ ∀ req, req ∈ requests evs → Header req = header_of (APIToken cfg))
    as Hquiet.
  { intros m Hm. destruct (Hm w) as (evs & E & Hevs). exists evs.
    rewrite (Forall_no_request _ Hevs). split; [done|]. split; [simpl; lia|].
    intros req Hreq. by apply elem_of_nil in Hreq. }
  unfold entities.HandleEntityCommand.
  destruct args as [|action params]; [apply Hquiet; effects|].
  destruct (decide _).
  { apply Hquiet, adds_prints, prints_PrintEntityHelp. done. }
  destruct (existsb _ _).
  { apply Hquiet. destruct (actions !! action); [|effects]. destruct (decide _); effects. }
  destruct (actions !! action) as [a|]; [|apply Hquiet; effects].
  destruct (_ && _); [apply Hquiet; effects|].
  destruct (handleGeneric_requests sys entity action params cfg w) as (evs1 & E1 & H1).
  destruct (bind_adds no_request _
              (λ err : option error,
                 match err with
                 | Some err => bind (fmt_Print ("Error: " +:+ Error err +:+ nl)) (λ _, os_Exit 1)
                 | None => ret tt
                 end) w evs1 E1) as (evs2 & E2 & H2).
  { intros [err|]; effects. }
  exists (evs1 ++ evs2). split; [exact E2|].
  rewrite requests_app, (Forall_no_request _ H2), app_nil_r.
  destruct H1 as [->|(method & url & body & w1 & _ & ->)].
  - split; [simpl; lia|]. intros req Hreq. by apply elem_of_nil in Hreq.
  - split; [simpl; lia|]. intros req Hreq. apply list_elem_of_singleton in Hreq as ->. done.
Qed.

Lemma adds_HandleLogin sys args : adds no_request (entities.HandleLogin sys args).
Proof.
  unfold entities.HandleLogin. apply adds_bind.
  - unfold entities.HandleLogin_inputs.
    destruct (Flag.Parse _ _ _); [|effects..].
    apply adds_bind; [destruct (decide _); effects|]. intros baseURL.
    apply adds_bind; [destruct (decide _); effects|]. intros token. effects.
  - intros [baseURL token]. unfold entities.HandleLogin_save.
    destruct (decide _); [effects|].
    apply adds_bind; [|intros [err|]; effects].
    apply adds_returns. unfold config.SaveConfig.
    apply returns_bind; [by apply returns_configPath|]. intros ?. returns.
Qed.

(** X4.  A command line leads to at most one request, and a request is
    only sent with a config that [LoadConfig] could load: its header is
    the API token of that config under [X-N8N-API-KEY] and the content
    type [application/json].  So nothing is sent before a login.  And
    nothing is sent by the login itself, by the help, for a word that is
    no entity of the registry, or without a command. *)
Theorem command_sends_one_request_with_token sys (Args : list string) (w : World) :
  ∃ evs,
    trace (snd (cmd.Execute sys Args w)) = trace w ++ evs
    ∧ (length (requests evs) ≤ 1)%nat
    ∧ (∀ req, req ∈ requests evs →
         ∃ cfg, fst (config.LoadConfig sys w) = Ret (Ok cfg)
                ∧ Header req = header_of (APIToken cfg))
    ∧ ((∀ cfg, fst (config.LoadConfig sys w) ≠ Ret (Ok cfg)) → requests evs = [])
    ∧ (∀ prog entity args,
         Args = prog :: entity :: args →
         entity = "login" ∨ is_help_word entity = true
         ∨ entities.Entities !! entity = None →
         requests evs = [])
    ∧ ((length Args < 2)%nat → requests evs = []).
Proof.
  assert (∀ m : M unit, adds no_request m →
            ∃ evs, trace (snd (m w)) = trace w ++ evs
                   ∧ (length (requests evs) ≤ 1)%nat
                   ∧ (∀ req, req ∈ requests evs →
                        ∃ cfg, fst (config.LoadConfig sys w) = Ret (Ok cfg)
                               ∧ Header req = header_of (APIToken cfg))
                   ∧ ((∀ cfg, fst (config.LoadConfig sys w) ≠ Ret (Ok cfg)) →
                      requests evs = [])
                   ∧ (∀ prog entity args,
                        Args = prog :: entity :: args →
                        entity = "login" ∨ is_help_word entity = true
                        ∨ entities.Entities !! entity = None →
                        requests evs = [])
                   ∧ ((length Args < 2)%nat → requests evs = []))
    as Hquiet.
  { intros m Hm. destruct (Hm w) as (evs & E & Hevs). exists evs.
    rewrite (Forall_no_request _ Hevs). split; [done|]. split; [simpl; lia|].
    split; [|done]. intros req Hreq. by apply elem_of_nil in Hreq. }
  assert (adds no_request entities.PrintHelp) as Hhelp
    by (apply adds_prints, prints_PrintHelp; done).
  unfold cmd.Execute.
  destruct Args as [|prog [|entity args]];
    [apply Hquiet, adds_bind; [done|effects]..|].
  destruct (decide (entity = "login")) as [|Hlogin]; [apply Hquiet, adds_HandleLogin|].
  destruct (decide _) as [|Hword]; [by apply Hquiet|].
  destruct (entities.Entities !! entity) as [actions|] eqn:He.
  2: { apply Hquiet. apply adds_bind; [effects|]. intros _.
       apply adds_bind; [done|effects]. }
  assert (∀ evs : list event,
            (∀ prog' entity' args',
               prog :: entity :: args = prog' :: entity' :: args' →
               entity' = "login" ∨ is_help_word entity' = true
               ∨ entities.Entities !! entity' = None →
               requests evs = [])
            ∧ ((length (prog :: entity :: args) < 2)%nat → requests evs = []))
    as Hentity.
  { intros evs. split; [|cbn [length]; lia].
    intros prog' entity' args' [= <- <- <-] [?|[Hw|?]]; [done| |congruence].
    exfalso. apply Hword. apply bool_decide_eq_true in Hw.
    rewrite !elem_of_cons in Hw. destruct Hw as [?|[?|[?|Hw]]]; [tauto..|].
    by apply elem_of_nil in Hw. }
  destruct (returns_LoadConfig no_request sys ltac:(done) w)
    as (r & w1 & evs0 & E & _ & Et & Hevs0).
  unfold bind. rewrite E. simpl.
  destruct r as [cfg|err].
  - destruct (HandleEntityCommand_requests sys entity args actions cfg w1)
      as (evs & E1 & Hlen & Hhdr).
    exists (evs0 ++ evs). rewrite E1, Et, app_assoc. split; [done|].
    rewrite requests_app, (Forall_no_request _ Hevs0). cbn [app].
    split; [done|]. split; [|split; [|apply Hentity]].
    + intros req Hreq. exists cfg. split; [done|by apply Hhdr].
    + intros Hno. by destruct (Hno cfg).
  - exists (evs0 ++ [EvStdout ("Error loading config: " +:+ Error err +:+ nl
                               +:+ "Please run `n8nctl login` first." +:+ nl)]).
    simpl. rewrite Et, app_assoc. split; [done|].
    rewrite requests_app, (Forall_no_request _ Hevs0). simpl.
    split; [lia|]. split; [|split; [done|exact (Hentity [])]].
    intros req Hreq. by apply elem_of_nil in Hreq.
Qed.

Lemma configPath_result w :
  ∃ r w0, config.configPath w = (Ret r, w0) ∧ files w0 = files w
          ∧ ∀ path, r = Ok path → path = config_file w.
Proof.
  unfold config.configPath, bind, UserHomeDir, Stat, Mkdir, ret.
  destruct (decide (HOME w = "")); [by eexists _, _|]. cbv beta iota zeta.
  fold (config_dir w). fold (config_file w).
  destruct (exists_ w (config_dir w)) eqn:Hex.
  { eexists _, _. repeat split. by intros path [= <-]. }
  cbn [IsNotExist]. destruct (missing_errno w (config_dir w)); cbv beta iota zeta;
    rewrite ?Hex; try (eexists _, _; repeat split; by intros path [= <-]).
  destruct (parent_errno w (config_dir w)); eexists _, _; repeat split; try done.
  by intros path [= <-].
Qed.

(** Without a config file, [LoadConfig] returns an error. *)
Lemma LoadConfig_no_file sys w :
  files w !! config_file w = None →
  ∃ err w0, config.LoadConfig sys w = (Ret (Err err), w0).
Proof.
  intros Hnone. destruct (configPath_result w) as (r & w0 & E & Hf & Hpath).
  unfold config.LoadConfig. rewrite (bind_Ret _ _ _ _ _ E).
  destruct r as [path|err]; [|by eexists _, _].
  rewrite (Hpath _ eq_refl). unfold bind, Open, ReadFile.
  destruct (exists_ w0 _); [|by eexists _, _]. rewrite Hf, Hnone.
  destruct (is_dir w0 _); by eexists _, _.
Qed.

(** X5.  Before a login, when there is no config file, every command on
    an entity of the registry, its [--help] and [--schema] among them,
    ends with exit code 1: [LoadConfig] fails, the process prints
    [Error loading config:] with the error and the advice to log in, and
    the command itself is not looked at. *)
Theorem entity_command_needs_config sys prog entity actions args w :
  entities.Entities !! entity = Some actions →
  files w !! config_file w = None →
  ∃ err w0,
    config.LoadConfig sys w = (Ret (Err err), w0)
    ∧ cmd.Execute sys (prog :: entity :: args) w
      = (Exit 1, log (EvStdout ("Error loading config: " +:+ Error err +:+ nl
                                +:+ "Please run `n8nctl login` first." +:+ nl)) w0).
Proof.
  intros He Hnone. destruct (LoadConfig_no_file sys w Hnone) as (err & w0 & E).
  exists err, w0. split; [exact E|].
  assert (entity ∉ ["login"; "--help"; "-h"; "help"]) as Hplain.
  { intros Hin.
    repeat (apply elem_of_cons in Hin as [->|Hin]); [..|by apply elem_of_nil in Hin];
      revert He; vm_compute; discriminate. }
  unfold cmd.Execute.
  destruct (decide (entity = "login")) as [->|];
    [exfalso; apply Hplain; rewrite !elem_of_cons; auto|].
  destruct (decide _) as [Hh|];
    [exfalso; apply Hplain; rewrite !elem_of_cons; tauto|].
  rewrite He. unfold bind at 1. by rewrite E.
Qed.

Lemma entity_command_needs_config_witness :
  ∃ err w0,
    config.LoadConfig (Sample.platform Sample.ok_200) (Sample.empty_dir "")
    = (Ret (Err err), w0)
    ∧ cmd.Execute (Sample.platform Sample.ok_200) ["n8nctl"; "users"; "--help"]
        (Sample.empty_dir "")
      = (Exit 1, log (EvStdout ("Error loading config: " +:+ Error err +:+ nl
                                +:+ "Please run `n8nctl login` first." +:+ nl)) w0).
Proof.
  apply (entity_command_needs_config (Sample.platform Sample.ok_200) "n8nctl" "users"
           users_actions ["--help"] (Sample.empty_dir "")).
  - vm_compute. reflexivity.
  - vm_compute. reflexivity.
Defined.

(** ** The dispatch *)

Lemma says_prints {A} P (m : M A) : prints P m → says P m.
Proof. intros Hm w. destruct (Hm w) as (a & evs & -> & H). by exists evs. Qed.

Lemma says_bind {A B} P (m : M A) (k : A → M B) :
  says P m → (∀ a, says P (k a)) → says P (bind m k).
Proof.
  intros Hm Hk w. destruct (Hm w) as (evs1 & E1 & H1). unfold bind.
  destruct (m w) as [[a|code|text] w1]; simpl in *; subst w1.
  - destruct (Hk a (logs evs1 w)) as (evs2 & E2 & H2). exists (evs1 ++ evs2).
    rewrite E2, logs_logs. split; [done|]. by apply Forall_app.
  - by exists evs1.
  - by exists evs1.
Qed.

Lemma says_Exit {A} P code : says P (@os_Exit A code).
Proof. intros w. exists []. by rewrite logs_nil. Qed.

Ltac says_step :=
  match goal with
  | |- ∀ _, says _ _ => intros ?
  | |- says _ (bind _ _) => apply says_bind; [|intros ?]
  | |- says _ (os_Exit _) => apply says_Exit
  | |- says _ (match ?x with _ => _ end) => destruct x
  | |- says _ _ => apply says_prints; solve [effects]
  end.

Ltac says := repeat says_step.

(** X6.  The registry and the [switch] of the dispatch agree but for
    one pair: an action without a case in the [switch] is answered by the
    error [action A not implemented for entity E], with nothing sent or
    printed; of the registered pairs exactly rollback on workflows is
    such an action, so that [workflows rollback] is listed by the help
    and yet ends with that error and exit code 1. *)
Theorem registry_matches_switch_but_rollback :
  (∀ sys entity action params cfg w,
     implemented action = false →
     entities.handleGenericEntityAction sys entity action params cfg w
     = (Ret (Some (ErrorString ("action " +:+ action +:+ " not implemented for entity "
                                +:+ entity))), w))
  ∧ (∀ entity actions action a,
       entities.Entities !! entity = Some actions →
       actions !! action = Some a →
       implemented action = false ↔ entity = "workflows" ∧ action = "rollback")
  ∧ (∀ sys actions params cfg w,
       entities.Entities !! "workflows" = Some actions →
       "--schema" ∉ params →
       entities.HandleEntityCommand sys "workflows" ("rollback" :: params) actions cfg w
       = (Exit 1, log (EvStdout ("Error: action rollback not implemented for entity workflows"
                                 +:+ nl)) w)).
Proof.
  assert (∀ sys entity action params cfg w,
     implemented action = false →
     entities.handleGenericEntityAction sys entity action params cfg w
     = (Ret (Some (ErrorString ("action " +:+ action +:+ " not implemented for entity "
                                +:+ entity))), w)) as Hswitch.
  { intros sys entity action params cfg w Himpl.
    apply bool_decide_eq_false in Himpl. rewrite !elem_of_cons in Himpl.
    unfold entities.handleGenericEntityAction, entities.handleGenericEntityAction_switch.
    repeat (destruct (decide _) as [?|?]; [exfalso; tauto|]). reflexivity. }
  split; [exact Hswitch|]. split.
  - intros entity actions action a He Ha.
    assert (only_rollback_missing entity action a = true) as H.
    { revert He Ha. apply registry_check. vm_compute. reflexivity. }
    by apply bool_decide_eq_true in H.
  - intros sys actions params cfg w He Hschema.
    assert (actions = workflows_actions) as ->
      by (unfold workflows_actions; by rewrite He).
    assert (workflows_actions !! "rollback"
            = Some {| entities.Description := "Rollback a workflow instance";
                      entities.NeedsID := false; entities.Schema := "" |}) as Ha
      by (vm_compute; reflexivity).
    unfold entities.HandleEntityCommand.
    destruct (decide _) as [[?|?]|_]; [done..|].
    assert (existsb (λ arg, bool_decide (arg = "--schema")) ("rollback" :: params) = false)
      as ->.
    { simpl. apply not_true_is_false. intros (x & Hx & Hb)%existsb_exists.
      apply bool_decide_eq_true in Hb as ->. apply Hschema. by apply list_elem_of_In. }
    rewrite Ha. cbn [entities.NeedsID andb]. unfold bind at 1.
    rewrite (Hswitch sys "workflows" "rollback" params cfg w eq_refl). reflexivity.
Qed.

Lemma is_stdout_stdout text : is_stdout (EvStdout text).
Proof. done. Qed.

#[local] Hint Resolve is_stdout_stdout : effects.

Lemma existsb_schema (args : list string) :
  existsb (λ arg, bool_decide (arg = "--schema")) args = true ↔ "--schema" ∈ args.
Proof.
  rewrite existsb_exists. split.
  - intros (x & Hx & Hb). apply bool_decide_eq_true in Hb as ->. by apply list_elem_of_In.
  - intros Hin. exists "--schema". split; [by apply list_elem_of_In|done].
Qed.

(** X7.  With [--schema] anywhere among its arguments, a command on an
    entity only prints: whatever the action and the other arguments are,
    nothing is sent, read from the standard input, or written.  For an
    action of the entity it prints the schema of the action, or that
    there is none, and returns; for another action it prints
    [Unknown action] and exits with code 1. *)
Theorem schema_flag_only_prints sys entity args actions cfg w :
  "--schema" ∈ args →
  (∃ evs, snd (entities.HandleEntityCommand sys entity args actions cfg w) = logs evs w
          ∧ Forall is_stdout evs)
  ∧ ∀ action params,
      args = action :: params → action ∉ ["--help"; "-h"] →
      entities.HandleEntityCommand sys entity args actions cfg w
      = match actions !! action with
        | None =>
            (Exit 1, log (EvStdout ("Unknown action for " +:+ entity +:+ ": "
                                    +:+ action +:+ nl)) w)
        | Some a =>
            if decide (entities.Schema a = "") then
              (Ret tt, log (EvStdout ("No schema available for action " +:+ action
                                      +:+ " on entity " +:+ entity +:+ nl)) w)
            else
              (Ret tt, logs [EvStdout ("Schema for " +:+ entity +:+ " " +:+ action
                                       +:+ ":" +:+ nl);
                             EvStdout (entities.Schema a +:+ nl)] w)
        end.
Proof.
  intros Hin. pose proof (proj2 (existsb_schema args) Hin) as Hflag. split.
  - revert w. change (says is_stdout (entities.HandleEntityCommand sys entity args actions cfg)).
    unfold entities.HandleEntityCommand. destruct args as [|action params]; [says|].
    rewrite Hflag. destruct (decide _).
    { apply says_prints, prints_PrintEntityHelp. done. }
    destruct (actions !! action); [|says]. destruct (decide _); says.
  - intros action params -> Hhelp. unfold entities.HandleEntityCommand.
    rewrite Hflag. destruct (decide _) as [Hh|_].
    { exfalso. apply Hhelp. rewrite !elem_of_cons. tauto. }
    destruct (actions !! action) as [a|]; [|reflexivity].
    destruct (decide _); [reflexivity|].
    rewrite bind_Print. unfold fmt_Println, fmt_Print. by rewrite !log_logs, logs_logs.
Qed.

Lemma schema_flag_only_prints_witness :
  ∃ evs,
    snd (entities.HandleEntityCommand (Sample.platform Sample.ok_200) "users"
           ["create"; "--data"; "{}"; "--schema"] users_actions Sample.cfg
           (Sample.empty_dir "{}"))
    = logs evs (Sample.empty_dir "{}")
    ∧ Forall is_stdout evs.
Proof.
  apply (schema_flag_only_prints (Sample.platform Sample.ok_200) "users"
           ["create"; "--data"; "{}"; "--schema"] users_actions Sample.cfg
           (Sample.empty_dir "{}")).
  rewrite !elem_of_cons. auto.
Defined.

(** X8.  The body of create and update.  When the parameters after the
    action (for update: after the ID) start with [--data] and a value,
    that value is the body and the standard input is not touched.
    Otherwise the tool prints its prompt and the body is all that is left
    on the standard input, without the white space around it; a [--data]
    that is not in that place, or has no value, does not count. *)
Theorem body_from_flag_or_stdin sys entity cfg w :
  entity ≠ "workflows" →
  let basePath := Strings.ToLower (BaseURL cfg) +:+ "/api/v1/" +:+ entity in
  let asked prompt := set_stdin "" (log (EvStdout (prompt +:+ nl)) w) in
  (∀ body rest,
     entities.handleGenericEntityAction_switch sys entity "create"
       ("--data" :: body :: rest) cfg w
     = (Ret (entities.ToSend "POST" basePath body), w))
  ∧ (∀ params,
       (∀ body rest, params ≠ "--data" :: body :: rest) →
       entities.handleGenericEntityAction_switch sys entity "create" params cfg w
       = (Ret (entities.ToSend "POST" basePath (Strings.TrimSpace (stdin w))),
          asked "Enter JSON data for creation:"))
  ∧ (∀ id body rest,
       entities.handleGenericEntityAction_switch sys entity "update"
         (id :: "--data" :: body :: rest) cfg w
       = (Ret (entities.ToSend "PATCH" (basePath +:+ "/" +:+ id) body), w))
  ∧ (∀ id params,
       (∀ body rest, params ≠ "--data" :: body :: rest) →
       entities.handleGenericEntityAction_switch sys entity "update" (id :: params) cfg w
       = (Ret (entities.ToSend "PATCH" (basePath +:+ "/" +:+ id)
                 (Strings.TrimSpace (stdin w))),
          asked "Enter JSON data for update:")).
Proof.
  intros Hentity basePath asked.
  assert (∀ prompt, bind (fmt_Println prompt) (λ _, utils.ReadStdin) w
                    = (Ret (Strings.TrimSpace (stdin w)), asked prompt)) as Hask.
  { intros prompt. by rewrite bind_Println, ReadStdin_all. }
  unfold entities.handleGenericEntityAction_switch. fold basePath.
  split; [|split; [|split]].
  - intros body rest. simpl. by destruct (decide (entity = "workflows")).
  - intros params Hparams. simpl. destruct (decide (entity = "workflows")); [done|].
    unfold bind at 1.
    destruct params as [|p0 [|p1 rest]]; rewrite ?Hask; try done.
    destruct (decide (p0 = "--data")) as [->|]; [by destruct (Hparams p1 rest)|].
    by rewrite Hask.
  - intros id body rest. reflexivity.
  - intros id params Hparams. simpl. unfold bind at 1.
    destruct params as [|p1 [|p2 rest]]; rewrite ?Hask; try done.
    destruct (decide (p1 = "--data")) as [->|]; [by destruct (Hparams p2 rest)|].
    by rewrite Hask.
Qed.

Lemma body_from_flag_or_stdin_witness :
  entities.handleGenericEntityAction_switch (Sample.platform Sample.ok_200) "users" "create"
    ["--data"] Sample.cfg (Sample.empty_dir (" {} " +:+ nl))
  = (Ret (entities.ToSend "POST" "https://n8n.example/api/v1/users" "{}"),
     set_stdin "" (log (EvStdout ("Enter JSON data for creation:" +:+ nl))
                     (Sample.empty_dir (" {} " +:+ nl)))).
Proof.
  refine (proj1 (proj2 (body_from_flag_or_stdin (Sample.platform Sample.ok_200) "users"
                          Sample.cfg (Sample.empty_dir (" {} " +:+ nl)) _))
            ["--data"] _).
  - discriminate.
  - intros body rest. discriminate.
Defined.

(** X9.  When the request of an action is answered with a status from
    200 to 299, the action returns no error, and after the request it
    prints one text: for delete the line [ENTITY delete successful], and
    for every other action the body of the answer, indented by
    [json.Indent], or the body as it is when that fails. *)
Theorem success_prints_the_answer
    sys entity action params cfg w method url body w1 resp data :
  entities.handleGenericEntityAction_switch sys entity action params cfg w
  = (Ret (entities.ToSend method url body), w1) →
  NewRequest_error sys method url = None →
  client_Do sys (request_of method url body (APIToken cfg)) = Ok resp →
  Body resp = Ok data →
  200 <= StatusCode resp < 300 →
  entities.handleGenericEntityAction sys entity action params cfg w
  = (Ret None,
     logs [EvHTTP (request_of method url body (APIToken cfg));
           EvStdout (success_text sys entity action data)] w1).
Proof.
  intros Hswitch Hnew Hdo Hbody Hcode.
  unfold entities.handleGenericEntityAction. rewrite (bind_Ret _ _ _ _ _ Hswitch).
  unfold entities.n8nAPIRequest. rewrite Hnew.
  fold (request_of method url body (APIToken cfg)). rewrite Hdo, Hbody.
  rewrite (bool_decide_eq_false_2 (_ ∨ _)) by lia.
  unfold bind, ret. cbv beta iota.
  unfold success_text, utils.PrintJSONResponse.
  destruct (decide (action = "delete")); [|destruct (json_Indent sys data)];
    unfold bind, fmt_Println, fmt_Print, ret; cbv beta iota;
    by rewrite !log_logs, !logs_logs.
Qed.

Lemma success_prints_the_answer_witness :
  entities.handleGenericEntityAction (Sample.platform Sample.ok_200) "users" "list" []
    Sample.cfg (Sample.empty_dir "")
  = (Ret None,
     logs [EvHTTP (request_of "GET" "https://n8n.example/api/v1/users" "" "secret");
           EvStdout ("[]" +:+ nl)] (Sample.empty_dir "")).
Proof.
  apply (success_prints_the_answer (Sample.platform Sample.ok_200) "users" "list" []
           Sample.cfg (Sample.empty_dir "") "GET" "https://n8n.example/api/v1/users" ""
           (Sample.empty_dir "") Sample.ok_200 "[]");
    [reflexivity..|simpl; lia].
Defined.

(** X10.  The general help and the answer to an unknown entity only
    print: with no argument, with [--help], [-h] or [help], or with a
    first argument that is neither [login] nor an entity of the registry,
    the tool writes to the standard output and does nothing else; the
    config is not loaded and its directory is not made.  The exit code is
    0 (a return) for the three help words and 1 otherwise. *)
Theorem help_and_unknown_entity_only_print sys (Args : list string) (w : World) :
  (∀ entity, Args !! 1%nat = Some entity →
     entity ≠ "login" ∧ entities.Entities !! entity = None) →
  ∃ evs,
    Forall is_stdout evs
    ∧ cmd.Execute sys Args w
      = (match Args !! 1%nat with
         | Some entity => if is_help_word entity then Ret tt else Exit 1
         | None => Exit 1
         end, logs evs w).
Proof.
  intros Hentity.
  assert (∀ w0, ∃ evs, entities.PrintHelp w0 = (Ret tt, logs evs w0) ∧ Forall is_stdout evs)
    as Hhelp.
  { intros w0.
    destruct (prints_PrintHelp is_stdout is_stdout_stdout w0) as ([] & evs & E & H).
    exists evs. split; [exact E|exact H]. }
  unfold cmd.Execute. destruct Args as [|prog [|entity args]].
  - change (([] : list string) !! 1%nat) with (@None string).
    destruct (Hhelp w) as (evs & E & H). exists evs. unfold bind. rewrite E.
    split; [exact H|reflexivity].
  - change ([prog] !! 1%nat) with (@None string).
    destruct (Hhelp w) as (evs & E & H). exists evs. unfold bind. rewrite E.
    split; [exact H|reflexivity].
  - change ((prog :: entity :: args) !! 1%nat) with (Some entity).
    destruct (Hentity entity eq_refl) as [Hlogin Hnone].
    destruct (decide (entity = "login")); [done|].
    unfold is_help_word. destruct (decide _) as [Hh|Hh].
    + destruct (Hhelp w) as (evs & E & H). exists evs.
      rewrite bool_decide_eq_true_2; [split; [exact H|exact E]|].
      rewrite !elem_of_cons. tauto.
    + rewrite Hnone, bind_Print. destruct (Hhelp (log (EvStdout
        ("Unknown entity: " +:+ entity +:+ nl +:+ nl)) w)) as (evs & E & H).
      exists (EvStdout ("Unknown entity: " +:+ entity +:+ nl +:+ nl) :: evs).
      split; [by constructor|].
      rewrite bool_decide_eq_false_2.
      2: { rewrite !elem_of_cons, elem_of_nil. tauto. }
      unfold bind. rewrite E. rewrite log_logs, logs_logs. reflexivity.
Qed.

Lemma help_and_unknown_entity_only_print_witness :
  ∃ evs,
    Forall is_stdout evs
    ∧ cmd.Execute (Sample.platform Sample.ok_200) ["n8nctl"; "workflow"; "list"]
        (Sample.empty_dir "")
      = (Exit 1, logs evs (Sample.empty_dir "")).
Proof.
  apply (help_and_unknown_entity_only_print (Sample.platform Sample.ok_200)
           ["n8nctl"; "workflow"; "list"] (Sample.empty_dir "")).
  intros entity [= <-]. split; [discriminate|vm_compute; reflexivity].
Defined.

(** ** The preview flow, from the source to the prompt *)

(** With a source and its JSON, the flow comes to the diff step with
    nothing changed but the trace. *)
Lemma Preview_to_diff sys w src json :
  preview_source w = Ok src →
  yq_Output sys src = Ok json →
  workflows.PreviewWorkflowJSONWithPrompt sys w
  = (diffed <-
       match files w !! ".out/workflow.json" with
       | Some oldJSONBytes =>
           fmt_Println (nl +:+ "Showing diff between existing and new workflow JSON:") ;;
           utils.RunDiff sys oldJSONBytes json
       | None =>
           fmt_Println (nl +:+ "No existing .out/workflow.json found, skipping diff.") ;;
           ret None
       end ;;
     match diffed with
     | Some err => ret (false, Some err)
     | None =>
         fmt_Print (nl +:+ "Write this JSON to .out/workflow.json? (y/N): ") ;;
         '(answer, _) <- stdin_ReadString ;;
         let answer := Strings.TrimSpace (Strings.ToLower answer) in
         if bool_decide (answer = "y" ∨ answer = "yes") then
           st <- Stat ".out" ;;
           mk <- (if IsNotExist st then Mkdir ".out" else ret None) ;;
           match mk with
           | Some err =>
               ret (false, Some (WrapError "failed to create .out directory: " err))
           | None =>
               wr <- WriteFile ".out/workflow.json" json ;;
               match wr with
               | Some err =>
                   ret (false, Some (WrapError "failed to write .out/workflow.json: " err))
               | None =>
                   fmt_Println (nl +:+ "Saved to .out/workflow.json") ;;
                   ret (true, None)
               end
           end
         else
           fmt_Println "Aborted, no changes written." ;;
           ret (false, None)
     end)%go (logs (previewed src json) w).
Proof.
  intros Hsrc Hyq. by rewrite (Preview_to_yq sys w src Hsrc), Hyq.
Qed.

(** What [RunDiff] does and returns, by the answers of its
    surroundings. *)
Lemma RunDiff_result sys oldJSON newJSON w :
  utils.RunDiff sys oldJSON newJSON w
  = match CreateTemp_result sys "oldworkflow-*.json" with
    | Err err =>
        (Ret (Some (WrapError "failed to create temp file for old JSON: " err)),
         logs [EvCreateTemp "oldworkflow-*.json"] w)
    | Ok oldTmp =>
        match Write_error sys oldTmp oldJSON with
        | Some err =>
            (Ret (Some (WrapError "failed to write old JSON to temp file: " err)),
             logs [EvCreateTemp "oldworkflow-*.json"; EvWriteTemp oldTmp oldJSON;
                   EvRemove oldTmp] w)
        | None =>
            match CreateTemp_result sys "newworkflow-*.json" with
            | Err err =>
                (Ret (Some (WrapError "failed to create temp file for new JSON: " err)),
                 logs [EvCreateTemp "oldworkflow-*.json"; EvWriteTemp oldTmp oldJSON;
                       EvCreateTemp "newworkflow-*.json"; EvRemove oldTmp] w)
            | Ok newTmp =>
                let made := temps_written oldTmp newTmp oldJSON newJSON in
                let started := made ++ [EvDiff (diff_name sys) oldJSON newJSON] in
                let removed := temps_removed oldTmp newTmp in
                match Write_error sys newTmp newJSON with
                | Some err =>
                    (Ret (Some (WrapError "failed to write new JSON to temp file: " err)),
                     logs (made ++ removed) w)
                | None =>
                    match diff_Run sys (diff_name sys) oldJSON newJSON with
                    | NotStarted err =>
                        (Ret (Some (WrapError "diff command failed: " err)),
                         logs (started ++ removed) w)
                    | Exited code =>
                        if decide (code = 0) then
                          (Ret None,
                           logs (started
                                 ++ [EvStdout ("No differences detected." +:+ nl)]
                                 ++ removed) w)
                        else if decide (code = 1) then
                          (Ret None, logs (started ++ removed) w)
                        else
                          (Ret (Some (WrapError "diff command failed: "
                                        (ErrorString ("exit status " +:+ pretty code)))),
                           logs (started ++ removed) w)
                    end
                end
            end
        end
    end.
Proof.
  unfold utils.RunDiff, utils.CreateTemp, utils.temp_Write, utils.Remove, diff_name.
  unfold bind at 1.
  destruct (CreateTemp_result sys "oldworkflow-*.json") as [oldTmp|e1]; [|reflexivity].
  unfold defer at 1, bind at 1.
  destruct (Write_error sys oldTmp oldJSON) as [e2|].
  { unfold ret. cbn [snd]. by rewrite !log_logs, !logs_logs. }
  unfold bind at 1.
  destruct (CreateTemp_result sys "newworkflow-*.json") as [newTmp|e3].
  2: { unfold ret. cbn [snd]. by rewrite !log_logs, !logs_logs. }
  unfold defer at 1, bind at 1.
  destruct (Write_error sys newTmp newJSON) as [e4|].
  { unfold ret. cbn [snd]. by rewrite !log_logs, !logs_logs. }
  unfold bind at 1.
  destruct (diff_Run sys _ oldJSON newJSON) as [code|err].
  2: { unfold ret. cbn [snd]. by rewrite !log_logs, !logs_logs. }
  destruct (decide (code = 0)).
  { rewrite bind_Println. unfold ret. cbn [snd]. by rewrite !log_logs, !logs_logs. }
  destruct (decide (code = 1)); unfold ret; cbn [snd]; by rewrite !log_logs, !logs_logs.
Qed.

(** [RunDiff] where the temporary files can be made and written. *)
Lemma RunDiff_runs sys oldJSON newJSON oldTmp newTmp w :
  temp_files sys oldJSON newJSON = Some (oldTmp, newTmp) →
  let started := temps_written oldTmp newTmp oldJSON newJSON
                 ++ [EvDiff (diff_name sys) oldJSON newJSON] in
  let removed := temps_removed oldTmp newTmp in
  utils.RunDiff sys oldJSON newJSON w
  = match diff_Run sys (diff_name sys) oldJSON newJSON with
    | NotStarted err =>
        (Ret (Some (WrapError "diff command failed: " err)), logs (started ++ removed) w)
    | Exited code =>
        if decide (code = 0) then
          (Ret None,
           logs (started ++ [EvStdout ("No differences detected." +:+ nl)] ++ removed) w)
        else if decide (code = 1) then
          (Ret None, logs (started ++ removed) w)
        else
          (Ret (Some (WrapError "diff command failed: "
                        (ErrorString ("exit status " +:+ pretty code)))),
           logs (started ++ removed) w)
    end.
Proof.
  unfold temp_files. intros Htmp. rewrite RunDiff_result.
  destruct (CreateTemp_result sys "oldworkflow-*.json") as [oldTmp'|?]; [|done].
  destruct (Write_error sys oldTmp' oldJSON); [done|].
  destruct (CreateTemp_result sys "newworkflow-*.json") as [newTmp'|?]; [|done].
  destruct (Write_error sys newTmp' newJSON); [done|].
  by injection Htmp as -> ->.
Qed.

Lemma temps_left_removed oldTmp newTmp oldJSON newJSON (mid : list event) :
  Forall (λ e, match e with EvWriteTemp _ _ => False | _ => True end) mid →
  temps_left (temps_written oldTmp newTmp oldJSON newJSON ++ mid
              ++ temps_removed oldTmp newTmp) = [].
Proof.
  intros Hmid.
  assert (temps_left (mid ++ temps_removed oldTmp newTmp) = []) as Hleft.
  { induction Hmid as [|e mid He _ IH]; [reflexivity|].
    destruct e; first [exact IH | destruct He]. }
  assert (∀ name, name = oldTmp ∨ name = newTmp →
            existsb (λ e, match e with
                          | EvRemove name' => bool_decide (name' = name)
                          | _ => false
                          end) (mid ++ temps_removed oldTmp newTmp) = true) as Hex.
  { intros name Hname. rewrite existsb_app. cbn [temps_removed existsb].
    destruct Hname as [-> | ->].
    - rewrite (bool_decide_eq_true_2 (oldTmp = oldTmp) eq_refl). by rewrite !orb_true_r.
    - rewrite (bool_decide_eq_true_2 (newTmp = newTmp) eq_refl). by rewrite !orb_true_r. }
  cbn [temps_written app temps_left existsb orb].
  rewrite !Hex by tauto. exact Hleft.
Qed.

(** However [RunDiff] ends, it has made requests of nothing and written
    no file of the state, and the temporary files that it made are
    removed. *)
Lemma RunDiff_tidy sys oldJSON newJSON w :
  ∃ evs,
    snd (utils.RunDiff sys oldJSON newJSON w) = logs evs w
    ∧ Forall local_effect evs
    ∧ temps_left evs = [].
Proof.
  rewrite RunDiff_result.
  destruct (CreateTemp_result sys "oldworkflow-*.json") as [oldTmp|e1].
  2: { eexists. split; [reflexivity|]. split; [by repeat constructor|done]. }
  destruct (Write_error sys oldTmp oldJSON) as [e2|].
  { eexists. split; [reflexivity|]. split; [by repeat constructor|].
    cbn. by rewrite (bool_decide_eq_true_2 (oldTmp = oldTmp) eq_refl). }
  destruct (CreateTemp_result sys "newworkflow-*.json") as [newTmp|e3].
  2: { eexists. split; [reflexivity|]. split; [by repeat constructor|].
       cbn. by rewrite (bool_decide_eq_true_2 (oldTmp = oldTmp) eq_refl). }
  cbv zeta.
  destruct (Write_error sys newTmp newJSON) as [e4|].
  { eexists. split; [reflexivity|]. split; [by repeat constructor|].
    apply (temps_left_removed oldTmp newTmp oldJSON newJSON []). constructor. }
  assert (∀ mid : list event,
            Forall local_effect mid →
            Forall (λ e, match e with EvWriteTemp _ _ => False | _ => True end) mid →
            ∀ r : outcome (option error),
            ∃ evs,
              snd (r, logs (temps_written oldTmp newTmp oldJSON newJSON ++ mid
                            ++ temps_removed oldTmp newTmp) w) = logs evs w
              ∧ Forall local_effect evs ∧ temps_left evs = []) as Hend.
  { intros mid H1 H2 r. eexists. split; [reflexivity|]. split.
    - rewrite !Forall_app. split; [by repeat constructor|].
      split; [exact H1|by repeat constructor].
    - by apply temps_left_removed. }
  destruct (diff_Run sys _ oldJSON newJSON) as [code|err].
  2: { rewrite <- app_assoc. apply Hend; by repeat constructor. }
  destruct (decide (code = 0)).
  { rewrite <- !app_assoc. apply (Hend [_; _]); by repeat constructor. }
  destruct (decide (code = 1)); rewrite <- app_assoc; apply Hend; by repeat constructor.
Qed.

Lemma Dir_dot_out : Filepath.Dir ".out" = ".".
Proof. vm_compute. reflexivity. Qed.

Lemma Dir_cache : Filepath.Dir ".out/workflow.json" = ".out".
Proof. vm_compute. reflexivity. Qed.

(** The save step of the preview flow, where [.out] is a directory or
    can be made. *)
Lemma save_tail_saves json w :
  files w !! ".out" = None → ".out/workflow.json" ∉ dirs w →
  ∃ w',
    (st <- Stat ".out" ;;
     mk <- (if IsNotExist st then Mkdir ".out" else ret None) ;;
     match mk with
     | Some err =>
         ret (false, Some (WrapError "failed to create .out directory: " err))
     | None =>
         wr <- WriteFile ".out/workflow.json" json ;;
         match wr with
         | Some err =>
             ret (false, Some (WrapError "failed to write .out/workflow.json: " err))
         | None =>
             fmt_Println (nl +:+ "Saved to .out/workflow.json") ;;
             ret (true, None)
         end
     end)%go w = (Ret (true, None), w')
    ∧ files w' = <[".out/workflow.json" := json]> (files w)
    ∧ dirs w' = {[".out"]} ∪ dirs w
    ∧ stdin w' = stdin w.
Proof.
  intros Hout Hcache.
  assert (∀ w0, files w0 = files w → dirs w0 = {[".out"]} ∪ dirs w → stdin w0 = stdin w →
            ∃ w',
              (wr <- WriteFile ".out/workflow.json" json ;;
               match wr with
               | Some err =>
                   ret (false, Some (WrapError "failed to write .out/workflow.json: " err))
               | None =>
                   fmt_Println (nl +:+ "Saved to .out/workflow.json") ;;
                   ret (true, None)
               end)%go w0 = (Ret (true, None), w')
              ∧ files w' = <[".out/workflow.json" := json]> (files w)
              ∧ dirs w' = {[".out"]} ∪ dirs w
              ∧ stdin w' = stdin w) as Hwrite.
  { intros w0 Hf Hd Hi. unfold bind at 1, WriteFile, parent_errno, is_dir.
    rewrite Dir_cache, Hd.
    rewrite (bool_decide_eq_false_2 (".out/workflow.json" = "." ∨ _)).
    2: { intros [?|[?|Hin]]; [done..|].
         apply elem_of_union in Hin as [Hin|Hin]; [|done].
         by apply elem_of_singleton in Hin. }
    rewrite (bool_decide_eq_true_2 (".out" = "." ∨ _)).
    2: { right. right. apply elem_of_union. left. by apply elem_of_singleton. }
    eexists. split; [reflexivity|]. simpl. by rewrite Hf. }
  unfold bind at 1, Stat, exists_, is_dir. rewrite Hout.
  rewrite (bool_decide_eq_false_2 (is_Some None)) by (by intros [? ?]). cbn [orb].
  destruct (bool_decide (".out" = "." ∨ ".out" = "/" ∨ ".out" ∈ dirs w)) eqn:Hdir.
  - apply bool_decide_eq_true in Hdir as [?|[?|Hdir]]; [done..|].
    cbn [IsNotExist]. rewrite bind_ret. apply Hwrite; [done| |done].
    apply leibniz_equiv. apply set_equiv. intros x. rewrite elem_of_union, elem_of_singleton.
    split; [tauto|]. by intros [->|?].
  - unfold missing_errno, parent_errno. rewrite Dir_dot_out.
    assert (is_dir w "." = true) as -> by (apply bool_decide_eq_true; by left).
    cbn [default IsNotExist].
    unfold bind at 1, Mkdir, exists_, parent_errno, is_dir. rewrite Hout, Dir_dot_out, Hdir.
    rewrite (bool_decide_eq_false_2 (is_Some None)) by (by intros [? ?]). cbn [orb].
    rewrite (bool_decide_eq_true_2 ("." = "." ∨ _)) by (by left).
    by apply Hwrite.
Qed.

(** The diff step, where there is no cached file or the diff step goes
    through: no error, and only the trace grows. *)
Lemma diff_step_passes sys json w :
  (∀ old, files w !! ".out/workflow.json" = Some old → diff_passes sys old json) →
  ∀ w0, ∃ evs,
    match files w !! ".out/workflow.json" with
    | Some oldJSONBytes =>
        bind (fmt_Println (nl +:+ "Showing diff between existing and new workflow JSON:"))
          (λ _, utils.RunDiff sys oldJSONBytes json)
    | None =>
        bind (fmt_Println (nl +:+ "No existing .out/workflow.json found, skipping diff."))
          (λ _, ret None)
    end w0 = (Ret None, logs evs w0).
Proof.
  intros Hdiff w0. destruct (files w !! ".out/workflow.json") as [old|].
  - destruct (Hdiff old eq_refl) as [[[oldTmp newTmp] Htmp] Hcode].
    rewrite bind_Println, (RunDiff_runs sys old json oldTmp newTmp _ Htmp).
    destruct Hcode as [-> | ->]; cbn [decide]; simpl;
      eexists; rewrite ?log_logs, ?logs_logs; reflexivity.
  - rewrite bind_Println. eexists. unfold ret. rewrite log_logs. reflexivity.
Qed.

Lemma confirmed_preview_saved sys w src json :
  preview_source w = Ok src →
  yq_Output sys src = Ok json →
  (∀ old, files w !! ".out/workflow.json" = Some old → diff_passes sys old json) →
  confirmed w →
  files w !! ".out" = None →
  ".out/workflow.json" ∉ dirs w →
  ∃ w',
    workflows.PreviewWorkflowJSONWithPrompt sys w = (Ret (true, None), w')
    ∧ files w' = <[".out/workflow.json" := json]> (files w)
    ∧ dirs w' = {[".out"]} ∪ dirs w
    ∧ stdin w' = snd (fst (Bufio.ReadString (stdin w) "010")).
Proof.
  intros Hsrc Hyq Hdiff Hyes Hout Hcache.
  rewrite (Preview_to_diff sys w src json Hsrc Hyq).
  destruct (diff_step_passes sys json w Hdiff (logs (previewed src json) w)) as [evs E].
  rewrite (bind_Ret _ _ _ _ _ E), logs_logs. clear E.
  rewrite bind_Print, bind_stdin_ReadString. cbn [stdin log logs].
  fold (answer_of (stdin w)). rewrite (bool_decide_eq_true_2 _ Hyes).
  match goal with |- context [bind (Stat ".out") _ ?w2] =>
    destruct (save_tail_saves json w2 Hout Hcache) as (w' & E & Hf & Hd & Hi)
  end.
  exists w'. split; [exact E|]. by rewrite Hf, Hd, Hi.
Qed.

(** X11.  A confirmed preview saves what it showed.  Let the source of
    the preview and its conversion by [yq] succeed; where a cached file
    is there, let the diff step go through (its two temporary files can
    be made and written, and the diff program ends with code 0 or 1);
    let the answer at the prompt be [y] or [yes] in any case, and let
    nothing but a directory stand at [.out].  Then the flow returns
    confirmed and without error, the file [.out/workflow.json] holds the
    JSON that [yq] made of the source, the directory [.out] is there, no
    other file of the state has changed, and one line was taken from the
    standard input. *)
Theorem confirmed_preview_saves_json sys w src json :
  preview_source w = Ok src →
  yq_Output sys src = Ok json →
  (∀ old, files w !! ".out/workflow.json" = Some old → diff_passes sys old json) →
  confirmed w →
  files w !! ".out" = None →
  ".out/workflow.json" ∉ dirs w →
  ∃ w',
    workflows.PreviewWorkflowJSONWithPrompt sys w = (Ret (true, None), w')
    ∧ files w' = <[".out/workflow.json" := json]> (files w)
    ∧ dirs w' = {[".out"]} ∪ dirs w
    ∧ stdin w' = snd (fst (Bufio.ReadString (stdin w) "010")).
Proof. apply confirmed_preview_saved. Qed.

(** On the sample project after an earlier preview the diff step goes
    through: the diff program finds differences. *)
Lemma previewed_project_diff_passes input old :
  files (previewed_project input) !! ".out/workflow.json" = Some old →
  diff_passes (Sample.platform Sample.ok_200) old
    ("json of " +:+ "  jsCode: |" +:+ nl +:+ "    a();" +:+ nl +:+ "    b();"
     +:+ nl +:+ "url: example.org/hook").
Proof.
  intros Hold.
  assert (old = "{}") as -> by (vm_compute in Hold; congruence).
  split; [by eexists|]. right. vm_compute. reflexivity.
Qed.

Lemma confirmed_preview_saves_json_witness :
  let sys := Sample.platform Sample.ok_200 in
  let w := previewed_project ("Yes" +:+ nl) in
  let json := "json of " +:+ "  jsCode: |" +:+ nl +:+ "    a();" +:+ nl +:+ "    b();"
              +:+ nl +:+ "url: example.org/hook" in
  files w !! ".out/workflow.json" = Some "{}"
  ∧ ∃ w',
      workflows.PreviewWorkflowJSONWithPrompt sys w = (Ret (true, None), w')
      ∧ files w' = <[".out/workflow.json" := json]> (files w)
      ∧ dirs w' = {[".out"]} ∪ dirs w
      ∧ stdin w' = snd (fst (Bufio.ReadString (stdin w) "010")).
Proof.
  intros sys w json. split; [vm_compute; reflexivity|].
  apply (confirmed_preview_saves_json sys w
           ("  jsCode: |" +:+ nl +:+ "    a();" +:+ nl +:+ "    b();"
            +:+ nl +:+ "url: example.org/hook") json).
  - vm_compute. reflexivity.
  - reflexivity.
  - apply previewed_project_diff_passes.
  - right. vm_compute. reflexivity.
  - vm_compute. reflexivity.
  - vm_compute. discriminate.
Defined.

(** X12.  A confirmed deploy sends what the preview saved.  Under the
    conditions of a confirmed preview that saves (the diff step, where
    there is a cached file, goes through with its temporary files), and
    with a URL that [http.NewRequest] accepts, deploy on workflows sends
    exactly one request: a POST to the workflows path under the
    lower-cased base URL, with the JSON that [yq] made of the source as
    its body and the API token in its header; that JSON is also what
    [.out/workflow.json] holds afterwards. *)
Theorem confirmed_deploy_posts_saved_json sys params cfg w src json :
  preview_source w = Ok src →
  yq_Output sys src = Ok json →
  (∀ old, files w !! ".out/workflow.json" = Some old → diff_passes sys old json) →
  confirmed w →
  files w !! ".out" = None →
  ".out/workflow.json" ∉ dirs w →
  NewRequest_error sys "POST" (Strings.ToLower (BaseURL cfg) +:+ "/api/v1/workflows") = None →
  let run := entities.handleGenericEntityAction sys "workflows" "deploy" params cfg w in
  ∃ evs,
    trace (snd run) = trace w ++ evs
    ∧ requests evs
      = [request_of "POST" (Strings.ToLower (BaseURL cfg) +:+ "/api/v1/workflows")
           json (APIToken cfg)]
    ∧ files (snd run) !! ".out/workflow.json" = Some json.
Proof.
  intros Hsrc Hyq Hdiff Hyes Hout Hcache Hnew.
  destruct (confirmed_preview_saved sys w src json Hsrc Hyq Hdiff Hyes Hout Hcache)
    as (w' & E & Hf & _).
  destruct (adds_Preview sys w) as (evs1 & E1 & H1). rewrite E in E1. simpl in E1.
  assert (entities.handleGenericEntityAction_switch sys "workflows" "deploy" params cfg w
          = (Ret (entities.ToSend "POST"
                    (Strings.ToLower (BaseURL cfg) +:+ "/api/v1/workflows") json), w'))
    as Hswitch.
  { unfold entities.handleGenericEntityAction_switch. cbn [decide].
    simpl. rewrite (bind_Ret _ _ _ _ _ E). cbv beta iota.
    unfold bind, ReadFile. by rewrite Hf, lookup_insert_eq. }
  intros run.
  set (req := request_of "POST" (Strings.ToLower (BaseURL cfg) +:+ "/api/v1/workflows")
                json (APIToken cfg)).
  assert (∃ evs2, snd run = logs evs2 (log (EvHTTP req) w') ∧ Forall no_request evs2)
    as (evs2 & E2 & H2).
  { unfold run, entities.handleGenericEntityAction.
    rewrite (bind_Ret _ _ _ _ _ Hswitch).
    unfold entities.n8nAPIRequest. rewrite Hnew.
    fold (request_of "POST" (Strings.ToLower (BaseURL cfg) +:+ "/api/v1/workflows")
            json (APIToken cfg)). fold req.
    rewrite bind_bind.
    change (bind (λ w0, (Ret tt, log (EvHTTP req) w0)) ?k w')
      with (k tt (log (EvHTTP req) w')). cbv beta.
    match goal with |- context [snd (?k (log (EvHTTP req) w'))] =>
      assert (says no_request k) as Hk
    end.
    { apply says_bind.
      - destruct (client_Do sys req) as [resp|?]; [|says].
        destruct (Body resp); [|says]. destruct (bool_decide _); says.
      - intros [resp|?]; [|says]. cbn [decide]. simpl.
        apply says_bind; [|says]. apply says_prints, prints_PrintJSONResponse. done. }
    exact (Hk (log (EvHTTP req) w')). }
  exists (evs1 ++ EvHTTP req :: evs2). rewrite E2. simpl. rewrite E1, <- !app_assoc.
  split; [done|]. split; [|by rewrite Hf, lookup_insert_eq].
  rewrite requests_app, (Forall_no_request _ H1). simpl.
  by rewrite (Forall_no_request _ H2).
Qed.

Lemma confirmed_deploy_posts_saved_json_witness :
  let sys := Sample.platform Sample.ok_200 in
  let w := previewed_project ("y" +:+ nl) in
  let json := "json of " +:+ "  jsCode: |" +:+ nl +:+ "    a();" +:+ nl +:+ "    b();"
              +:+ nl +:+ "url: example.org/hook" in
  let run := entities.handleGenericEntityAction sys "workflows" "deploy" [] Sample.cfg w in
  files w !! ".out/workflow.json" = Some "{}"
  ∧ ∃ evs,
      trace (snd run) = trace w ++ evs
      ∧ requests evs
        = [request_of "POST" "https://n8n.example/api/v1/workflows" json "secret"]
      ∧ files (snd run) !! ".out/workflow.json" = Some json.
Proof.
  intros sys w json. split; [vm_compute; reflexivity|].
  apply (confirmed_deploy_posts_saved_json sys [] Sample.cfg w
           ("  jsCode: |" +:+ nl +:+ "    a();" +:+ nl +:+ "    b();"
            +:+ nl +:+ "url: example.org/hook") json).
  - vm_compute. reflexivity.
  - reflexivity.
  - apply previewed_project_diff_passes.
  - left. vm_compute. reflexivity.
  - vm_compute. reflexivity.
  - vm_compute. discriminate.
  - reflexivity.
Defined.

(** Each event of a list that is written out is of a kind. *)
Ltac each_event :=
  cbn [temps_written temps_removed app];
  repeat (apply List.Forall_cons; [first [exact I | intros []]|]);
  apply List.Forall_nil.

(** The cases of the temporary files that are not the one at hand. *)
Ltac by_cases :=
  repeat split; intros;
  repeat match goal with
         | H : temp_files _ _ _ = Some _ |- _ => unfold temp_files in H
         end;
  repeat match goal with
         | E : ?t = _, H : context [match ?t with _ => _ end] |- _ =>
             rewrite E in H; cbv beta iota in H
         end;
  congruence.

(** [RunDiff] where the diff step does not go through: the error and
    the events, case by case. *)
Lemma RunDiff_fails sys oldJSON newJSON w :
  ¬ diff_passes sys oldJSON newJSON →
  ∃ err evs,
    utils.RunDiff sys oldJSON newJSON w = (Ret (Some err), logs evs w)
    ∧ Forall local_effect evs
    ∧ Forall (λ e, ¬ is_stdout e) evs
    ∧ temps_left evs = []
    ∧ (∀ cause, CreateTemp_result sys "oldworkflow-*.json" = Err cause →
         err = WrapError "failed to create temp file for old JSON: " cause
         ∧ evs = [EvCreateTemp "oldworkflow-*.json"])
    ∧ (∀ oldTmp cause,
         CreateTemp_result sys "oldworkflow-*.json" = Ok oldTmp →
         Write_error sys oldTmp oldJSON = Some cause →
         err = WrapError "failed to write old JSON to temp file: " cause
         ∧ evs = [EvCreateTemp "oldworkflow-*.json"; EvWriteTemp oldTmp oldJSON;
                  EvRemove oldTmp])
    ∧ (∀ oldTmp cause,
         CreateTemp_result sys "oldworkflow-*.json" = Ok oldTmp →
         Write_error sys oldTmp oldJSON = None →
         CreateTemp_result sys "newworkflow-*.json" = Err cause →
         err = WrapError "failed to create temp file for new JSON: " cause
         ∧ evs = [EvCreateTemp "oldworkflow-*.json"; EvWriteTemp oldTmp oldJSON;
                  EvCreateTemp "newworkflow-*.json"; EvRemove oldTmp])
    ∧ (∀ oldTmp newTmp cause,
         CreateTemp_result sys "oldworkflow-*.json" = Ok oldTmp →
         Write_error sys oldTmp oldJSON = None →
         CreateTemp_result sys "newworkflow-*.json" = Ok newTmp →
         Write_error sys newTmp newJSON = Some cause →
         err = WrapError "failed to write new JSON to temp file: " cause
         ∧ evs = temps_written oldTmp newTmp oldJSON newJSON
                 ++ temps_removed oldTmp newTmp)
    ∧ (∀ oldTmp newTmp,
         temp_files sys oldJSON newJSON = Some (oldTmp, newTmp) →
         err = WrapError "diff command failed: "
                 match diff_Run sys (diff_name sys) oldJSON newJSON with
                 | NotStarted cause => cause
                 | Exited code => ErrorString ("exit status " +:+ pretty code)
                 end
         ∧ evs = temps_written oldTmp newTmp oldJSON newJSON
                 ++ [EvDiff (diff_name sys) oldJSON newJSON]
                 ++ temps_removed oldTmp newTmp).
Proof.
  intros Hnot. unfold diff_passes in Hnot. rewrite RunDiff_result.
  destruct (CreateTemp_result sys "oldworkflow-*.json") as [oldTmp|e1] eqn:E1.
  2: { eexists _, _. split; [reflexivity|].
       split; [each_event|]. split; [each_event|].
       split; [reflexivity|]. by_cases. }
  destruct (Write_error sys oldTmp oldJSON) as [e2|] eqn:E2.
  { eexists _, _. split; [reflexivity|].
    split; [each_event|]. split; [each_event|].
    split; [cbn; by rewrite (bool_decide_eq_true_2 (oldTmp = oldTmp) eq_refl)|].
    by_cases. }
  destruct (CreateTemp_result sys "newworkflow-*.json") as [newTmp|e3] eqn:E3.
  2: { eexists _, _. split; [reflexivity|].
       split; [each_event|]. split; [each_event|].
       split; [cbn; by rewrite (bool_decide_eq_true_2 (oldTmp = oldTmp) eq_refl)|].
       by_cases. }
  cbv zeta.
  destruct (Write_error sys newTmp newJSON) as [e4|] eqn:E4.
  { eexists _, _. split; [reflexivity|].
    split; [each_event|]. split; [each_event|].
    split; [apply (temps_left_removed oldTmp newTmp oldJSON newJSON []); constructor|].
    by_cases. }
  assert (temp_files sys oldJSON newJSON = Some (oldTmp, newTmp)) as Htmp
    by (unfold temp_files; by rewrite E1, E2, E3, E4).
  exists (WrapError "diff command failed: "
            match diff_Run sys (diff_name sys) oldJSON newJSON with
            | NotStarted cause => cause
            | Exited code => ErrorString ("exit status " +:+ pretty code)
            end),
         (temps_written oldTmp newTmp oldJSON newJSON
          ++ [EvDiff (diff_name sys) oldJSON newJSON]
          ++ temps_removed oldTmp newTmp).
  split; [|split; [each_event|split; [each_event|split]]].
  - rewrite <- app_assoc.
    destruct (diff_Run sys (diff_name sys) oldJSON newJSON) as [code|cause]; [|done].
    destruct (decide (code = 0)) as [->|];
      [exfalso; apply Hnot; split; [by eexists|by left]|].
    destruct (decide (code = 1)) as [->|];
      [exfalso; apply Hnot; split; [by eexists|by right]|].
    done.
  - apply temps_left_removed. each_event.
  - clear Hnot. repeat split; intros; congruence.
Qed.

(** X13.  A diff step that fails ends the preview before the prompt.
    With a cached [.out/workflow.json], when a temporary file cannot be
    made or written, or the diff program cannot be started or ends with
    a code other than 0 and 1, the preview flow returns the error of
    that step, unconfirmed: [failed to create temp file for old JSON:],
    [failed to write old JSON to temp file:], the same two for the new
    JSON, or [diff command failed:], each with its cause.  After the
    line that announces the diff nothing is printed, the prompt least of
    all; nothing is read from the standard input, no file or directory
    of the state changes, and the temporary files that were made are
    removed. *)
Theorem failing_diff_stops_preview sys w src json old :
  preview_source w = Ok src →
  yq_Output sys src = Ok json →
  files w !! ".out/workflow.json" = Some old →
  ¬ diff_passes sys old json →
  ∃ err evs,
    workflows.PreviewWorkflowJSONWithPrompt sys w
    = (Ret (false, Some err),
       logs (previewed src json
             ++ [EvStdout (nl +:+ "Showing diff between existing and new workflow JSON:"
                           +:+ nl)]
             ++ evs) w)
    ∧ Forall local_effect evs
    ∧ Forall (λ e, ¬ is_stdout e) evs
    ∧ temps_left evs = []
    ∧ (∀ cause, CreateTemp_result sys "oldworkflow-*.json" = Err cause →
         err = WrapError "failed to create temp file for old JSON: " cause
         ∧ evs = [EvCreateTemp "oldworkflow-*.json"])
    ∧ (∀ oldTmp cause,
         CreateTemp_result sys "oldworkflow-*.json" = Ok oldTmp →
         Write_error sys oldTmp old = Some cause →
         err = WrapError "failed to write old JSON to temp file: " cause
         ∧ evs = [EvCreateTemp "oldworkflow-*.json"; EvWriteTemp oldTmp old;
                  EvRemove oldTmp])
    ∧ (∀ oldTmp cause,
         CreateTemp_result sys "oldworkflow-*.json" = Ok oldTmp →
         Write_error sys oldTmp old = None →
         CreateTemp_result sys "newworkflow-*.json" = Err cause →
         err = WrapError "failed to create temp file for new JSON: " cause
         ∧ evs = [EvCreateTemp "oldworkflow-*.json"; EvWriteTemp oldTmp old;
                  EvCreateTemp "newworkflow-*.json"; EvRemove oldTmp])
    ∧ (∀ oldTmp newTmp cause,
         CreateTemp_result sys "oldworkflow-*.json" = Ok oldTmp →
         Write_error sys oldTmp old = None →
         CreateTemp_result sys "newworkflow-*.json" = Ok newTmp →
         Write_error sys newTmp json = Some cause →
         err = WrapError "failed to write new JSON to temp file: " cause
         ∧ evs = temps_written oldTmp newTmp old json ++ temps_removed oldTmp newTmp)
    ∧ (∀ oldTmp newTmp,
         temp_files sys old json = Some (oldTmp, newTmp) →
         err = WrapError "diff command failed: "
                 match diff_Run sys (diff_name sys) old json with
                 | NotStarted cause => cause
                 | Exited code => ErrorString ("exit status " +:+ pretty code)
                 end
         ∧ evs = temps_written oldTmp newTmp old json
                 ++ [EvDiff (diff_name sys) old json]
                 ++ temps_removed oldTmp newTmp).
Proof.
  intros Hsrc Hyq Hold Hnot.
  rewrite (Preview_to_diff sys w src json Hsrc Hyq). cbn [files logs]. rewrite Hold.
  rewrite bind_bind, bind_Println. unfold bind at 1.
  match goal with |- context [utils.RunDiff sys old json ?w1] =>
    destruct (RunDiff_fails sys old json w1 Hnot) as (err & evs & E & Hrest)
  end.
  rewrite E. exists err, evs. split; [|exact Hrest].
  unfold ret. by rewrite !log_logs, !logs_logs.
Qed.

Lemma failing_diff_stops_preview_witness :
  let src := "  jsCode: |" +:+ nl +:+ "    a();" +:+ nl +:+ "    b();"
             +:+ nl +:+ "url: example.org/hook" in
  let json := "json of " +:+ src in
  let cause := ErrorString ("exec: " +:+ dq +:+ "diff" +:+ dq
                            +:+ ": executable file not found in $PATH") in
  ¬ diff_passes no_diff_program "{}" json
  ∧ workflows.PreviewWorkflowJSONWithPrompt no_diff_program (previewed_project "y")
    = (Ret (false, Some (WrapError "diff command failed: " cause)),
       logs (previewed src json
             ++ [EvStdout (nl +:+ "Showing diff between existing and new workflow JSON:"
                           +:+ nl)]
             ++ temps_written "/tmp/oldworkflow-*.json" "/tmp/newworkflow-*.json" "{}" json
             ++ [EvDiff "diff" "{}" json]
             ++ temps_removed "/tmp/oldworkflow-*.json" "/tmp/newworkflow-*.json")
         (previewed_project "y")).
Proof.
  intros src json cause.
  assert (¬ diff_passes no_diff_program "{}" json) as Hnot.
  { intros [_ [H|H]]; vm_compute in H; discriminate. }
  split; [exact Hnot|].
  destruct (failing_diff_stops_preview no_diff_program (previewed_project "y")
              src json "{}") as (err & evs & E & _ & _ & _ & _ & _ & _ & _ & Hdiff).
  - vm_compute. reflexivity.
  - reflexivity.
  - vm_compute. reflexivity.
  - exact Hnot.
  - destruct (Hdiff "/tmp/oldworkflow-*.json" "/tmp/newworkflow-*.json" eq_refl)
      as [-> ->].
    exact E.
Defined.

(** ** The diff command *)

(** X14.  The diff command sends no request and changes no file or
    directory of the state, and leaves the standard input alone: all it
    does is print, start [yq] and the diff program, and make, write and
    remove temporary files; the temporary files that it made are removed
    when it returns.  What it compares with the cached
    [.out/workflow.json] is the JSON that [yq] makes of the file
    [workflow.yaml] as it is, since [yq] is started on the file itself:
    the inclusion of scripts and the substitution of the environment that
    the preview applies to its source are not applied here.  Where the
    temporary files can be made and the diff program ends with code 0 or
    1, the command returns no error after [yq], the two temporary files,
    the diff program, the line [No differences detected.] for code 0,
    and the removal of the files. *)
Theorem diff_reads_raw_source_only sys w :
  (∃ evs,
     snd (workflows.DiffWorkflowJSON sys w) = logs evs w
     ∧ Forall local_effect evs
     ∧ temps_left evs = [])
  ∧ ∀ yaml old json,
      files w !! "workflow.yaml" = Some yaml →
      files w !! ".out/workflow.json" = Some old →
      yq_Output sys yaml = Ok json →
      workflows.DiffWorkflowJSON sys w
      = utils.RunDiff sys old json (log (EvExec "yq" ["."; "workflow.yaml"] "") w)
      ∧ ∀ oldTmp newTmp code,
          temp_files sys old json = Some (oldTmp, newTmp) →
          diff_Run sys (diff_name sys) old json = Exited code →
          code = 0 ∨ code = 1 →
          workflows.DiffWorkflowJSON sys w
          = (Ret None,
             logs ([EvExec "yq" ["."; "workflow.yaml"] ""]
                   ++ temps_written oldTmp newTmp old json
                   ++ [EvDiff (diff_name sys) old json]
                   ++ (if decide (code = 0)
                       then [EvStdout ("No differences detected." +:+ nl)] else [])
                   ++ temps_removed oldTmp newTmp) w).
Proof.
  assert (∀ yaml old json,
      files w !! "workflow.yaml" = Some yaml →
      files w !! ".out/workflow.json" = Some old →
      yq_Output sys yaml = Ok json →
      workflows.DiffWorkflowJSON sys w
      = utils.RunDiff sys old json (log (EvExec "yq" ["."; "workflow.yaml"] "") w))
    as Hrun.
  { intros yaml old json Hyaml Hold Hyq.
    unfold workflows.DiffWorkflowJSON, workflows.yq_file.
    unfold bind at 1, Stat, exists_. rewrite Hyaml.
    rewrite (bool_decide_eq_true_2 (is_Some (Some yaml))) by (by eexists).
    cbn [orb IsNotExist].
    unfold bind at 1, Stat, exists_. rewrite Hold.
    rewrite (bool_decide_eq_true_2 (is_Some (Some old))) by (by eexists).
    cbn [orb IsNotExist].
    rewrite !bind_bind.
    change (bind (λ w0, (Ret tt, log ?e w0)) ?k w) with (k tt (log e w)). cbv beta.
    set (w1 := log (EvExec "yq" ["."; "workflow.yaml"] "") w).
    rewrite bind_bind.
    rewrite (bind_Ret _ _ _ _ _ (ReadFile_present "workflow.yaml" yaml w1 Hyaml)).
    rewrite bind_ret, Hyq.
    by rewrite (bind_Ret _ _ _ _ _ (ReadFile_present ".out/workflow.json" old w1 Hold)). }
  split.
  - assert (∀ r : outcome (option error),
              ∃ evs, snd (r, w) = logs evs w ∧ Forall local_effect evs
                     ∧ temps_left evs = []) as Hnone.
    { intros r. exists []. by rewrite logs_nil. }
    assert (∀ r : outcome (option error),
              ∃ evs, snd (r, log (EvExec "yq" ["."; "workflow.yaml"] "") w) = logs evs w
                     ∧ Forall local_effect evs ∧ temps_left evs = []) as Hyq.
    { intros r. exists [EvExec "yq" ["."; "workflow.yaml"] ""].
      split; [reflexivity|]. split; [by repeat constructor|reflexivity]. }
    unfold workflows.DiffWorkflowJSON.
    destruct (unchanged _ (prints_Stat _ "workflow.yaml") w) as [st E].
    rewrite (bind_Ret _ _ _ _ _ E). clear E.
    destruct (IsNotExist st); [apply Hnone|].
    destruct (unchanged _ (prints_Stat _ ".out/workflow.json") w) as [st' E].
    rewrite (bind_Ret _ _ _ _ _ E). clear E.
    destruct (IsNotExist st'); [apply Hnone|].
    unfold workflows.yq_file. rewrite !bind_bind.
    change (bind (λ w0, (Ret tt, log ?e w0)) ?k w) with (k tt (log e w)). cbv beta.
    set (w1 := log (EvExec "yq" ["."; "workflow.yaml"] "") w).
    rewrite bind_bind.
    destruct (ReadFile_returns "workflow.yaml" w1) as [r E].
    rewrite (bind_Ret _ _ _ _ _ E). clear E.
    assert (∀ newJSON : result string,
      ∃ evs,
        snd (match newJSON with
             | Err err => ret (Some (WrapError "yq failed: " err))
             | Ok newJSON =>
                 bind (ReadFile ".out/workflow.json") (λ oldJSON,
                   match oldJSON with
                   | Err err =>
                       ret (Some (WrapError "failed to read .out/workflow.json: " err))
                   | Ok oldJSON => utils.RunDiff sys oldJSON newJSON
                   end)
             end w1) = logs evs w
        ∧ Forall local_effect evs ∧ temps_left evs = []) as Hrest.
    { intros [newJSON|err]; [|apply Hyq].
      destruct (ReadFile_returns ".out/workflow.json" w1) as [r' E].
      rewrite (bind_Ret _ _ _ _ _ E). clear E.
      destruct r' as [oldJSON|err]; [|apply Hyq].
      destruct (RunDiff_tidy sys oldJSON newJSON w1) as (evs & E & H1 & H2).
      exists (EvExec "yq" ["."; "workflow.yaml"] "" :: evs).
      split; [|split; [by constructor|exact H2]].
      rewrite E. unfold w1. by rewrite log_logs, logs_logs. }
    destruct r as [data|err]; rewrite bind_ret;
      [apply (Hrest (yq_Output sys data))|apply (Hrest (Err (ErrorString "exit status 1")))].
  - intros yaml old json Hyaml Hold Hyq. split; [by apply (Hrun yaml)|].
    intros oldTmp newTmp code Htmp Hcode Hok.
    rewrite (Hrun yaml old json Hyaml Hold Hyq).
    rewrite (RunDiff_runs sys old json oldTmp newTmp _ Htmp), Hcode. cbv zeta.
    destruct Hok as [-> | ->]; cbn [decide]; simpl;
      rewrite ?log_logs, ?logs_logs; reflexivity.
Qed.

(** X15.  The diff command needs both files.  Without a
    [workflow.yaml] it returns the error [workflow.yaml not found]; with
    it, but with nothing at [.out/workflow.json] (and no regular file in
    the place of [.out]), it returns the error that asks for a preview
    first.  In both cases [yq] and the diff program are not started and
    nothing is printed. *)
Theorem diff_needs_both_files sys w :
  (exists_ w "workflow.yaml" = false →
   workflows.DiffWorkflowJSON sys w
   = (Ret (Some (ErrorString "workflow.yaml not found")), w))
  ∧ (exists_ w "workflow.yaml" = true →
     exists_ w ".out/workflow.json" = false →
     files w !! ".out" = None →
     workflows.DiffWorkflowJSON sys w
     = (Ret (Some (ErrorString
          ".out/workflow.json does not exist, please run preview and save the JSON first")),
        w)).
Proof.
  split.
  - intros Hyaml. unfold workflows.DiffWorkflowJSON, bind, Stat. rewrite Hyaml.
    unfold missing_errno, parent_errno. rewrite Dir_workflow_yaml.
    assert (is_dir w "." = true) as -> by (apply bool_decide_eq_true; by left).
    reflexivity.
  - intros Hyaml Hcache Hout. unfold workflows.DiffWorkflowJSON.
    unfold bind at 1, Stat. rewrite Hyaml. cbn [IsNotExist].
    unfold bind at 1, Stat. rewrite Hcache.
    unfold missing_errno, parent_errno. rewrite Dir_cache, Hout.
    rewrite (bool_decide_eq_false_2 (is_Some None)) by (by intros [? ?]).
    by destruct (is_dir w ".out").
Qed.

(** ** Trimming *)

Lemma all_bytes_app p (s t : string) :
  all_bytes p (s +:+ t) = all_bytes p s && all_bytes p t.
Proof. induction s as [|c s IH]; simpl; [done|]. by rewrite IH, andb_assoc. Qed.

Lemma all_bytes_rev p (s : string) : all_bytes p (String.rev s) = all_bytes p s.
Proof.
  induction s as [|c s IH]; [done|].
  rewrite rev_cons, all_bytes_app, IH. simpl. by rewrite andb_true_r, andb_comm.
Qed.

Lemma all_bytes_mono (p q : ascii → bool) (s : string) :
  (∀ c, p c = true → q c = true) → all_bytes p s = true → all_bytes q s = true.
Proof.
  intros Hpq. induction s as [|c s IH]; [done|]. simpl.
  intros [Hc Hs]%andb_true_iff. by rewrite (Hpq c Hc), IH.
Qed.

Lemma TrimLeftSpace_spaces (sp s : string) :
  all_bytes Strings.is_space1 sp = true →
  Strings.TrimLeftSpace (sp +:+ s) = Strings.TrimLeftSpace s.
Proof.
  induction sp as [|c sp IH]; [done|]. simpl.
  intros [Hc Hsp]%andb_true_iff. rewrite Hc. by apply IH.
Qed.

Lemma TrimLeftSpace_rev_spaces (sp s : string) :
  all_bytes Strings.is_space1 sp = true →
  Strings.TrimLeftSpace_rev (sp +:+ s) = Strings.TrimLeftSpace_rev s.
Proof.
  induction sp as [|c sp IH]; [done|]. simpl.
  intros [Hc Hsp]%andb_true_iff. rewrite Hc. by apply IH.
Qed.

Lemma ascii_nonspace_spec (c : ascii) :
  ascii_nonspace c = true → (Strings.byte c < 128)%N ∧ Strings.is_space1 c = false.
Proof.
  unfold ascii_nonspace. intros [H1 H2]%andb_true_iff.
  apply N.ltb_lt in H1. by apply negb_true_iff in H2.
Qed.

Ltac byte_cases :=
  repeat match goal with
         | |- context [N.eqb ?a ?b] => destruct (N.eqb_spec a b); try lia
         | |- context [N.leb ?a ?b] => destruct (N.leb_spec a b); try lia
         end; try reflexivity.

Lemma TrimLeftSpace_stop (c : ascii) (s : string) :
  ascii_nonspace c = true → Strings.TrimLeftSpace (String c s) = String c s.
Proof.
  intros [Hlt Hsp]%ascii_nonspace_spec. simpl. rewrite Hsp.
  destruct s as [|c2 s]; [done|].
  assert (Strings.is_space2 c c2 = false) as ->.
  { unfold Strings.is_space2. byte_cases. }
  destruct s as [|c3 s]; [done|].
  assert (Strings.is_space3 c c2 c3 = false) as ->; [|done].
  unfold Strings.is_space3. byte_cases.
Qed.

Lemma TrimLeftSpace_rev_stop (c : ascii) (s : string) :
  ascii_nonspace c = true → Strings.TrimLeftSpace_rev (String c s) = String c s.
Proof.
  intros [Hlt Hsp]%ascii_nonspace_spec. simpl. rewrite Hsp.
  destruct s as [|c2 s]; [done|].
  assert (Strings.is_space2 c2 c = false) as ->.
  { unfold Strings.is_space2. byte_cases. }
  destruct s as [|c3 s]; [done|].
  assert (Strings.is_space3 c3 c2 c = false) as ->; [|done].
  unfold Strings.is_space3. byte_cases.
Qed.

(** [TrimSpace] takes the ASCII white space from both ends of a text
    that begins and ends with other ASCII bytes. *)
Lemma TrimSpace_core (sp1 core sp2 : string) :
  all_bytes Strings.is_space1 sp1 = true →
  all_bytes Strings.is_space1 sp2 = true →
  ends_plain core = true →
  Strings.TrimSpace (sp1 +:+ core +:+ sp2) = core.
Proof.
  intros H1 H2 [Hfirst Hlast]%andb_true_iff.
  unfold Strings.TrimSpace, Strings.TrimRightSpace.
  rewrite (TrimLeftSpace_spaces _ _ H1).
  destruct core as [|c core].
  - rewrite sapp_nil_l.
    assert (Strings.TrimLeftSpace sp2 = "") as ->.
    { rewrite <- (sapp_nil_r sp2). by rewrite (TrimLeftSpace_spaces _ _ H2). }
    done.
  - rewrite sapp_cons, (TrimLeftSpace_stop _ _ Hfirst), <- sapp_cons.
    rewrite rev_sapp, TrimLeftSpace_rev_spaces by (by rewrite all_bytes_rev).
    destruct (String.rev (String c core)) as [|d r] eqn:Hrev.
    + by rewrite <- (rev_involutive (String c core)), Hrev.
    + rewrite (TrimLeftSpace_rev_stop _ _ Hlast), <- Hrev. apply rev_involutive.
Qed.

Lemma first_plain_app (a b : string) : a ≠ "" → first_plain (a +:+ b) = first_plain a.
Proof. by destruct a. Qed.

Lemma all_nonspace_first (s : string) :
  all_bytes ascii_nonspace s = true → first_plain s = true.
Proof. destruct s; [done|]. simpl. by intros [? _]%andb_true_iff. Qed.

Lemma rev_not_empty (s : string) : s ≠ "" → String.rev s ≠ "".
Proof. intros Hs Hrev. apply Hs. by rewrite <- (rev_involutive s), Hrev. Qed.

(** A text between two runs of ASCII bytes that are no white space
    begins and ends with such bytes. *)
Lemma ends_plain_wrap (a mid b : string) :
  a ≠ "" → b ≠ "" →
  all_bytes ascii_nonspace a = true → all_bytes ascii_nonspace b = true →
  ends_plain (a +:+ mid +:+ b) = true.
Proof.
  intros Ha Hb Hall_a Hall_b. unfold ends_plain.
  rewrite (first_plain_app _ _ Ha), (all_nonspace_first _ Hall_a).
  rewrite !rev_sapp, sapp_assoc, (first_plain_app _ _ (rev_not_empty _ Hb)).
  apply all_nonspace_first. by rewrite all_bytes_rev.
Qed.

Lemma ends_plain_all (s : string) :
  all_bytes ascii_nonspace s = true → ends_plain s = true.
Proof.
  intros Hall. unfold ends_plain. rewrite (all_nonspace_first _ Hall).
  apply all_nonspace_first. by rewrite all_bytes_rev.
Qed.

Lemma ident_char_nonspace (c : ascii) :
  Regexp.is_ident_char c = true → ascii_nonspace c = true.
Proof.
  unfold Regexp.is_ident_char, Regexp.is_ident_start, ascii_nonspace, Strings.is_space1.
  cbv zeta. generalize (Strings.byte c). intros n.
  repeat match goal with
         | |- context [N.eqb ?a ?b] => destruct (N.eqb_spec a b)
         | |- context [N.leb ?a ?b] => destruct (N.leb_spec a b)
         | |- context [N.ltb ?a ?b] => destruct (N.ltb_spec a b)
         end; simpl; intros; try done; lia.
Qed.

Lemma plain_nonspace (c : ascii) : is_plain c = true → ascii_nonspace c = true.
Proof.
  unfold is_plain, ascii_nonspace, Strings.is_space1.
  cbv zeta. generalize (Strings.byte c). intros n.
  repeat match goal with
         | |- context [N.eqb ?a ?b] => destruct (N.eqb_spec a b)
         | |- context [N.leb ?a ?b] => destruct (N.leb_spec a b)
         | |- context [N.ltb ?a ?b] => destruct (N.ltb_spec a b)
         end; simpl; intros; try done; lia.
Qed.

Lemma identifier_bytes (name : string) :
  is_identifier name = true →
  name ≠ "" ∧ all_bytes Regexp.is_ident_char name = true.
Proof.
  destruct name as [|c rest]; [done|]. simpl.
  intros [Hc Hrest]%andb_true_iff. split; [done|].
  unfold Regexp.is_ident_char at 1. by rewrite Hc, Hrest.
Qed.

Lemma Cut_first (pre post : string) (sep : ascii) :
  all_bytes (λ c, negb (Ascii.eqb c sep)) pre = true →
  Strings.Cut (pre +:+ String sep post) sep = Some (pre, post).
Proof.
  induction pre as [|c pre IH]; simpl.
  - intros _. by rewrite Ascii.eqb_refl.
  - intros [Hc Hpre]%andb_true_iff. apply negb_true_iff in Hc.
    by rewrite Hc, (IH Hpre).
Qed.

Lemma TrimLeft_all_out (s cutset : string) :
  all_bytes (λ c, negb (Strings.in_cutset c cutset)) s = true →
  Strings.TrimLeft s cutset = s.
Proof.
  destruct s as [|c s]; [done|]. simpl.
  intros [Hc _]%andb_true_iff. apply negb_true_iff in Hc. by rewrite Hc.
Qed.

Lemma TrimRight_all_out (s cutset : string) :
  all_bytes (λ c, negb (Strings.in_cutset c cutset)) s = true →
  Strings.TrimRight s cutset = s.
Proof.
  intros Hs. unfold Strings.TrimRight.
  rewrite TrimLeft_all_out by (by rewrite all_bytes_rev). apply rev_involutive.
Qed.

(** [strings.Trim] with the double quote as its cutset takes the quotes
    around a value that has none in it. *)
Lemma Trim_quotes (quote value : string) :
  quote = "" ∨ quote = dq →
  all_bytes is_plain value = true →
  Strings.Trim (quote +:+ value +:+ quote) dq = value.
Proof.
  intros Hq Hvalue.
  assert (all_bytes (λ c, negb (Strings.in_cutset c dq)) value = true) as Hout.
  { revert Hvalue. apply all_bytes_mono. intros c Hc. unfold is_plain in Hc.
    apply andb_true_iff in Hc as [_ Hc]. apply negb_true_iff, N.eqb_neq in Hc.
    unfold dq, Strings.in_cutset. rewrite orb_false_r. apply negb_true_iff, Ascii.eqb_neq.
    intros ->. by apply Hc. }
  unfold Strings.Trim. destruct Hq as [-> | ->].
  - rewrite sapp_nil_l, sapp_nil_r, (TrimLeft_all_out _ _ Hout).
    by apply TrimRight_all_out.
  - change (dq +:+ value +:+ dq) with (String "034"%char (value +:+ dq)).
    cbn [Strings.TrimLeft]. change (Strings.in_cutset "034"%char dq) with true. cbv iota.
    destruct value as [|c value].
    + reflexivity.
    + assert (Strings.TrimLeft (String c value +:+ dq) dq = String c value +:+ dq) as ->.
      { rewrite sapp_cons. cbn [all_bytes] in Hout. apply andb_true_iff in Hout as [Hc _].
        apply negb_true_iff in Hc. cbn [Strings.TrimLeft]. by rewrite Hc. }
      unfold Strings.TrimRight. rewrite rev_sapp.
      change (String.rev dq) with dq.
      change (dq +:+ String.rev (String c value))
        with (String "034"%char (String.rev (String c value))).
      cbn [Strings.TrimLeft]. change (Strings.in_cutset "034"%char dq) with true. cbv iota.
      rewrite TrimLeft_all_out by (by rewrite all_bytes_rev). apply rev_involutive.
Qed.

(** ** The environment file *)

Lemma space1_not_eq (c : ascii) :
  Strings.is_space1 c = true → negb (Ascii.eqb c "="%char) = true.
Proof.
  intros Hc. apply negb_true_iff, Ascii.eqb_neq. intros ->. by vm_compute in Hc.
Qed.

Lemma ident_char_not_eq (c : ascii) :
  Regexp.is_ident_char c = true → negb (Ascii.eqb c "="%char) = true.
Proof.
  intros Hc. apply negb_true_iff, Ascii.eqb_neq. intros ->. by vm_compute in Hc.
Qed.

Lemma definition_line_defines (env : gmap string string)
    (lead name sp1 sp2 quote value trail : string) :
  all_bytes Strings.is_space1 lead = true →
  all_bytes Strings.is_space1 sp1 = true →
  all_bytes Strings.is_space1 sp2 = true →
  all_bytes Strings.is_space1 trail = true →
  is_identifier name = true →
  all_bytes is_plain value = true →
  quote = "" ∨ quote = dq →
  utils.LoadDotEnv_line env (definition_line lead name sp1 sp2 quote value trail)
  = <[name := value]> env.
Proof.
  intros Hlead Hsp1 Hsp2 Htrail Hname Hvalue Hquote.
  destruct (identifier_bytes name Hname) as [Hne Hchars].
  assert (all_bytes ascii_nonspace name = true) as Hname_plain
    by (revert Hchars; apply all_bytes_mono, ident_char_nonspace).
  set (shown := quote +:+ value +:+ quote).
  assert (all_bytes ascii_nonspace shown = true) as Hshown.
  { unfold shown. rewrite !all_bytes_app.
    assert (all_bytes ascii_nonspace quote = true) as -> by (by destruct Hquote as [-> | ->]).
    by rewrite (all_bytes_mono _ _ _ plain_nonspace Hvalue). }
  set (rest := if decide (shown = "") then "" else sp2 +:+ shown).
  set (core := name +:+ sp1 +:+ "=" +:+ rest).
  assert (Strings.TrimSpace (definition_line lead name sp1 sp2 quote value trail) = core)
    as Hline.
  { unfold definition_line, core, rest. fold shown.
    destruct (decide (shown = "")) as [Hs|Hs].
    - assert (quote = "" ∧ value = "") as [Hq Hv].
      { unfold shown in Hs. destruct Hquote as [-> | ->]; [|done].
        rewrite sapp_nil_l, sapp_nil_r in Hs. done. }
      unfold shown. rewrite Hq, Hv, !sapp_nil_l, sapp_nil_r.
      replace (lead +:+ name +:+ sp1 +:+ "=" +:+ sp2 +:+ trail)
        with (lead +:+ (name +:+ sp1 +:+ "=") +:+ (sp2 +:+ trail))
        by (by rewrite !sapp_assoc).
      apply TrimSpace_core; [done|by rewrite all_bytes_app, Hsp2, Htrail|].
      by apply ends_plain_wrap.
    - replace (lead +:+ name +:+ sp1 +:+ "=" +:+ sp2 +:+ quote +:+ value +:+ quote +:+ trail)
        with (lead +:+ (name +:+ (sp1 +:+ "=" +:+ sp2) +:+ shown) +:+ trail)
        by (unfold shown; by rewrite !sapp_assoc).
      rewrite TrimSpace_core; [by rewrite !sapp_assoc|done..|].
      by apply ends_plain_wrap. }
  unfold utils.LoadDotEnv_line. rewrite Hline. clear Hline.
  destruct name as [|c name']; [done|].
  assert (Regexp.is_ident_start c = true) as Hc.
  { simpl in Hname. by apply andb_true_iff in Hname as [? _]. }
  rewrite decide_False by done.
  assert (Strings.HasPrefix core "#" = false) as ->.
  { unfold core. rewrite sapp_cons. cbn [Strings.HasPrefix].
    destruct (Ascii.eqb_spec c "#"%char) as [->|]; [by vm_compute in Hc|done]. }
  unfold Strings.SplitN2.
  assert (Strings.Cut core "="%char = Some (String c name' +:+ sp1, rest)) as ->.
  { unfold core. rewrite <- sapp_assoc. apply Cut_first.
    rewrite all_bytes_app.
    rewrite (all_bytes_mono _ _ _ ident_char_not_eq Hchars).
    by rewrite (all_bytes_mono _ _ _ space1_not_eq Hsp1). }
  assert (Strings.TrimSpace (String c name' +:+ sp1) = String c name') as ->.
  { rewrite <- (sapp_nil_l (String c name' +:+ sp1)).
    apply TrimSpace_core; [done..|]. by apply ends_plain_all. }
  assert (Strings.TrimSpace rest = shown) as ->.
  { unfold rest. destruct (decide (shown = "")) as [->|]; [done|].
    rewrite <- (sapp_nil_r shown) at 1.
    apply TrimSpace_core; [done..|]. by apply ends_plain_all. }
  unfold shown. by rewrite Trim_quotes.
Qed.

(** X16.  A line of the environment file of the form [NAME=VALUE]
    defines NAME as VALUE: NAME is a name (a letter or an underscore,
    then letters, digits and underscores) and VALUE a run of printable
    ASCII bytes without space and double quote.  ASCII white space
    around the line, around the [=] and around the value is dropped, and
    so are double quotes around the value.  An earlier value of NAME is
    overwritten and the other keys are kept. *)
Theorem dotenv_line_defines (env : gmap string string)
    (lead name sp1 sp2 quote value trail : string) :
  all_bytes Strings.is_space1 lead = true →
  all_bytes Strings.is_space1 sp1 = true →
  all_bytes Strings.is_space1 sp2 = true →
  all_bytes Strings.is_space1 trail = true →
  is_identifier name = true →
  all_bytes is_plain value = true →
  quote = "" ∨ quote = dq →
  utils.LoadDotEnv_line env (definition_line lead name sp1 sp2 quote value trail)
  = <[name := value]> env.
Proof. apply definition_line_defines. Qed.

Lemma dotenv_line_defines_witness :
  utils.LoadDotEnv_line {[ "HOST" := "localhost" ]}
    (definition_line "  " "HOST" " " " " dq "example.org" (String "013"%char ""))
  = <[ "HOST" := "example.org" ]> {[ "HOST" := "localhost" ]}.
Proof.
  apply dotenv_line_defines; try reflexivity. by right.
Defined.

(** X17.  The lines of the environment file that define nothing: a line
    of white space only, a line whose first byte after the white space
    is [#], and a line without [=] leave the map as it is. *)
Theorem dotenv_line_ignored (env : gmap string string) (text : string) :
  Strings.TrimSpace text = ""
  ∨ Strings.HasPrefix (Strings.TrimSpace text) "#" = true
  ∨ all_bytes (λ c, negb (Ascii.eqb c "="%char)) (Strings.TrimSpace text) = true →
  utils.LoadDotEnv_line env text = env.
Proof.
  intros Hline. unfold utils.LoadDotEnv_line.
  destruct (decide (Strings.TrimSpace text = "")); [done|].
  destruct (Strings.HasPrefix (Strings.TrimSpace text) "#") eqn:Hhash; [done|].
  destruct Hline as [?|[?|Hno]]; [done..|].
  unfold Strings.SplitN2.
  assert (Strings.Cut (Strings.TrimSpace text) "="%char = None) as ->; [|done].
  revert Hno. generalize (Strings.TrimSpace text). intros s.
  induction s as [|c s IH]; [done|]. cbn [all_bytes Strings.Cut].
  intros [Hc Hs]%andb_true_iff. apply negb_true_iff in Hc. by rewrite Hc, (IH Hs).
Qed.

Lemma dotenv_line_ignored_witness :
  utils.LoadDotEnv_line {[ "HOST" := "localhost" ]} "  # HOST=example.org"
  = {[ "HOST" := "localhost" ]}.
Proof.
  apply dotenv_line_ignored. right. left. vm_compute. reflexivity.
Defined.

Lemma raw_lines_cons (line rest : string) :
  all_bytes (λ c, negb (Ascii.eqb c "010"%char)) line = true →
  Bufio.raw_lines (line +:+ nl +:+ rest) = line :: Bufio.raw_lines rest.
Proof.
  induction line as [|c line IH]; [done|]. cbn [all_bytes].
  intros [Hc Hline]%andb_true_iff. apply negb_true_iff in Hc.
  rewrite sapp_cons. cbn [Bufio.raw_lines]. by rewrite Hc, (IH Hline).
Qed.

Lemma dropCR_plain (s : string) :
  s ≠ "" → first_plain (String.rev s) = true → Bufio.dropCR s = s.
Proof.
  intros Hs Hlast. unfold Bufio.dropCR, Strings.CutSuffix.
  destruct (String.rev s) as [|c r] eqn:Hrev; [by destruct (rev_not_empty s Hs)|].
  change (String.rev (String "013"%char "")) with (String "013"%char "").
  unfold Strings.CutPrefix.
  destruct (Ascii.eqb_spec c "013"%char) as [->|]; [by vm_compute in Hlast|done].
Qed.

Lemma nonspace_not_newline (c : ascii) :
  ascii_nonspace c = true → negb (Ascii.eqb c "010"%char) = true.
Proof.
  intros Hc. apply negb_true_iff, Ascii.eqb_neq. intros ->. by vm_compute in Hc.
Qed.

Lemma plain_definition_line (d : string * string) :
  plain_definition d →
  let line := fst d +:+ "=" +:+ snd d in
  all_bytes ascii_nonspace line = true ∧ line ≠ "".
Proof.
  intros [Hname Hvalue]. destruct (identifier_bytes _ Hname) as [Hne Hchars]. split.
  - rewrite !all_bytes_app.
    rewrite (all_bytes_mono _ _ _ ident_char_nonspace Hchars).
    by rewrite (all_bytes_mono _ _ _ plain_nonspace Hvalue).
  - by destruct (fst d).
Qed.

(** The scanner on an environment file of short lines [NAME=VALUE],
    and on what follows them. *)
Lemma scan_lines_env_file (defs : list (string * string)) (tail : string) :
  Forall plain_definition defs →
  Forall short_definition defs →
  Bufio.scan_lines (Bufio.raw_lines (env_file defs +:+ tail))
  = (((λ d, fst d +:+ "=" +:+ snd d) <$> defs)
     ++ fst (Bufio.scan_lines (Bufio.raw_lines tail)),
     snd (Bufio.scan_lines (Bufio.raw_lines tail))).
Proof.
  intros Hdefs. induction Hdefs as [|d defs Hd _ IH]; intros Hshort.
  { cbn [env_file foldr fmap list_fmap app]. rewrite sapp_nil_l.
    by destruct (Bufio.scan_lines _). }
  apply Forall_cons in Hshort as [Hfits Hshort].
  destruct (plain_definition_line d Hd) as [Hall Hne].
  cbn [env_file foldr]. fold (env_file defs).
  replace ((fst d +:+ "=" +:+ snd d +:+ nl +:+ env_file defs) +:+ tail)
    with ((fst d +:+ "=" +:+ snd d) +:+ nl +:+ (env_file defs +:+ tail))
    by (by rewrite !sapp_assoc).
  rewrite raw_lines_cons by (revert Hall; apply all_bytes_mono, nonspace_not_newline).
  cbn [Bufio.scan_lines]. unfold short_definition in Hfits. rewrite Hfits.
  rewrite (IH Hshort). rewrite fmap_cons. cbn [app]. do 2 f_equal.
  apply dropCR_plain; [done|]. apply all_nonspace_first. by rewrite all_bytes_rev.
Qed.

Lemma ScanLines_env_file (defs : list (string * string)) :
  Forall plain_definition defs →
  Forall short_definition defs →
  Bufio.ScanLines (env_file defs) = ((λ d, fst d +:+ "=" +:+ snd d) <$> defs, false).
Proof.
  intros Hdefs Hshort. unfold Bufio.ScanLines.
  rewrite <- (sapp_nil_r (env_file defs)), (scan_lines_env_file defs "" Hdefs Hshort).
  cbn. by rewrite app_nil_r.
Qed.

(** The scanner stops at a line that does not fit into its buffer. *)
Lemma ScanLines_too_long (defs : list (string * string)) (long rest : string) :
  Forall plain_definition defs →
  Forall short_definition defs →
  all_bytes (λ c, negb (Ascii.eqb c "010"%char)) long = true →
  Bufio.fits long = false →
  Bufio.ScanLines (env_file defs +:+ long +:+ nl +:+ rest)
  = ((λ d, fst d +:+ "=" +:+ snd d) <$> defs, true).
Proof.
  intros Hdefs Hshort Hline Hlong. unfold Bufio.ScanLines.
  rewrite (scan_lines_env_file defs _ Hdefs Hshort), (raw_lines_cons _ _ Hline).
  cbn [Bufio.scan_lines]. rewrite Hlong. cbn. by rewrite app_nil_r.
Qed.

(** The lines [NAME=VALUE] of a list of pairs, taken one after the
    other, put the pairs into the map. *)
Lemma fold_definitions (defs : list (string * string)) (env : gmap string string) :
  Forall plain_definition defs →
  fold_left utils.LoadDotEnv_line ((λ d, fst d +:+ "=" +:+ snd d) <$> defs) env
  = foldl (λ env d, <[fst d := snd d]> env) env defs.
Proof.
  intros Hdefs. revert env. induction Hdefs as [|d defs Hd _ IH]; [done|].
  intros env. rewrite fmap_cons. cbn [fold_left foldl]. rewrite <- IH. do 2 f_equal.
  destruct Hd as [Hname Hvalue].
  pose proof (definition_line_defines env "" (fst d) "" "" "" (snd d) "" eq_refl eq_refl
                eq_refl eq_refl Hname Hvalue (or_introl eq_refl)) as H.
  unfold definition_line in H. by rewrite !sapp_nil_l, !sapp_nil_r in H.
Qed.

Lemma LoadDotEnv_env_file (w : World) (filename : string)
    (defs : list (string * string)) :
  Forall plain_definition defs →
  Forall short_definition defs →
  files w !! filename = Some (env_file defs) →
  utils.LoadDotEnv filename w
  = (Ret (Some (foldl (λ env d, <[fst d := snd d]> env) ∅ defs), None), w).
Proof.
  intros Hdefs Hshort Hfile. unfold utils.LoadDotEnv, bind, Open, ReadFile, exists_.
  rewrite Hfile. rewrite (bool_decide_eq_true_2 (is_Some _)) by (by eexists).
  cbn [orb]. rewrite Hfile. rewrite (ScanLines_env_file _ Hdefs Hshort).
  unfold ret. by rewrite (fold_definitions _ _ Hdefs).
Qed.

(** X18.  An environment file with one line [NAME=VALUE] for each of a
    list of pairs, each line ended by a newline and short enough for the
    scanner (less than 65536 bytes), is loaded as the map that has the
    pairs put in one after the other: every name of the list is a key,
    and where a name is defined twice the later line wins.  Loading
    changes nothing and returns no error.  When such lines are followed
    by a line of 65536 bytes or more, the scanner stops there: the map
    of the lines before it is returned with the error
    [bufio.Scanner: token too long], whatever comes after. *)
Theorem dotenv_file_defines (w : World) (filename : string)
    (defs : list (string * string)) :
  Forall plain_definition defs →
  Forall short_definition defs →
  (files w !! filename = Some (env_file defs) →
   utils.LoadDotEnv filename w
   = (Ret (Some (foldl (λ env d, <[fst d := snd d]> env) ∅ defs), None), w))
  ∧ (∀ long rest,
       all_bytes (λ c, negb (Ascii.eqb c "010"%char)) long = true →
       Bufio.fits long = false →
       files w !! filename = Some (env_file defs +:+ long +:+ nl +:+ rest) →
       utils.LoadDotEnv filename w
       = (Ret (Some (foldl (λ env d, <[fst d := snd d]> env) ∅ defs),
               Some (ErrorString "bufio.Scanner: token too long")), w)).
Proof.
  intros Hdefs Hshort. split; [by apply LoadDotEnv_env_file|].
  intros long rest Hline Hlong Hfile.
  unfold utils.LoadDotEnv, bind, Open, ReadFile, exists_.
  rewrite Hfile. rewrite (bool_decide_eq_true_2 (is_Some _)) by (by eexists).
  cbn [orb]. rewrite Hfile. rewrite (ScanLines_too_long _ _ _ Hdefs Hshort Hline Hlong).
  unfold ret. by rewrite (fold_definitions _ _ Hdefs).
Qed.

Lemma dotenv_file_defines_witness :
  let defs := [("HOST", "a.example"); ("PORT", "80"); ("HOST", "b.example")] in
  Forall short_definition defs
  ∧ utils.LoadDotEnv ".env" (set_files {[ ".env" := env_file defs ]} (Sample.empty_dir ""))
    = (Ret (Some (<["HOST" := "b.example"]>
                    (<["PORT" := "80"]> (<["HOST" := "a.example"]> ∅))), None),
       set_files {[ ".env" := env_file defs ]} (Sample.empty_dir "")).
Proof.
  intros defs.
  assert (Forall short_definition defs) as Hshort
    by (repeat (constructor; [vm_compute; reflexivity|]); constructor).
  split; [exact Hshort|].
  apply (proj1 (dotenv_file_defines _ ".env" defs
                  ltac:(repeat constructor) Hshort)).
  vm_compute. reflexivity.
Defined.

(** ** The substitution of the environment *)

(** What the function that [injectEnvVariables] hands to
    [ReplaceAllStringFunc] makes of a match. *)
Lemma replacement_of_match (env : gmap string string) (s : string) m r :
  Regexp.match_here s = Some (m, r) →
  match Regexp.FindStringSubmatch (Regexp.whole m) with
  | None => Regexp.whole m
  | Some matches =>
      match env !! Regexp.group1 matches with
      | Some val => val
      | None => Regexp.whole m
      end
  end = default (Regexp.whole m) (env !! Regexp.group1 m)
  ∧ is_identifier (Regexp.group1 m) = true.
Proof.
  intros H. destruct (match_here_sound _ _ _ H) as [_ (ws1 & ws2 & H1 & H2 & Hname & Hwhole)].
  split; [|done].
  pose proof (match_here_complete ws1 (Regexp.group1 m) ws2 "" H1 H2 Hname) as Hself.
  rewrite <- !sapp_assoc, sapp_nil_r, !sapp_assoc, <- Hwhole in Hself.
  rewrite (FindStringSubmatch_here _ _ _ Hself). cbn [Regexp.group1].
  by destruct (env !! Regexp.group1 m).
Qed.

(** X19.  White space inside the braces is part of an occurrence: in
    whatever text it stands, [${{], white space of the class [\s], a
    name, white space again and [}}] are replaced as a whole by the value
    of the name, and left as they are, white space and all, when the name
    is no key of the map. *)
Theorem placeholder_may_hold_white_space
    (env : gmap string string) (pre ws1 name ws2 post : string) :
  all_bytes Regexp.is_s ws1 = true →
  all_bytes Regexp.is_s ws2 = true →
  is_identifier name = true →
  workflows.injectEnvVariables
    (pre +:+ "${{" +:+ ws1 +:+ name +:+ ws2 +:+ "}}" +:+ post) env
  = workflows.injectEnvVariables pre env
    +:+ default ("${{" +:+ ws1 +:+ name +:+ ws2 +:+ "}}") (env !! name)
    +:+ workflows.injectEnvVariables post env.
Proof.
  intros H1 H2 Hname. unfold workflows.injectEnvVariables.
  change ("${{" +:+ ws1 +:+ name +:+ ws2 +:+ "}}" +:+ post)
    with (String dollar ("{{" +:+ ws1 +:+ name +:+ ws2 +:+ "}}" +:+ post)).
  rewrite ReplaceAll_before_dollar. f_equal.
  change (String dollar ("{{" +:+ ws1 +:+ name +:+ ws2 +:+ "}}" +:+ post))
    with ("${{" +:+ ws1 +:+ name +:+ ws2 +:+ "}}" +:+ post).
  pose proof (match_here_complete ws1 name ws2 post H1 H2 Hname) as Hm.
  rewrite (ReplaceAll_match _ _ _ _ Hm). f_equal. cbv beta.
  by destruct (replacement_of_match env _ _ _ Hm) as [-> _].
Qed.

Lemma placeholder_may_hold_white_space_witness :
  workflows.injectEnvVariables ("url: " +:+ "${{" +:+ " " +:+ "HOST" +:+ " " +:+ "}}" +:+ "/hook")
    {[ "HOST" := "example.org" ]}
  = "url: example.org/hook".
Proof.
  rewrite (placeholder_may_hold_white_space {[ "HOST" := "example.org" ]}
             "url: " " " "HOST" " " "/hook" eq_refl eq_refl eq_refl).
  vm_compute. reflexivity.
Defined.

(** Substitution with a function that keeps every match keeps the
    text. *)
Lemma ReplaceAll_keep (s : string) (repl : string → string) :
  (∀ t m r, Regexp.match_here t = Some (m, r) → repl (Regexp.whole m) = Regexp.whole m) →
  Regexp.ReplaceAllStringFunc s repl = s.
Proof.
  intros Hrepl. remember (String.length s) as n eqn:Hn.
  revert s Hn. induction n as [n IH] using lt_wf_ind. intros s Hn.
  destruct s as [|c s']; [reflexivity|].
  destruct (Regexp.match_here (String c s')) as [[m r]|] eqn:E.
  - rewrite (ReplaceAll_match _ m r repl E), (Hrepl _ _ _ E).
    destruct (match_here_whole _ _ _ E) as [Hs [tl Htl]].
    rewrite (IH (String.length r)); [done| |done].
    rewrite Hn, Hs, sapp_length, Htl. simpl. lia.
  - rewrite (ReplaceAll_no_match _ _ repl E). f_equal.
    apply (IH (String.length s')); [|done]. rewrite Hn. simpl. lia.
Qed.

(** X20.  Only names that are keys are touched: with a map none of
    whose keys is a name of the pattern (the empty map of an empty
    environment file, or keys such as [MY-VAR] or [2ND]), the text comes
    back as it is, whatever occurrences it has. *)
Theorem substitution_needs_a_name_as_key (env : gmap string string) (yaml : string) :
  (∀ name, is_identifier name = true → env !! name = None) →
  workflows.injectEnvVariables yaml env = yaml.
Proof.
  intros Hkeys. unfold workflows.injectEnvVariables. apply ReplaceAll_keep.
  intros t m r Hm. destruct (replacement_of_match env _ _ _ Hm) as [-> Hname].
  by rewrite (Hkeys _ Hname).
Qed.

Lemma substitution_needs_a_name_as_key_witness :
  workflows.injectEnvVariables "url: ${{MY-VAR}}/${{HOST}}" {[ "MY-VAR" := "x" ]}
  = "url: ${{MY-VAR}}/${{HOST}}".
Proof.
  apply substitution_needs_a_name_as_key. intros name Hname.
  apply lookup_singleton_None. intros <-. by vm_compute in Hname.
Defined.

Lemma match_here_needs_open (s : string) :
  Strings.HasPrefix s "${{" = false → Regexp.match_here s = None.
Proof.
  intros H. unfold Regexp.match_here.
  destruct (Strings.CutPrefix s "${{") as [s1|] eqn:E; [|done].
  apply CutPrefix_spec in E. by rewrite E, HasPrefix_app in H.
Qed.

(** X21.  A text without the bytes [${{] is not changed by the
    substitution, whatever the map holds. *)
Theorem text_without_placeholder_is_kept (env : gmap string string) (yaml : string) :
  Strings.Contains yaml "${{" = false →
  workflows.injectEnvVariables yaml env = yaml.
Proof.
  unfold workflows.injectEnvVariables. generalize (λ match_ : string,
    match Regexp.FindStringSubmatch match_ with
    | None => match_
    | Some matches =>
        match env !! Regexp.group1 matches with
        | Some val => val
        | None => match_
        end
    end). intros repl.
  induction yaml as [|c yaml IH]; [done|].
  unfold Strings.Contains; fold Strings.Contains.
  intros [Hhere Hrest]%orb_false_iff.
  rewrite (ReplaceAll_no_match _ _ _ (match_here_needs_open _ Hhere)).
  by rewrite (IH Hrest).
Qed.

Lemma text_without_placeholder_is_kept_witness :
  workflows.injectEnvVariables "price: $5 {{HOST}}" {[ "HOST" := "example.org" ]}
  = "price: $5 {{HOST}}".
Proof.
  apply text_without_placeholder_is_kept. vm_compute. reflexivity.
Defined.

(** ** The inclusion of scripts *)

Lemma Split_not_nil (s : string) (sep : ascii) : Strings.Split s sep ≠ [].
Proof.
  induction s as [|c s IH]; [done|]. simpl.
  destruct (Ascii.eqb c sep); [done|]. by destruct (Strings.Split s sep).
Qed.

(** Joining the pieces of a split with the separator gives the text
    back. *)
Lemma Join_Split (s : string) (sep : ascii) :
  Strings.Join (Strings.Split s sep) (String sep "") = s.
Proof.
  induction s as [|c s IH]; [done|]. cbn [Strings.Split].
  pose proof (Split_not_nil s sep) as Hne.
  destruct (Ascii.eqb_spec c sep) as [->|_].
  - destruct (Strings.Split s sep) as [|piece pieces]; [done|].
    cbn [Strings.Join]. cbn [Strings.Join] in IH. by rewrite IH.
  - destruct (Strings.Split s sep) as [|piece pieces]; [done|].
    cbn [Strings.Join]. cbn [Strings.Join] in IH.
    destruct pieces; [by rewrite IH|]. by rewrite sapp_cons, IH.
Qed.

Lemma lines_kept yamlPath lines w :
  Forall (λ line, is_include line = false) lines →
  workflows.injectJSCode_lines yamlPath lines [] w = (Ret (Ok lines), w).
Proof.
  induction 1 as [|line lines Hline _ IH]; [done|].
  by rewrite lines_cons, Hline, lines_acc, IH.
Qed.

(** X22.  A YAML file none of whose lines is an inclusion directive
    (trimmed, a text from [jsCode: file(] to [)]) comes out of
    [injectJSCode] byte for byte as it is: splitting into lines and
    joining them again loses nothing, be it an empty line, a missing
    newline at the end, or a carriage return. *)
Theorem source_without_directive_is_kept (yamlPath yaml : string) (w : World) :
  files w !! yamlPath = Some yaml →
  Forall (λ line, is_include line = false) (Strings.Split yaml "010"%char) →
  workflows.injectJSCode yamlPath w = (Ret (Ok yaml), w).
Proof.
  intros Hyaml Hlines. unfold workflows.injectJSCode.
  rewrite (bind_Ret _ _ _ _ _ (ReadFile_present _ _ _ Hyaml)).
  rewrite (bind_Ret _ _ _ _ _ (lines_kept yamlPath _ w Hlines)).
  unfold ret, nl. by rewrite Join_Split.
Qed.

Lemma source_without_directive_is_kept_witness :
  let yaml := "a: 1" +:+ String "013"%char nl +:+ nl +:+ "# jsCode: file(x.js) later" in
  let w := set_files {[ "workflow.yaml" := yaml ]} (Sample.empty_dir "") in
  workflows.injectJSCode "workflow.yaml" w = (Ret (Ok yaml), w).
Proof.
  intros yaml w. apply source_without_directive_is_kept.
  - vm_compute. reflexivity.
  - assert (Strings.Split yaml "010"%char
            = ["a: 1" +:+ String "013"%char ""; ""; "# jsCode: file(x.js) later"]) as ->
      by (vm_compute; reflexivity).
    repeat (constructor; [vm_compute; reflexivity|]). constructor.
Defined.

(** X23.  A script that cannot be read ends the preview at once.  Let
    the source have the marker [jsCode: file(index.js)], and let the
    first inclusion directive among its lines name a file that is not
    there.  Then the preview flow returns, unconfirmed, the error
    [failed to inject index.js code: failed to read PATH:] with the
    error of the read, PATH being the file name next to the source;
    [yq] is not started, nothing is printed, read or written. *)
Theorem missing_script_stops_preview sys w yaml before line after name :
  files w !! "workflow.yaml" = Some yaml →
  Strings.Contains yaml "jsCode: file(index.js)" = true →
  Strings.Split yaml "010"%char = before ++ line :: after →
  Forall (λ l, is_include l = false) before →
  Strings.TrimSpace line = "jsCode: file(" +:+ name +:+ ")" →
  files w !! Filepath.Join ["."; name] = None →
  ∃ cause,
    workflows.PreviewWorkflowJSONWithPrompt sys w
    = (Ret (false,
            Some (WrapError "failed to inject index.js code: "
                    (WrapError ("failed to read " +:+ Filepath.Join ["."; name] +:+ ": ")
                       cause))), w)
    ∧ ∃ op e, cause = PathError op (Filepath.Join ["."; name]) e.
Proof.
  intros Hyaml Hmarker Hsplit Hbefore Htrim Hjs.
  assert (∃ op e,
            workflows.injectJSCode "workflow.yaml" w
            = (Ret (Err (WrapError ("failed to read " +:+ Filepath.Join ["."; name] +:+ ": ")
                           (PathError op (Filepath.Join ["."; name]) e))), w))
    as (op & e & Hinject).
  { unfold workflows.injectJSCode.
    rewrite (bind_Ret _ _ _ _ _ (ReadFile_present _ _ _ Hyaml)).
    rewrite Hsplit. unfold bind. rewrite lines_app, (lines_kept _ _ _ Hbefore), lines_cons.
    destruct (include_name _ _ Htrim) as (Hpre & Hsuf & Hname).
    unfold is_include. rewrite Hpre, Hsuf. cbn [andb]. cbv zeta.
    rewrite Hname, Dir_Join_workflow. unfold ReadFile. rewrite Hjs.
    destruct (is_dir w _); by eexists _, _. }
  exists (PathError op (Filepath.Join ["."; name]) e). split; [|by eexists _, _].
  pose proof (Preview_source sys w) as Hsrc. unfold preview_source in Hsrc.
  rewrite (ReadFile_present _ _ _ Hyaml), Hmarker, Hinject in Hsrc. exact Hsrc.
Qed.

Lemma missing_script_stops_preview_witness :
  let w := set_files (delete "index.js" (files (Sample.project "y"))) (Sample.project "y") in
  ∃ cause,
    workflows.PreviewWorkflowJSONWithPrompt (Sample.platform Sample.ok_200) w
    = (Ret (false,
            Some (WrapError "failed to inject index.js code: "
                    (WrapError ("failed to read " +:+ "index.js" +:+ ": ") cause))), w).
Proof.
  intros w.
  destruct (missing_script_stops_preview (Sample.platform Sample.ok_200) w
              ("  jsCode: file(index.js)" +:+ nl +:+ "url: ${{HOST}}/hook")
              [] "  jsCode: file(index.js)" ["url: ${{HOST}}/hook"] "index.js")
    as (cause & E & _); try (vm_compute; reflexivity).
  - constructor.
  - exists cause. exact E.
Defined.

(** ** The environment file in the preview *)

(** X24.  What the preview hands to [yq], for a source without the
    marker [jsCode: file(index.js)]: with an environment file of lines
    [NAME=VALUE], each short enough for the scanner (less than 65536
    bytes), it is the source after the substitution of these
    definitions; with no environment file at all it is the source as it
    is, occurrences of [${{NAME}}] and all, and that is no error. *)
Theorem preview_substitutes_env_file sys w yaml :
  files w !! "workflow.yaml" = Some yaml →
  Strings.Contains yaml "jsCode: file(index.js)" = false →
  let handed text :=
    ∃ evs, trace (snd (workflows.PreviewWorkflowJSONWithPrompt sys w))
           = trace w ++ EvExec "yq" ["."; "-"] text :: evs in
  (∀ defs, Forall plain_definition defs →
     Forall short_definition defs →
     files w !! ".env" = Some (env_file defs) →
     handed (workflows.injectEnvVariables yaml
               (foldl (λ env d, <[fst d := snd d]> env) ∅ defs)))
  ∧ (exists_ w ".env" = false → handed yaml).
Proof.
  intros Hyaml Hmarker handed.
  assert (∀ text, preview_source w = Ok text → handed text) as Hhanded.
  { intros text Hsrc. pose proof (Preview_source sys w) as H. rewrite Hsrc in H.
    destruct H as (evs & E & _). by exists evs. }
  split.
  - intros defs Hdefs Hshort Henv. apply Hhanded. unfold preview_source.
    rewrite (ReadFile_present _ _ _ Hyaml), Hmarker.
    by rewrite (LoadDotEnv_env_file w ".env" defs Hdefs Hshort Henv).
  - intros Hnone. apply Hhanded. unfold preview_source.
    rewrite (ReadFile_present _ _ _ Hyaml), Hmarker.
    unfold utils.LoadDotEnv, bind, Open. rewrite Hnone.
    unfold missing_errno, parent_errno.
    assert (Filepath.Dir ".env" = ".") as -> by (vm_compute; reflexivity).
    assert (is_dir w "." = true) as -> by (apply bool_decide_eq_true; by left).
    reflexivity.
Qed.

Lemma preview_substitutes_env_file_witness :
  let w := set_files {[ "workflow.yaml" := "url: ${{HOST}}/hook";
                        ".env" := env_file [("HOST", "example.org")] ]}
             (Sample.empty_dir "n") in
  ∃ evs, trace (snd (workflows.PreviewWorkflowJSONWithPrompt
                       (Sample.platform Sample.ok_200) w))
         = trace w ++ EvExec "yq" ["."; "-"] "url: example.org/hook" :: evs.
Proof.
  intros w.
  assert (files w !! "workflow.yaml" = Some "url: ${{HOST}}/hook") as Hyaml
    by (vm_compute; reflexivity).
  destruct (proj1 (preview_substitutes_env_file (Sample.platform Sample.ok_200) w
                     "url: ${{HOST}}/hook" Hyaml ltac:(vm_compute; reflexivity))
              [("HOST", "example.org")]) as [evs E].
  - repeat constructor.
  - constructor; [vm_compute; reflexivity|constructor].
  - vm_compute. reflexivity.
  - exists evs. rewrite E. reflexivity.
Defined.

(** ** Reading the standard input *)

(** X25.  [ReadStdin] takes everything: whatever is left on the
    standard input, with or without a newline at its end, the loop ends
    and returns all of it without the white space around it, and after
    it the input is at its end; nothing else changes. *)
Theorem ReadStdin_takes_all_input (w : World) :
  utils.ReadStdin w = (Ret (Strings.TrimSpace (stdin w)), set_stdin "" w).
Proof. apply ReadStdin_all. Qed.

(** ** The login *)

(** X26.  With both flags given and not empty the login asks nothing:
    the values of [--base-url] and [--token], in either order, are taken
    as they are (they are not trimmed), nothing is printed and nothing is
    read from the standard input.  A base URL left out on the command
    line is asked for instead: the prompt is printed, and one line of the
    standard input, without the white space around it, is the base
    URL. *)
Theorem login_flags_skip_prompts (baseURL token : string) (w : World) :
  baseURL ≠ "" → token ≠ "" →
  entities.HandleLogin_inputs ["--base-url"; baseURL; "--token"; token] w
  = (Ret (baseURL, token), w)
  ∧ entities.HandleLogin_inputs ["--token"; token; "--base-url"; baseURL] w
    = (Ret (baseURL, token), w)
  ∧ entities.HandleLogin_inputs ["--token"; token] w
    = (Ret (Strings.TrimSpace (fst (fst (Bufio.ReadString (stdin w) "010"))), token),
       set_stdin (snd (fst (Bufio.ReadString (stdin w) "010")))
         (log (EvStdout "Enter API base URL: ") w)).
Proof.
  intros Hbase Htoken.
  assert (∀ values : gmap string string,
            values !! "base-url" = Some baseURL → values !! "token" = Some token →
            (let baseURL := default "" (values !! "base-url") in
             let token := default "" (values !! "token") in
             baseURL <-
               (if decide (baseURL = "") then
                  fmt_Print "Enter API base URL: " ;;
                  '(input, _) <- stdin_ReadString ;;
                  ret (Strings.TrimSpace input)
                else ret baseURL) ;;
             token <-
               (if decide (token = "") then
                  fmt_Print ("Enter API token (visit " +:+ baseURL
                             +:+ "/settings/api to generate one): ") ;;
                  '(input, _) <- stdin_ReadString ;;
                  ret (Strings.TrimSpace input)
                else ret token) ;;
             ret (baseURL, token))%go w = (Ret (baseURL, token), w)) as Hboth.
  { intros values -> ->. cbn [default]. cbv zeta.
    rewrite decide_False by done. rewrite bind_ret.
    rewrite decide_False by done. by rewrite bind_ret. }
  split; [|split].
  - unfold entities.HandleLogin_inputs.
    change (Flag.Parse ["base-url"; "token"] ∅ ["--base-url"; baseURL; "--token"; token])
      with (Flag.Parsed (<["token" := token]> (<["base-url" := baseURL]> ∅))).
    apply Hboth; [by rewrite lookup_insert_ne, lookup_insert_eq|by rewrite lookup_insert_eq].
  - unfold entities.HandleLogin_inputs.
    change (Flag.Parse ["base-url"; "token"] ∅ ["--token"; token; "--base-url"; baseURL])
      with (Flag.Parsed (<["base-url" := baseURL]> (<["token" := token]> ∅))).
    apply Hboth; [by rewrite lookup_insert_eq|by rewrite lookup_insert_ne, lookup_insert_eq].
  - unfold entities.HandleLogin_inputs.
    change (Flag.Parse ["base-url"; "token"] ∅ ["--token"; token])
      with (Flag.Parsed (<["token" := token]> ∅)).
    cbv beta iota zeta.
    rewrite lookup_insert_ne, lookup_empty by done. rewrite lookup_insert_eq.
    cbn [default]. rewrite decide_True by done.
    rewrite bind_bind, bind_Print, bind_bind, bind_stdin_ReadString, bind_ret.
    rewrite decide_False by done. by rewrite bind_ret.
Qed.

Lemma login_flags_skip_prompts_witness :
  entities.HandleLogin_inputs ["--base-url"; "https://n8n.example/"; "--token"; "abc"]
    (Sample.empty_dir "unread")
  = (Ret ("https://n8n.example/", "abc"), Sample.empty_dir "unread").
Proof.
  apply (login_flags_skip_prompts "https://n8n.example/" "abc" (Sample.empty_dir "unread"));
    discriminate.
Defined.

(** ** The answer of the server *)

(** X27.  [n8nAPIRequest] returns the body of the answer exactly when
    the request could be made and sent, the body could be read, and the
    status code is from 200 to 299; in every other case it returns an
    error.  It sends the request, once, unless [http.NewRequest] refuses
    the method or the URL. *)
Theorem request_succeeds_on_2xx_only sys method url body apiKey w data :
  let req := request_of method url body apiKey in
  (fst (entities.n8nAPIRequest sys method url body apiKey w) = Ret (Ok data)
   ↔ NewRequest_error sys method url = None
     ∧ ∃ resp, client_Do sys req = Ok resp ∧ Body resp = Ok data
               ∧ 200 <= StatusCode resp < 300)
  ∧ snd (entities.n8nAPIRequest sys method url body apiKey w)
    = match NewRequest_error sys method url with
      | Some _ => w
      | None => log (EvHTTP req) w
      end.
Proof.
  intros req. unfold entities.n8nAPIRequest.
  fold (request_of method url body apiKey). fold req.
  destruct (NewRequest_error sys method url) as [err|].
  { split; [|done]. split; [done|]. by intros [? _]. }
  unfold bind, ret. cbv beta iota.
  destruct (client_Do sys req) as [resp|err].
  2: { split; [|done]. split; [done|]. by intros [_ (resp & ? & _)]. }
  destruct (Body resp) as [data'|err] eqn:Hbody.
  2: { split; [|done]. split; [done|].
       intros [_ (resp' & [= <-] & Hb & _)]. by rewrite Hbody in Hb. }
  destruct (bool_decide _) eqn:Hcode.
  - split; [|done]. split; [done|].
    intros [_ (resp' & [= <-] & _ & Hc)].
    apply bool_decide_eq_true in Hcode. lia.
  - split; [|done]. apply bool_decide_eq_false in Hcode. split.
    + intros [= ->]. split; [done|]. exists resp. repeat split; [done|lia..].
    + intros [_ (resp' & [= <-] & Hb & _)]. rewrite Hbody in Hb. by injection Hb as ->.
Qed.
